(** * OpenAI-compatible translation plugin: the two variants of [translate]

    The repository holds two variants of one function, [translate]:
    [src/main.js] (module [Main] below) and [src/unnamed/part_000]
    (module [Part000]).  Both read a configuration, normalise the endpoint,
    render two prompts, post one request and decode the answer, buffered
    or as a stream of server-sent events, stripping marker tags.

    JavaScript strings are sequences of UTF-16 code units; they are
    modelled as [list N], one number per code unit, so that [length],
    [substring], [trim], [startsWith] and the regular expressions of the
    source (none of which has the [u] flag) work on the same units as in
    the program.

    The file has the primitives of the language the program uses
    (strings, [JSON.parse], the regular expressions of the tag
    strippers, truthiness and property access), then the two variants,
    then the vocabulary of the statements, then the facts: first on the
    primitives, then one section for each claim C1 to C10.  A call is
    modelled by its effects: the requests sent, the texts given to the
    callback and the value returned or thrown; what is written to the
    console is left out. *)

From Stdlib Require Import NArith List Ascii String Bool Lia.
From stdpp Require Import base option list gmap.

Local Open Scope N_scope.
Local Open Scope list_scope.

(** ** Strings *)

Abbreviation jstring := (list N).

Fixpoint js (s : string) : jstring :=
  match s with
  | EmptyString => []
  | String c r => N_of_ascii c :: js r
  end.
Arguments js s%_string : simpl never.

(** [jq] is [js] with every apostrophe of the literal read as a double
    quote, to write JSON texts. *)
Definition jq (s : string) : jstring :=
  map (fun c => if N.eqb c 39 then 34 else c) (js s).
Arguments jq s%_string : simpl never.

Module Str.

Definition eqb (a b : jstring) : bool := bool_decide (a = b).

(** [strip_prefix p s] is the rest of [s] after the prefix [p], when [s]
    starts with [p]. *)
Fixpoint strip_prefix (p s : jstring) : option jstring :=
  match p with
  | [] => Some s
  | c :: p' =>
      match s with
      | [] => None
      | d :: s' => if N.eqb c d then strip_prefix p' s' else None
      end
  end.

(** [String.prototype.startsWith], [endsWith], [substring(n)]. *)
Definition startsWith (s p : jstring) : bool :=
  match strip_prefix p s with Some _ => true | None => false end.

Definition endsWith (s p : jstring) : bool :=
  startsWith (rev s) (rev p).

Definition substring (n : nat) (s : jstring) : jstring := drop n s.

(** White space of the language: the code units that [trim] removes and
    that the class [\s] of a regular expression matches (WhiteSpace and
    LineTerminator of ECMAScript). *)
Definition is_ws (c : N) : bool :=
  (9 <=? c) && (c <=? 13) || (c =? 32) || (c =? 160) || (c =? 5760)
  || (8192 <=? c) && (c <=? 8202) || (c =? 8232) || (c =? 8233)
  || (c =? 8239) || (c =? 8287) || (c =? 12288) || (c =? 65279).

Fixpoint trimStart (s : jstring) : jstring :=
  match s with
  | [] => []
  | c :: s' => if is_ws c then trimStart s' else s
  end.

Definition trimEnd (s : jstring) : jstring := rev (trimStart (rev s)).

Definition trim (s : jstring) : jstring := trimEnd (trimStart s).

(** [find p s] splits [s] around the first occurrence of [p]: the text
    before it and the text after it. *)
Fixpoint find (p s : jstring) : option (jstring * jstring) :=
  match strip_prefix p s with
  | Some rest => Some ([], rest)
  | None =>
      match s with
      | [] => None
      | c :: s' =>
          match find p s' with
          | Some (a, b) => Some (c :: a, b)
          | None => None
          end
      end
  end.

Definition includes (s p : jstring) : bool :=
  match find p s with Some _ => true | None => false end.

(** GetSubstitution for a string pattern (no captures): in the
    replacement text [$$] is a dollar, [$&] the matched text, [$`] the
    text before the match and [$'] the text after it; every other
    character, a dollar before a digit or [<] included, stands for
    itself. *)
Fixpoint getSubstitution (matched before after repl : jstring) : jstring :=
  match repl with
  | [] => []
  | c :: r =>
      if N.eqb c 36 then
        match r with
        | d :: r' =>
            if N.eqb d 36 then 36 :: getSubstitution matched before after r'
            else if N.eqb d 38 then matched ++ getSubstitution matched before after r'
            else if N.eqb d 96 then before ++ getSubstitution matched before after r'
            else if N.eqb d 39 then after ++ getSubstitution matched before after r'
            else c :: getSubstitution matched before after r
        | [] => [c]
        end
      else c :: getSubstitution matched before after r
  end.

(** [s.replace(p, repl)] for a string [p]: the first occurrence only. *)
Definition replace (p repl s : jstring) : jstring :=
  match find p s with
  | None => s
  | Some (a, b) => a ++ getSubstitution p a b repl ++ b
  end.

(** [s.split(sep)] for a separator of one code unit. *)
Fixpoint split (sep : N) (s : jstring) : list jstring :=
  match s with
  | [] => [[]]
  | c :: s' =>
      if N.eqb c sep then [] :: split sep s'
      else
        match split sep s' with
        | [] => [[c]]
        | w :: ws => (c :: w) :: ws
        end
  end.

End Str.

Set Warnings "-register-all".

(** ** JSON values and [JSON.parse] *)

(** The values [JSON.parse] produces.  A number keeps its lexeme: what
    number it denotes is floating point, see [Host] below.  An object
    keeps its members in the order of the text; a later member of the
    same name wins ([Json.own]). *)
Inductive json : Type :=
| JNull
| JBool (b : bool)
| JNum (lexeme : jstring)
| JStr (s : jstring)
| JArr (items : list json)
| JObj (members : list (jstring * json)).

Module Json.

Definition is_ws (c : N) : bool :=
  (c =? 9) || (c =? 10) || (c =? 13) || (c =? 32).

Fixpoint skip_ws (s : jstring) : jstring :=
  match s with
  | [] => []
  | c :: s' => if is_ws c then skip_ws s' else s
  end.

Definition is_digit (c : N) : bool := (48 <=? c) && (c <=? 57).

Fixpoint span_digits (s : jstring) : jstring * jstring :=
  match s with
  | [] => ([], [])
  | c :: s' =>
      if is_digit c then let '(ds, r) := span_digits s' in (c :: ds, r)
      else ([], s)
  end.

Definition hex_digit (c : N) : option N :=
  if is_digit c then Some (c - 48)
  else if (97 <=? c) && (c <=? 102) then Some (c - 87)
  else if (65 <=? c) && (c <=? 70) then Some (c - 55)
  else None.

Definition hex4 (a b c d : N) : option N :=
  match hex_digit a, hex_digit b, hex_digit c, hex_digit d with
  | Some x, Some y, Some z, Some w => Some (((x * 16 + y) * 16 + z) * 16 + w)
  | _, _, _, _ => None
  end.

(** The characters of a string literal after its opening quote, up to
    and without the closing quote. *)
Fixpoint parse_chars (s : jstring) : option (jstring * jstring) :=
  let cons c o :=
    match o with Some (w, r) => Some (c :: w, r) | None => None end in
  match s with
  | [] => None
  | c :: r =>
      if c =? 34 then Some ([], r)
      else if c =? 92 then
        match r with
        | [] => None
        | e :: r' =>
            if (e =? 34) || (e =? 92) || (e =? 47) then cons e (parse_chars r')
            else if e =? 98 then cons 8 (parse_chars r')
            else if e =? 102 then cons 12 (parse_chars r')
            else if e =? 110 then cons 10 (parse_chars r')
            else if e =? 114 then cons 13 (parse_chars r')
            else if e =? 116 then cons 9 (parse_chars r')
            else if e =? 117 then
              match r' with
              | h1 :: h2 :: h3 :: h4 :: r'' =>
                  match hex4 h1 h2 h3 h4 with
                  | Some u => cons u (parse_chars r'')
                  | None => None
                  end
              | _ => None
              end
            else None
        end
      else if c <? 32 then None
      else cons c (parse_chars r)
  end.

(** A number: its lexeme and the rest of the text. *)
Definition parse_number (s : jstring) : option (jstring * jstring) :=
  let '(sign, s1) :=
    match s with
    | c :: r => if c =? 45 then ([c], r) else ([], s)
    | [] => ([], s)
    end in
  let int :=
    match s1 with
    | c :: r =>
        if c =? 48 then Some ([c], r)
        else if is_digit c then
          let '(ds, r') := span_digits r in Some (c :: ds, r')
        else None
    | [] => None
    end in
  match int with
  | None => None
  | Some (i, s2) =>
      let frac :=
        match s2 with
        | c :: r =>
            if c =? 46 then
              match span_digits r with
              | ([], _) => None
              | (ds, r') => Some (c :: ds, r')
              end
            else Some ([], s2)
        | [] => Some ([], s2)
        end in
      match frac with
      | None => None
      | Some (f, s3) =>
          let exp :=
            match s3 with
            | c :: r =>
                if (c =? 101) || (c =? 69) then
                  let '(sg, r1) :=
                    match r with
                    | d :: r0 =>
                        if (d =? 43) || (d =? 45) then ([d], r0) else ([], r)
                    | [] => ([], r)
                    end in
                  match span_digits r1 with
                  | ([], _) => None
                  | (ds, r') => Some (c :: sg ++ ds, r')
                  end
                else Some ([], s3)
            | [] => Some ([], s3)
            end in
          match exp with
          | None => None
          | Some (e, s4) => Some (sign ++ i ++ f ++ e, s4)
          end
      end
  end.

Definition literal (word : jstring) (v : json) (s : jstring)
  : option (json * jstring) :=
  match Str.strip_prefix word s with
  | Some r => Some (v, r)
  | None => None
  end.

(** Recursive descent.  [parse_value] reads one value after optional
    white space; [parse_elements] reads the elements of an array from
    the first one to the closing bracket; [parse_members] the members
    of an object from the first name to the closing brace.  Every call
    uses one unit of fuel. *)
Fixpoint parse_value (fuel : nat) (s : jstring) {struct fuel}
  : option (json * jstring) :=
  match fuel with
  | O => None
  | S f =>
      match skip_ws s with
      | [] => None
      | c :: r =>
          if c =? 123 then
            match skip_ws r with
            | d :: r' =>
                if d =? 125 then Some (JObj [], r')
                else
                  match parse_members f (d :: r') with
                  | Some (ms, r'') => Some (JObj ms, r'')
                  | None => None
                  end
            | [] => None
            end
          else if c =? 91 then
            match skip_ws r with
            | d :: r' =>
                if d =? 93 then Some (JArr [], r')
                else
                  match parse_elements f (d :: r') with
                  | Some (vs, r'') => Some (JArr vs, r'')
                  | None => None
                  end
            | [] => None
            end
          else if c =? 34 then
            match parse_chars r with
            | Some (w, r') => Some (JStr w, r')
            | None => None
            end
          else if c =? 116 then literal (js "true") (JBool true) (c :: r)
          else if c =? 102 then literal (js "false") (JBool false) (c :: r)
          else if c =? 110 then literal (js "null") JNull (c :: r)
          else
            match parse_number (c :: r) with
            | Some (lx, r') => Some (JNum lx, r')
            | None => None
            end
      end
  end
with parse_elements (fuel : nat) (s : jstring) {struct fuel}
  : option (list json * jstring) :=
  match fuel with
  | O => None
  | S f =>
      match parse_value f s with
      | None => None
      | Some (v, r) =>
          match skip_ws r with
          | c :: r' =>
              if c =? 44 then
                match parse_elements f r' with
                | Some (vs, r'') => Some (v :: vs, r'')
                | None => None
                end
              else if c =? 93 then Some ([v], r')
              else None
          | [] => None
          end
      end
  end
with parse_members (fuel : nat) (s : jstring) {struct fuel}
  : option (list (jstring * json) * jstring) :=
  match fuel with
  | O => None
  | S f =>
      match skip_ws s with
      | q :: r0 =>
          if q =? 34 then
            match parse_chars r0 with
            | None => None
            | Some (k, r1) =>
                match skip_ws r1 with
                | c :: r2 =>
                    if c =? 58 then
                      match parse_value f r2 with
                      | None => None
                      | Some (v, r3) =>
                          match skip_ws r3 with
                          | d :: r4 =>
                              if d =? 44 then
                                match parse_members f r4 with
                                | Some (ms, r5) => Some ((k, v) :: ms, r5)
                                | None => None
                                end
                              else if d =? 125 then Some ([(k, v)], r4)
                              else None
                          | [] => None
                          end
                      end
                    else None
                | [] => None
                end
            end
          else None
      | [] => None
      end
  end.

(** [JSON.parse(text)]: one value, then only white space.  [None] is
    the SyntaxError. *)
Definition parse (text : jstring) : option json :=
  match parse_value (2 * length text + 3) text with
  | Some (v, r) => match skip_ws r with [] => Some v | _ => None end
  | None => None
  end.

(** The own property [k] of an object: the last member of that name. *)
Fixpoint own (ms : list (jstring * json)) (k : jstring) : option json :=
  match ms with
  | [] => None
  | (k', v) :: ms' =>
      match own ms' k with
      | Some w => Some w
      | None => if Str.eqb k' k then Some v else None
      end
  end.

End Json.

(** ** Regular expressions of the tag strippers *)

(** The patterns both variants build are made of literal text, the lazy
    [(.*?)] under the [s] flag (any code units, as few as possible), the
    greedy [\s*], sequence and alternation. *)
Inductive regex : Type :=
| Lit (text : jstring)
| AnyLazy
| WsGreedy
| Seq (r1 r2 : regex)
| Alt (r1 r2 : regex).

Module Re.

(** Backtracking matcher: [run r k s] matches [r] at the start of [s]
    and hands the rest to the continuation [k]; the first success in
    the order of the ECMAScript matcher is the answer. *)
Fixpoint run (r : regex) (k : jstring -> option jstring) (s : jstring)
  : option jstring :=
  match r with
  | Lit t =>
      match Str.strip_prefix t s with
      | Some s' => k s'
      | None => None
      end
  | AnyLazy =>
      (fix lazy (s : jstring) : option jstring :=
         match k s with
         | Some e => Some e
         | None =>
             match s with
             | [] => None
             | _ :: s' => lazy s'
             end
         end) s
  | WsGreedy =>
      (fix greedy (s : jstring) : option jstring :=
         match s with
         | c :: s' =>
             if Str.is_ws c then
               match greedy s' with
               | Some e => Some e
               | None => k s
               end
             else k s
         | [] => k s
         end) s
  | Seq r1 r2 => run r1 (run r2 k) s
  | Alt r1 r2 =>
      match run r1 k s with
      | Some e => Some e
      | None => run r2 k s
      end
  end.

(** The text after the match of [r] at the start of [s]. *)
Definition match_here (r : regex) (s : jstring) : option jstring :=
  run r Some s.

(** [s.replace(r, '')] with the [g] flag.  [skip] counts the code
    units of the current match still to be dropped.  After an empty
    match the search moves one unit on. *)
Fixpoint remove_from (r : regex) (skip : nat) (s : jstring) : jstring :=
  match s with
  | [] => []
  | c :: s' =>
      match skip with
      | S n => remove_from r n s'
      | O =>
          match match_here r s with
          | Some rest =>
              match (length s - length rest)%nat with
              | S n => remove_from r n s'
              | O => c :: remove_from r O s'
              end
          | None => c :: remove_from r O s'
          end
      end
  end.

Definition remove_all (r : regex) (s : jstring) : jstring :=
  remove_from r O s.

(** The class [[-\/\\^$*+?.()|[\]{}]] of the escaping step. *)
Definition is_meta (c : N) : bool :=
  (c =? 45) || (c =? 47) || (c =? 92) || (c =? 94) || (c =? 36)
  || (c =? 42) || (c =? 43) || (c =? 63) || (c =? 46) || (c =? 40)
  || (c =? 41) || (c =? 124) || (c =? 91) || (c =? 93) || (c =? 123)
  || (c =? 125).

(** [tag.replace(/[-\/\\^$*+?.()|[\]{}]/g, '\\$&')]: a backslash before
    every character of the class. *)
Fixpoint escape (tag : jstring) : jstring :=
  match tag with
  | [] => []
  | c :: t => if is_meta c then 92 :: c :: escape t else c :: escape t
  end.

(** The syntax characters of a pattern: the class but for [-] and [/],
    which stand for themselves when bare. *)
Definition is_syntax (c : N) : bool :=
  is_meta c && negb (c =? 45) && negb (c =? 47).

(** The text a piece of pattern source denotes when it is made only of
    characters that are not syntax characters and of escaped characters
    of the class; [None] for any other piece (a bare syntax character,
    a backslash before another character or at the end). *)
Fixpoint literal (src : jstring) : option jstring :=
  match src with
  | [] => Some []
  | c :: r =>
      if c =? 92 then
        match r with
        | d :: r' =>
            if is_meta d then
              match literal r' with
              | Some t => Some (d :: t)
              | None => None
              end
            else None
        | [] => None
        end
      else if is_syntax c then None
      else
        match literal r with
        | Some t => Some (c :: t)
        | None => None
        end
  end.

End Re.

(** ** What the model takes from the platform *)

(** Numbers are floating point and the full pattern language of [RegExp]
    is large; both are left to the platform.
    - [number_truthy lx]: the number the lexeme [lx] denotes is neither
      zero nor NaN;
    - [number_toString lx]: its conversion to a string;
    - [toNumber_positive v]: [v > 0] after conversion of [v] to a number;
    - [regexp_remove src s]: [s.replace(new RegExp(src, 'gs'), '')] for a
      pattern source outside the fragment of [regex]; [None] when the
      constructor throws its SyntaxError. *)
Record Host : Type := {
  number_truthy : jstring -> bool;
  number_toString : jstring -> jstring;
  toNumber_positive : json -> bool;
  regexp_remove : jstring -> jstring -> option jstring
}.

(** ** Values at run time *)

Module Val.
Section WithHost.

Context (H : Host).

(** ToBoolean; [None] of an [option json] is [undefined]. *)
Definition truthy (v : json) : bool :=
  match v with
  | JNull => false
  | JBool b => b
  | JNum lx => number_truthy H lx
  | JStr s => match s with [] => false | _ => true end
  | JArr _ | JObj _ => true
  end.

Definition truthy_opt (o : option json) : bool :=
  match o with Some v => truthy v | None => false end.

(** [v.name] for the names the program reads ([choices], [delta],
    [content], [message]), none of which is on a prototype: an own
    property of an object, [undefined] on any other value but [null],
    where it is a TypeError (the outer [None]). *)
Definition field (v : json) (name : jstring) : option (option json) :=
  match v with
  | JNull => None
  | JObj ms => Some (Json.own ms name)
  | _ => Some None
  end.

(** [v[0]]. *)
Definition item0 (v : json) : option (option json) :=
  match v with
  | JNull => None
  | JObj ms => Some (Json.own ms (js "0"))
  | JArr l => Some (head l)
  | JStr s => Some (match s with c :: _ => Some (JStr [c]) | [] => None end)
  | _ => Some None
  end.

(** [v.length > 0]. *)
Definition length_positive (v : json) : bool :=
  match v with
  | JArr l => match l with [] => false | _ => true end
  | JStr s => match s with [] => false | _ => true end
  | JObj ms =>
      match Json.own ms (js "length") with
      | Some x => toNumber_positive H x
      | None => false
      end
  | _ => false
  end.

(** ToString, as [+=] on a string applies it; [None] is the TypeError
    of an object whose own [toString] member hides the method. *)
Fixpoint toString (v : json) : option jstring :=
  match v with
  | JNull => Some (js "null")
  | JBool true => Some (js "true")
  | JBool false => Some (js "false")
  | JNum lx => Some (number_toString H lx)
  | JStr s => Some s
  | JArr l =>
      (fix join (l : list json) : option jstring :=
         let item x := match x with JNull => Some [] | _ => toString x end in
         match l with
         | [] => Some []
         | [x] => item x
         | x :: r =>
             match item x, join r with
             | Some a, Some b => Some (a ++ 44 :: b)
             | _, _ => None
             end
         end) l
  | JObj ms =>
      match Json.own ms (js "toString") with
      | Some _ => None
      | None => Some (js "[object Object]")
      end
  end.

End WithHost.
End Val.

(** ** Calls and their effects *)

(** What [translate] throws.  A text thrown as it stands is a [Message];
    where the program puts a payload into the text, the payload is kept
    and the text around it is the constructor.  After [Details: ], the
    error of a failed request has [JSON.stringify] of a value
    ([ApiRequestFailed], where [None] is [undefined]) or a text as it is
    ([ApiRequestFailedText]). *)
Inductive thrown : Type :=
| Message (text : jstring)
| ApiRequestFailed (status : N) (details : option json)
| ApiRequestFailedText (status : N) (details : jstring)
| InvalidStructure (data : option json)
| NetworkError (cause : thrown)
| StreamingError (cause : thrown)
| Rejected (reason : jstring)
| TypeError
| SyntaxError.

Inductive result : Type :=
| Return (text : jstring)
| Throw (e : thrown).

Inductive fetcher : Type := WindowFetch | TauriFetch | HttpFetch.

Record request : Type := {
  via : fetcher;
  url : jstring;
  headers : list (jstring * jstring);
  body : gmap jstring json
}.

(** A response body read chunk by chunk: the texts the decoder gives for
    the chunks, in order, then the end of the stream or a failed read. *)
Record stream : Type := {
  chunks : list jstring;
  failure : option jstring
}.

(** The fields of a response the program reads: [data] for the host's
    fetch, [text] and [body] for [window.fetch]. *)
Record response : Type := {
  ok : bool;
  status : N;
  data : option json;
  body_text : jstring;
  body_stream : option stream
}.

Inductive reply : Type :=
| Rejects (reason : jstring)
| Responds (r : response).

(** One call: the requests sent, the texts handed to [setResult], in
    order, and how the call ended. *)
Record run : Type := {
  fetched : list request;
  shown : list jstring;
  outcome : result
}.

(** The configuration; a field that is not set is [None]. *)
Record Config : Type := {
  apiKey : option jstring;
  requestPath : option jstring;
  model : option jstring;
  system_prompt : option jstring;
  user_prompt : option jstring;
  parameters : option jstring;
  removeTag : option jstring;
  use_stream : option jstring;
  language : gmap jstring jstring
}.

(** [options]: [setResult] says whether the callback is there, [http]
    whether [utils.http] has its three members. *)
Record options : Type := {
  config : Config;
  setResult : bool;
  detect : option jstring;
  http : bool
}.

(** [x || d] on a configuration text. *)
Definition or_default (x : option jstring) (d : jstring) : jstring :=
  match x with
  | Some (c :: s) => c :: s
  | _ => d
  end.

(** [!x] on a configuration text. *)
Definition missing (x : option jstring) : bool :=
  match x with
  | Some (_ :: _) => false
  | _ => true
  end.

(** [languageMap[code] || code].  The map is the entries of the
    configuration's object.  This is the value of the expression when
    [by_entries languageMap code] holds, below; for a code without an
    entry that names a member of [Object.prototype] the expression finds
    the inherited member, which is not modelled. *)
Definition display_name (languageMap : gmap jstring jstring) (code : jstring)
  : jstring :=
  or_default (languageMap !! code) code.

(** The names of the members every object inherits from
    [Object.prototype]. *)
Definition prototype_members : list jstring :=
  [js "constructor"; js "hasOwnProperty"; js "isPrototypeOf";
   js "propertyIsEnumerable"; js "toLocaleString"; js "toString";
   js "valueOf"; js "__proto__"; js "__defineGetter__";
   js "__defineSetter__"; js "__lookupGetter__"; js "__lookupSetter__"].

Definition prototype_member (code : jstring) : bool :=
  existsb (Str.eqb code) prototype_members.

(** [languageMap[code]] is decided by the entries of the map: [code] has
    an entry, or it names no inherited member and the lookup gives
    [undefined]. *)
Definition by_entries (languageMap : gmap jstring jstring) (code : jstring)
  : bool :=
  match languageMap !! code with
  | Some _ => true
  | None => negb (prototype_member code)
  end.

(** The key that [languageMap[detect]] looks up. *)
Definition detect_key (detect : option jstring) : jstring :=
  match detect with Some c => c | None => js "undefined" end.

(** The same for [detect], which may be [undefined]: the key and the
    text substituted are then the word [undefined]. *)
Definition display_name_opt (languageMap : gmap jstring jstring)
    (code : option jstring) : jstring :=
  display_name languageMap
    (match code with Some c => c | None => js "undefined" end).

Definition message (role content : jstring) : json :=
  JObj [(js "role", JStr role); (js "content", JStr content)].

Fixpoint uint_digits (u : Decimal.uint) : jstring :=
  match u with
  | Decimal.Nil => []
  | Decimal.D0 r => 48 :: uint_digits r
  | Decimal.D1 r => 49 :: uint_digits r
  | Decimal.D2 r => 50 :: uint_digits r
  | Decimal.D3 r => 51 :: uint_digits r
  | Decimal.D4 r => 52 :: uint_digits r
  | Decimal.D5 r => 53 :: uint_digits r
  | Decimal.D6 r => 54 :: uint_digits r
  | Decimal.D7 r => 55 :: uint_digits r
  | Decimal.D8 r => 56 :: uint_digits r
  | Decimal.D9 r => 57 :: uint_digits r
  end.

Definition index_key (i : nat) : jstring := uint_digits (Nat.to_uint i).

(** [{...v}]: the own enumerable properties of [v]. *)
Definition spread (v : json) : gmap jstring json :=
  match v with
  | JObj ms => list_to_map (reverse ms)
  | JArr l => list_to_map (imap (fun i x => (index_key i, x)) l)
  | JStr s => list_to_map (imap (fun i c => (index_key i, JStr [c])) s)
  | _ => ∅
  end.

(** The two texts both variants throw before anything else is done. *)
Definition apiKey_missing : jstring :=
  js "API Key is missing. Please configure it in the plugin settings.".
Definition requestPath_missing : jstring :=
  js "Request Path (API Endpoint URL) is missing. Please configure it.".

Definition chat_completions : jstring := js "/chat/completions".
Definition DONE : jstring := js "[DONE]".

(** The class [URL] of the platform, of which [src/main.js] uses the
    constructor ([None]: it throws), the [pathname] and its setter, and
    [href]. *)
Record UrlClass : Type := {
  URL : Type;
  URL_new : jstring -> option URL;
  pathname : URL -> jstring;
  set_pathname : URL -> jstring -> URL;
  href : URL -> jstring
}.

(** * [src/main.js] *)

Module Main.
Section WithHost.

Context (H : Host) (U : UrlClass).

(** Lines 24-33: scheme, then the path of the parsed URL. *)
Definition withScheme (requestPath : jstring) : jstring :=
  if negb (Str.startsWith requestPath (js "http://"))
     && negb (Str.startsWith requestPath (js "https://"))
  then js "https://" ++ requestPath
  else requestPath.

Definition withSuffix (apiUrl : URL U) : URL U :=
  if negb (Str.endsWith (pathname U apiUrl) chat_completions) then
    let apiUrl1 :=
      if negb (Str.endsWith (pathname U apiUrl) (js "/"))
      then set_pathname U apiUrl (pathname U apiUrl ++ js "/")
      else apiUrl in
    set_pathname U apiUrl1 (pathname U apiUrl1 ++ js "chat/completions")
  else apiUrl.

(** [apiUrl.href] for a request path; [None] when [new URL] throws. *)
Definition normalize (requestPath : jstring) : option jstring :=
  match URL_new U (withScheme requestPath) with
  | Some apiUrl => Some (href U (withSuffix apiUrl))
  | None => None
  end.

(** Lines 36-48. *)
Definition systemPrompt (c : Config) (from to : jstring)
    (detect : option jstring) : jstring :=
  let targetLang := display_name (language c) to in
  let sourceLang := display_name (language c) from in
  let detectedLang := display_name_opt (language c) detect in
  Str.replace (js "$detect") detectedLang
    (Str.replace (js "$from") sourceLang
       (Str.replace (js "$to") targetLang
          (or_default (system_prompt c)
             (js "You are a helpful translation assistant.")))).

Definition userPrompt (c : Config) (text from to : jstring)
    (detect : option jstring) : jstring :=
  let targetLang := display_name (language c) to in
  let sourceLang := display_name (language c) from in
  let detectedLang := display_name_opt (language c) detect in
  Str.replace (js "$detect") detectedLang
    (Str.replace (js "$from") sourceLang
       (Str.replace (js "$to") targetLang
          (Str.replace (js "$text") text
             (or_default (user_prompt c)
                (js "Translate the following text from $from to $to: $text"))))).

Definition messages (c : Config) (text from to : jstring)
    (detect : option jstring) : json :=
  JArr [message (js "system") (systemPrompt c from to detect);
        message (js "user") (userPrompt c text from to detect)].

(** Lines 55-60: the parsed parameters, or the default object. *)
Definition parameters_value (c : Config) : json :=
  match Json.parse (or_default (parameters c) (jq "{'temperature': 0.1}")) with
  | Some v => v
  | None =>
      JObj [(js "temperature", JNum (js "0.6")); (js "top_p", JNum (js "0.99"));
            (js "frequency_penalty", JNum (js "0"));
            (js "presence_penalty", JNum (js "0"))]
  end.

Definition useStream (c : Config) : bool :=
  match use_stream c with
  | Some s => Str.eqb s (js "true")
  | None => false
  end.

(** Lines 62-67: [{model, messages, ...parameters, stream}]; a later
    key replaces an earlier one of the same name. *)
Definition requestBody (c : Config) (text from to : jstring)
    (o : options) : gmap jstring json :=
  <[js "stream" := JBool (useStream c && setResult o)]>
    (spread (parameters_value c)
     ∪ <[js "messages" := messages c text from to (detect o)]>
         {[js "model" := JStr (or_default (model c) (js "gpt-4o-mini"))]}).

Definition request_headers (c : Config) : list (jstring * jstring) :=
  [(js "Content-Type", js "application/json");
   (js "Authorization", js "Bearer " ++ or_default (apiKey c) [])].

(** Lines 74-86. *)
Definition tagsToRemove (removeTagString : jstring) : list jstring :=
  filter (fun tag => tag ≠ []) (map Str.trim (Str.split 44 removeTagString)).

(** The source of the pattern of line 81 for one tag. *)
Definition tag_pattern (tag : jstring) : jstring :=
  let escapedTag := Re.escape tag in
  escapedTag ++ js "(?:\s*\/>|>(.*?)<\/" ++ Str.substring 1 escapedTag
  ++ js ">)".

(** The same pattern as a [regex], when its two variable pieces are
    literal text. *)
Definition tag_regex (tag : jstring) : option regex :=
  let escapedTag := Re.escape tag in
  match Re.literal escapedTag, Re.literal (Str.substring 1 escapedTag) with
  | Some open, Some name =>
      Some (Seq (Lit open)
              (Alt (Seq WsGreedy (Lit (js "/>")))
                   (Seq (Lit (js ">"))
                      (Seq AnyLazy
                         (Seq (Lit (js "</")) (Seq (Lit name) (Lit (js ">"))))))))
  | _, _ => None
  end.

Definition removeOne (tag processedText : jstring) : option jstring :=
  match tag_regex tag with
  | Some r => Some (Re.remove_all r processedText)
  | None => regexp_remove H (tag_pattern tag) processedText
  end.

Fixpoint removeEach (tags : list jstring) (processedText : jstring)
  : option jstring :=
  match tags with
  | [] => Some processedText
  | tag :: rest =>
      match removeOne tag processedText with
      | Some t => removeEach rest t
      | None => None
      end
  end.

(** [None]: the SyntaxError of [new RegExp]. *)
Definition applyRemoveTag (removeTagString inputText : jstring)
  : option jstring :=
  match inputText with
  | [] => Some inputText
  | _ =>
      match
        match removeTagString with
        | [] => Some inputText
        | _ => removeEach (tagsToRemove removeTagString) inputText
        end
      with
      | Some processedText => Some (Str.trim processedText)
      | None => None
      end
  end.

(** Lines 107-141: the state of the reading loop. *)
Record decoder : Type := {
  fullContent : jstring;
  chunkBuffer : jstring;
  pushed : list jstring
}.

(** Line 130: the chain of [&&]; the outer [None] is a TypeError. *)
Definition deltaContent (parsed : json) : option (option json) :=
  match Val.field parsed (js "choices") with
  | None => None
  | Some choices =>
      if negb (Val.truthy_opt H choices) then Some None else
      match choices ≫= Val.item0 with
      | None => None
      | Some first =>
          if negb (Val.truthy_opt H first) then Some None else
          match first ≫= (fun v => Val.field v (js "delta")) with
          | None => None
          | Some delta =>
              if negb (Val.truthy_opt H delta) then Some None else
              match delta ≫= (fun v => Val.field v (js "content")) with
              | None => None
              | Some content =>
                  if Val.truthy_opt H content then Some content else Some None
              end
          end
      end
  end.

(** Lines 124-139: one line of the stream.  Whatever is thrown inside
    the [try] is caught there and the line is left. *)
Definition processLine (removeTagString : jstring) (d : decoder)
    (line : jstring) : decoder :=
  if Str.startsWith line (js "data: ") then
    let dataContent := Str.trim (Str.substring 6 line) in
    if Str.eqb dataContent DONE then d
    else
      match Json.parse dataContent with
      | None => d
      | Some parsed =>
          match deltaContent parsed with
          | Some (Some content) =>
              match Val.toString H content with
              | None => d
              | Some deltaText =>
                  let full := fullContent d ++ deltaText in
                  match applyRemoveTag removeTagString full with
                  | Some t =>
                      {| fullContent := full; chunkBuffer := chunkBuffer d;
                         pushed := pushed d ++ [t ++ js "..."] |}
                  | None =>
                      {| fullContent := full; chunkBuffer := chunkBuffer d;
                         pushed := pushed d |}
                  end
              end
          | _ => d
          end
      end
  else d.

(** Lines 118-140: one chunk. *)
Definition processChunk (removeTagString : jstring) (d : decoder)
    (chunk : jstring) : decoder :=
  let lines := Str.split 10 (chunkBuffer d ++ chunk) in
  let d1 := {| fullContent := fullContent d;
               chunkBuffer := default [] (last lines);
               pushed := pushed d |} in
  foldl (processLine removeTagString) d1 (removelast lines).

Definition start : decoder :=
  {| fullContent := []; chunkBuffer := []; pushed := [] |}.

Definition readAll (removeTagString : jstring) (cs : list jstring) : decoder :=
  foldl (processChunk removeTagString) start cs.

(** Lines 107-145: the loop and what follows it. *)
Definition decodeStream (removeTagString : jstring) (s : stream)
  : list jstring * result :=
  let d := readAll removeTagString (chunks s) in
  match failure s with
  | Some reason => (pushed d, Throw (StreamingError (Rejected reason)))
  | None =>
      match applyRemoveTag removeTagString (fullContent d) with
      | Some finalResult => (pushed d ++ [finalResult], Return finalResult)
      | None => (pushed d, Throw (StreamingError SyntaxError))
      end
  end.

(** Lines 166-177, after a response of the host's fetch. *)
Definition bufferedResult (removeTagString : jstring) (res : response)
  : result :=
  if ok res then
    match data res with
    | None => Throw (InvalidStructure None)
    | Some resultData =>
        if negb (Val.truthy H resultData) then
          Throw (InvalidStructure (Some resultData))
        else
          match Val.field resultData (js "choices") with
          | None => Throw TypeError
          | Some None => Throw (InvalidStructure (Some resultData))
          | Some (Some choices) =>
              if negb (Val.truthy H choices && Val.length_positive H choices)
              then Throw (InvalidStructure (Some resultData))
              else
                match Val.item0 choices with
                | None | Some None => Throw TypeError
                | Some (Some first) =>
                    match Val.field first (js "message") with
                    | None => Throw TypeError
                    | Some None => Throw (InvalidStructure (Some resultData))
                    | Some (Some msg) =>
                        if negb (Val.truthy H msg) then
                          Throw (InvalidStructure (Some resultData))
                        else
                          match Val.field msg (js "content") with
                          | None => Throw TypeError
                          | Some None =>
                              Throw (InvalidStructure (Some resultData))
                          | Some (Some content) =>
                              if negb (Val.truthy H content) then
                                Throw (InvalidStructure (Some resultData))
                              else
                                match content with
                                | JStr s =>
                                    match
                                      applyRemoveTag removeTagString (Str.trim s)
                                    with
                                    | Some t => Return t
                                    | None => Throw SyntaxError
                                    end
                                | _ => Throw TypeError
                                end
                          end
                    end
                end
          end
    end
  else Throw (ApiRequestFailed (status res) (data res)).

(** The whole function.  [net] is the network: what the fetch of a
    request settles to. *)
Definition translate (text from to : jstring) (o : options)
    (net : request -> reply) : run :=
  let c := config o in
  let removeTagString := or_default (removeTag c) (js "<think>,<help>") in
  if missing (apiKey c) then
    {| fetched := []; shown := []; outcome := Throw (Message apiKey_missing) |}
  else if missing (requestPath c) then
    {| fetched := []; shown := [];
       outcome := Throw (Message requestPath_missing) |}
  else
    match normalize (or_default (requestPath c) []) with
    | None => {| fetched := []; shown := []; outcome := Throw TypeError |}
    | Some apiUrl =>
        let streaming := useStream c && setResult o in
        let req := {| via := if streaming then WindowFetch else TauriFetch;
                      url := apiUrl;
                      headers := request_headers c;
                      body := requestBody c text from to o |} in
        if streaming then
          match net req with
          | Rejects reason =>
              {| fetched := [req]; shown := [];
                 outcome := Throw (StreamingError (Rejected reason)) |}
          | Responds response =>
              if negb (ok response) then
                {| fetched := [req]; shown := [];
                   outcome :=
                     Throw (StreamingError
                              (ApiRequestFailed (status response)
                                 (Some (match Json.parse (body_text response) with
                                        | Some v => v
                                        | None => JStr (body_text response)
                                        end)))) |}
              else
                match body_stream response with
                | None =>
                    {| fetched := [req]; shown := [];
                       outcome :=
                         Throw (StreamingError
                                  (Message (js "Response body is null, cannot process stream."))) |}
                | Some s =>
                    let '(calls, r) := decodeStream removeTagString s in
                    {| fetched := [req]; shown := calls; outcome := r |}
                end
          end
        else
          match net req with
          | Rejects reason =>
              {| fetched := [req]; shown := [];
                 outcome := Throw (NetworkError (Rejected reason)) |}
          | Responds res =>
              {| fetched := [req]; shown := [];
                 outcome := bufferedResult removeTagString res |}
          end
    end.

End WithHost.
End Main.

(** * [src/unnamed/part_000] *)

Module Part000.
Section WithHost.

Context (H : Host).

Definition http_unavailable : jstring :=
  js "Required HTTP utilities are not available in this Pot version.".

(** Lines 30-40: scheme and suffix, on the text of the path. *)
Definition normalize (requestPath : jstring) : jstring :=
  let requestPath1 :=
    if negb (Str.startsWith requestPath (js "http://"))
       && negb (Str.startsWith requestPath (js "https://"))
    then js "https://" ++ requestPath
    else requestPath in
  if negb (Str.endsWith requestPath1 chat_completions) then
    if Str.endsWith requestPath1 (js "/")
    then requestPath1 ++ js "chat/completions"
    else requestPath1 ++ js "/chat/completions"
  else requestPath1.

(** Lines 42-48. *)
Definition parameters_value (c : Config) : json :=
  match Json.parse (or_default (parameters c) (jq "{'temperature': 0.1}")) with
  | Some v => v
  | None => JObj [(js "temperature", JNum (js "0.1"))]
  end.

(** Lines 51-61. *)
Definition systemPrompt (c : Config) (text from to : jstring) : jstring :=
  let targetLang := display_name (language c) to in
  let sourceLang := display_name (language c) from in
  Str.replace (js "$text") text
    (Str.replace (js "$from") sourceLang
       (Str.replace (js "$to") targetLang
          (or_default (system_prompt c)
             (js "You are a helpful translation assistant.")))).

Definition userPrompt (c : Config) (text from to : jstring) : jstring :=
  let targetLang := display_name (language c) to in
  let sourceLang := display_name (language c) from in
  Str.replace (js "$from") sourceLang
    (Str.replace (js "$to") targetLang
       (Str.replace (js "$text") text
          (or_default (user_prompt c)
             (js "Translate the following text from $from to $to: $text")))).

Definition messages (c : Config) (text from to : jstring) : json :=
  JArr [message (js "system") (systemPrompt c text from to);
        message (js "user") (userPrompt c text from to)].

Definition useStream (c : Config) : bool :=
  match use_stream c with
  | Some s => Str.eqb s (js "true")
  | None => false
  end.

(** Lines 96-101: [{model, messages, stream, ...parameters}]. *)
Definition requestBody (c : Config) (text from to : jstring)
  : gmap jstring json :=
  spread (parameters_value c)
  ∪ <[js "stream" := JBool (useStream c)]>
      (<[js "messages" := messages c text from to]>
         {[js "model" := JStr (or_default (model c) (js "gpt-3.5-turbo"))]}).

(** Lines 69-86. *)
Definition tagsToRemove (removeTagString : jstring) : list jstring :=
  filter (fun tag => tag ≠ []) (map Str.trim (Str.split 44 removeTagString)).

Definition openingTag (tag : jstring) : jstring := Re.escape tag.
Definition closingTag (tag : jstring) : jstring :=
  Str.replace (js "<") (js "</") (openingTag tag).
Definition selfClosingTag (tag : jstring) : jstring :=
  Str.replace (js ">") (js "/>") (openingTag tag).

(** The source of the pattern of line 82. *)
Definition tag_pattern (tag : jstring) : jstring :=
  openingTag tag ++ js "(.*?)" ++ closingTag tag ++ js "|" ++ selfClosingTag tag.

Definition tag_regex (tag : jstring) : option regex :=
  match Re.literal (openingTag tag), Re.literal (closingTag tag),
        Re.literal (selfClosingTag tag) with
  | Some open, Some close, Some self =>
      Some (Alt (Seq (Lit open) (Seq AnyLazy (Lit close))) (Lit self))
  | _, _, _ => None
  end.

Definition removeOne (tag processedText : jstring) : option jstring :=
  match tag_regex tag with
  | Some r => Some (Re.remove_all r processedText)
  | None => regexp_remove H (tag_pattern tag) processedText
  end.

Fixpoint removeEach (tags : list jstring) (processedText : jstring)
  : option jstring :=
  match tags with
  | [] => Some processedText
  | tag :: rest =>
      match removeOne tag processedText with
      | Some t => removeEach rest t
      | None => None
      end
  end.

(** [None]: the SyntaxError of [new RegExp]. *)
Definition applyTagRemoval (removeTagString inputText : jstring)
  : option jstring :=
  match removeTagString, inputText with
  | [], _ | _, [] => Some inputText
  | _, _ =>
      match removeEach (tagsToRemove removeTagString) inputText with
      | Some processedText => Some (Str.trim processedText)
      | None => None
      end
  end.

(** Line 142: [split(/(\r\n|\n|\r)/)]; the separators are in the
    result, between the pieces. *)
Fixpoint splitLines (s : jstring) : list jstring :=
  match s with
  | [] => [[]]
  | c :: s' =>
      if c =? 13 then
        match s' with
        | d :: s'' =>
            if d =? 10 then [] :: [c; d] :: splitLines s''
            else [] :: [c] :: splitLines s'
        | [] => [] :: [c] :: splitLines s'
        end
      else if c =? 10 then [] :: [c] :: splitLines s'
      else
        match splitLines s' with
        | w :: ws => (c :: w) :: ws
        | [] => [[c]]
        end
  end.

(** Line 160: the chain of [?.]; the outer [None] is a TypeError. *)
Definition chain (o : option json) (get : json -> option (option json))
  : option (option json) :=
  match o with
  | None | Some JNull => Some None
  | Some v => get v
  end.

Definition deltaOf (parsedData : json) : option (option json) :=
  match Val.field parsedData (js "choices") with
  | None => None
  | Some choices =>
      match chain choices Val.item0 with
      | None => None
      | Some first =>
          match chain first (fun v => Val.field v (js "delta")) with
          | None => None
          | Some delta => chain delta (fun v => Val.field v (js "content"))
          end
      end
  end.

(** The state of the loop over the lines. *)
Record decoder : Type := {
  accumulatedResult : jstring;
  pushed : list jstring
}.

(** Lines 157-176: one payload that is not the terminator.  Whatever
    is thrown inside the [try] is caught there; when it is thrown
    after line 163, the result has already grown. *)
Definition processData (removeTagString : jstring) (hasSetResult : bool)
    (d : decoder) (jsonData : jstring) : decoder :=
  match Json.parse jsonData with
  | None => d
  | Some parsedData =>
      match deltaOf parsedData with
      | Some (Some delta) =>
          if Val.truthy H delta then
            match Val.toString H delta with
            | None => d
            | Some deltaText =>
                let acc := accumulatedResult d ++ deltaText in
                if hasSetResult then
                  match applyTagRemoval removeTagString acc with
                  | Some intermediateResult =>
                      {| accumulatedResult := acc;
                         pushed := pushed d ++ [intermediateResult] |}
                  | None => {| accumulatedResult := acc; pushed := pushed d |}
                  end
                else {| accumulatedResult := acc; pushed := pushed d |}
            end
          else d
      | _ => d
      end
  end.

(** Lines 144-178: the loop, left at the terminator. *)
Fixpoint processLines (removeTagString : jstring) (hasSetResult : bool)
    (d : decoder) (lines : list jstring) : decoder :=
  match lines with
  | [] => d
  | line :: rest =>
      let trimmedLine := Str.trim line in
      match trimmedLine with
      | [] => processLines removeTagString hasSetResult d rest
      | _ =>
          if Str.startsWith trimmedLine (js "data:") then
            let jsonData := Str.trim (Str.substring 5 trimmedLine) in
            if Str.eqb jsonData DONE then d
            else
              processLines removeTagString hasSetResult
                (processData removeTagString hasSetResult d jsonData) rest
          else processLines removeTagString hasSetResult d rest
      end
  end.

(** Lines 137-195. *)
Definition decodeStream (removeTagString : jstring) (hasSetResult : bool)
    (rawResponseText : jstring) : list jstring * result :=
  let d := processLines removeTagString hasSetResult
             {| accumulatedResult := []; pushed := [] |}
             (splitLines rawResponseText) in
  match applyTagRemoval removeTagString (accumulatedResult d) with
  | None => (pushed d, Throw SyntaxError)
  | Some finalResult =>
      match finalResult, accumulatedResult d with
      | [], [] => (pushed d, Return [])
      | _, _ =>
          if hasSetResult then (pushed d ++ [finalResult], Return finalResult)
          else (pushed d, Return finalResult)
      end
  end.

(** Lines 124-134. *)
Definition bufferedResult (removeTagString : jstring) (hasSetResult : bool)
    (response : response) : list jstring * result :=
  match data response with
  | None => ([], Throw (InvalidStructure None))
  | Some resultData =>
      if negb (Val.truthy H resultData) then
        ([], Throw (InvalidStructure (Some resultData)))
      else
        match Val.field resultData (js "choices") with
        | None => ([], Throw TypeError)
        | Some None => ([], Throw (InvalidStructure (Some resultData)))
        | Some (Some choices) =>
            if negb (Val.truthy H choices && Val.length_positive H choices)
            then ([], Throw (InvalidStructure (Some resultData)))
            else
              match Val.item0 choices with
              | None | Some None => ([], Throw TypeError)
              | Some (Some first) =>
                  match Val.field first (js "message") with
                  | None => ([], Throw TypeError)
                  | Some None => ([], Throw (InvalidStructure (Some resultData)))
                  | Some (Some msg) =>
                      if negb (Val.truthy H msg) then
                        ([], Throw (InvalidStructure (Some resultData)))
                      else
                        match Val.field msg (js "content") with
                        | None => ([], Throw TypeError)
                        | Some None =>
                            ([], Throw (InvalidStructure (Some resultData)))
                        | Some (Some content) =>
                            if negb (Val.truthy H content) then
                              ([], Throw (InvalidStructure (Some resultData)))
                            else
                              match content with
                              | JStr s =>
                                  match
                                    applyTagRemoval removeTagString (Str.trim s)
                                  with
                                  | Some finalResult =>
                                      (if hasSetResult then [finalResult] else [],
                                       Return finalResult)
                                  | None => ([], Throw SyntaxError)
                                  end
                              | _ => ([], Throw TypeError)
                              end
                        end
                  end
              end
        end
  end.

Definition no_details : jstring :=
  js "No additional error details available.".

(** Lines 107-119: the error of a failed request.  [response.data ||
    '{}'] is converted to a string and parsed; of what is parsed the
    member [error] is reported when it is truthy, and [response.data]
    when it is not, both through [JSON.stringify].  Whatever is thrown
    on the way (the conversion of an object whose [toString] is hidden,
    the SyntaxError of [JSON.parse], the member of [null]) is caught,
    and [response.data], or a fixed text when it is falsy, is put into
    the message as it is; the conversion of such an object throws there
    once more, outside the inner [try]. *)
Definition requestFailed (response : response) : thrown :=
  let raw :=
    match data response with
    | Some d => if Val.truthy H d then Some d else None
    | None => None
    end in
  let caught :=
    match raw with
    | Some d =>
        match Val.toString H d with
        | Some s => ApiRequestFailedText (status response) s
        | None => TypeError
        end
    | None => ApiRequestFailedText (status response) no_details
    end in
  match
    match raw with
    | Some d => Val.toString H d
    | None => Some (js "{}")
    end
  with
  | None => caught
  | Some source =>
      match Json.parse source with
      | None => caught
      | Some errorData =>
          match Val.field errorData (js "error") with
          | None => caught
          | Some e =>
              if Val.truthy_opt H e
              then ApiRequestFailed (status response) e
              else ApiRequestFailed (status response) (data response)
          end
      end
  end.

(** The whole function.  [net] is the network: what the fetch of a
    request settles to. *)
Definition translate (text from to : jstring) (o : options)
    (net : request -> reply) : run :=
  let c := config o in
  let removeTagString := or_default (removeTag c) (js "<think>,<help>") in
  if negb (http o) then
    {| fetched := []; shown := []; outcome := Throw (Message http_unavailable) |}
  else if missing (apiKey c) then
    {| fetched := []; shown := []; outcome := Throw (Message apiKey_missing) |}
  else if missing (requestPath c) then
    {| fetched := []; shown := [];
       outcome := Throw (Message requestPath_missing) |}
  else
    let req := {| via := HttpFetch;
                  url := normalize (or_default (requestPath c) []);
                  headers := [(js "Authorization",
                               js "Bearer " ++ or_default (apiKey c) [])];
                  body := requestBody c text from to |} in
    match net req with
    | Rejects reason =>
        {| fetched := [req]; shown := []; outcome := Throw (Rejected reason) |}
    | Responds response =>
        if negb (ok response) then
          {| fetched := [req]; shown := [];
             outcome := Throw (requestFailed response) |}
        else if negb (useStream c) then
          let '(calls, r) :=
            bufferedResult removeTagString (setResult o) response in
          {| fetched := [req]; shown := calls; outcome := r |}
        else
          match data response with
          | Some (JStr rawResponseText) =>
              let '(calls, r) :=
                decodeStream removeTagString (setResult o) rawResponseText in
              {| fetched := [req]; shown := calls; outcome := r |}
          | _ => {| fetched := [req]; shown := []; outcome := Throw TypeError |}
          end
    end.

End WithHost.
End Part000.

(** * Vocabulary of the statements, instances and inputs of the examples *)

(** A host for the examples, none of which computes with a number: a
    number is taken for zero when its lexeme has no digit from 1 to 9,
    printed as its lexeme, and no pattern outside [regex] is accepted. *)
Definition example_host : Host := {|
  number_truthy := fun lx =>
    existsb (fun c => (49 <=? c) && (c <=? 57)) lx;
  number_toString := fun lx => lx;
  toNumber_positive := fun v =>
    match v with
    | JBool b => b
    | JNum lx =>
        existsb (fun c => (49 <=? c) && (c <=? 57)) lx
        && negb (Str.startsWith lx (js "-"))
    | _ => false
    end;
  regexp_remove := fun _ _ => None
|}.

(** A small [UrlClass] for the examples: a URL is [http] or [https], an
    authority without a slash and a path that begins with one; there is
    no query, no fragment and no encoding. *)
Record simple_url_record : Type := {
  secure : bool;
  authority : jstring;
  path : jstring
}.

Definition clean_authority (a : jstring) : jstring :=
  List.filter (fun c => negb (c =? 47)) a.

Definition clean_path (p : jstring) : jstring :=
  if Str.startsWith p (js "/") then p else js "/" ++ p.

Fixpoint split_slash (s : jstring) : jstring * jstring :=
  match s with
  | [] => ([], [])
  | c :: r =>
      if c =? 47 then ([], s)
      else let '(a, p) := split_slash r in (c :: a, p)
  end.

Definition simple_url : UrlClass := {|
  URL := simple_url_record;
  URL_new := fun s =>
    match Str.strip_prefix (js "https://") s with
    | Some r =>
        let '(a, p) := split_slash r in
        Some {| secure := true; authority := a; path := p |}
    | None =>
        match Str.strip_prefix (js "http://") s with
        | Some r =>
            let '(a, p) := split_slash r in
            Some {| secure := false; authority := a; path := p |}
        | None => None
        end
    end;
  pathname := fun u => clean_path (path u);
  set_pathname := fun u p =>
    {| secure := secure u; authority := authority u; path := p |};
  href := fun u =>
    (if secure u then js "https://" else js "http://")
    ++ clean_authority (authority u) ++ clean_path (path u)
|}.

Definition default_tags : jstring := js "<think>,<help>".

(** The three chunks of the example of the specification and, for the
    terminator, a delta after it. *)
Definition chunk_Hel : jstring :=
  jq "data: {'choices':[{'delta':{'content':'Hel'}}]}" ++ [10].
Definition chunk_lo : jstring :=
  jq "data: {'choices':[{'delta':{'content':'lo'}}]}" ++ [10].
Definition chunk_DONE : jstring := jq "data: [DONE]" ++ [10].

(** A configuration with a key, an endpoint and streaming on, the rest
    left to the defaults. *)
Definition streaming_config : Config := {|
  apiKey := Some (js "sk-test");
  requestPath := Some (js "https://api.example.com/v1/chat/completions");
  model := None;
  system_prompt := None;
  user_prompt := None;
  parameters := None;
  removeTag := None;
  use_stream := Some (js "true");
  language := ∅
|}.

Definition streaming_options : options := {|
  config := streaming_config;
  setResult := true;
  detect := None;
  http := true
|}.

(** A response with status 200 and nothing else. *)
Definition ok_response : response := {|
  ok := true;
  status := 200;
  data := None;
  body_text := [];
  body_stream := None
|}.

(** A parsed line of the stream of the shape
    [{choices: [{delta: {content: c}}, ...]}]. *)
Definition delta_shape (parsed content : json) : Prop :=
  exists ms first others delta,
    parsed = JObj ms
    /\ Json.own ms (js "choices") = Some (JArr (JObj first :: others))
    /\ Json.own first (js "delta") = Some (JObj delta)
    /\ Json.own delta (js "content") = Some content.

(** A response body of the shape
    [{choices: [{message: {content: c}}, ...]}]. *)
Definition message_shape (resultData content : json) : Prop :=
  exists ms first others msg,
    resultData = JObj ms
    /\ Json.own ms (js "choices") = Some (JArr (JObj first :: others))
    /\ Json.own first (js "message") = Some (JObj msg)
    /\ Json.own msg (js "content") = Some content.

(** A configuration whose parameters name [messages] and [stream]. *)
Definition overriding_config : Config := {|
  apiKey := Some (js "sk-test");
  requestPath := Some (js "https://api.example.com/v1/chat/completions");
  model := None;
  system_prompt := None;
  user_prompt := None;
  parameters := Some (jq "{'messages': [], 'stream': 'no'}");
  removeTag := None;
  use_stream := None;
  language := ∅
|}.

Definition overriding_options : options := {|
  config := overriding_config;
  setResult := false;
  detect := None;
  http := true
|}.

(** A configuration whose user template puts the text before [$to]. *)
Definition text_first_config : Config := {|
  apiKey := Some (js "sk-test");
  requestPath := Some (js "https://api.example.com/v1/chat/completions");
  model := None;
  system_prompt := None;
  user_prompt := Some (js "$text: $to");
  parameters := None;
  removeTag := None;
  use_stream := None;
  language := {[ js "en" := js "English" ]}
|}.

Definition example_stream_response : response := {|
  ok := true;
  status := 200;
  data := Some (JStr (chunk_Hel ++ chunk_lo ++ chunk_DONE));
  body_text := [];
  body_stream :=
    Some {| chunks := [chunk_Hel; chunk_lo; chunk_DONE]; failure := None |}
|}.

(** A request path with its scheme. *)
Definition has_scheme (s : jstring) : bool :=
  Str.startsWith s (js "http://") || Str.startsWith s (js "https://").

(** The class [URL] as [src/main.js] needs it: the scheme of a text
    that has one is in the [href]; a path made longer keeps the scheme;
    the [href] of a URL is read back as a URL of the same [href] and
    path; and a path set that ends in [/] or in [/chat/completions]
    still ends so. *)
Record UrlLaws (U : UrlClass) : Prop := {
  scheme_parsed : forall s u, URL_new U s = Some u ->
    has_scheme s = true -> has_scheme (href U u) = true;
  scheme_kept : forall u x, has_scheme (href U u) = true ->
    has_scheme (href U (set_pathname U u (pathname U u ++ x))) = true;
  read_back : forall u, exists u', URL_new U (href U u) = Some u'
    /\ pathname U u' = pathname U u /\ href U u' = href U u;
  end_kept : forall u p sfx, sfx = js "/" \/ sfx = chat_completions ->
    Str.endsWith p sfx = true ->
    Str.endsWith (pathname U (set_pathname U u p)) sfx = true
}.

(** A piece of text with no line break in it, a text that is empty or
    begins with a line break, and a text that is empty or ends with a
    line feed. *)
Definition no_break (l : jstring) : bool :=
  forallb (fun c => negb (c =? 10) && negb (c =? 13)) l.

Definition at_break (rest : jstring) : bool :=
  match rest with
  | [] => true
  | c :: _ => (c =? 10) || (c =? 13)
  end.

Definition at_line_start (pre : jstring) : bool :=
  match last pre with
  | None => true
  | Some c => c =? 10
  end.

(** The payload of a line for [src/unnamed/part_000]: what follows
    [data:] in the trimmed line. *)
Definition Part000_payload (line : jstring) : option jstring :=
  if Str.startsWith (Str.trim line) (js "data:")
  then Some (Str.trim (Str.substring 5 (Str.trim line)))
  else None.

Definition Part000_stops (lines : list jstring) : bool :=
  existsb (fun l => match Part000_payload l with
                    | Some p => Str.eqb p DONE
                    | None => false
                    end) lines.

(** The lines that [src/main.js] takes from a text, which are those
    closed by a line feed, and what is left after the last of them. *)
Fixpoint Main_cut (s : jstring) : list jstring * jstring :=
  match s with
  | [] => ([], [])
  | c :: s' =>
      let '(ls, r) := Main_cut s' in
      if c =? 10 then ([] :: ls, r)
      else
        match ls with
        | [] => ([], c :: r)
        | l :: ls' => ((c :: l) :: ls', r)
        end
  end.

Definition no_LF (l : jstring) : bool := forallb (fun c => negb (c =? 10)) l.

Definition set_buffer (b : jstring) (d : Main.decoder) : Main.decoder :=
  {| Main.fullContent := Main.fullContent d;
     Main.chunkBuffer := b;
     Main.pushed := Main.pushed d |}.


(** A template read as pieces: text without a dollar, and the four
    placeholders. *)
Inductive placeholder : Type := PText | PFrom | PTo | PDetect.

Inductive piece : Type :=
| Chars (s : jstring)
| Hole (p : placeholder).

Definition placeholder_name (p : placeholder) : jstring :=
  match p with
  | PText => js "text"
  | PFrom => js "from"
  | PTo => js "to"
  | PDetect => js "detect"
  end.

Definition placeholder_source (p : placeholder) : jstring :=
  36 :: placeholder_name p.

Definition piece_source (t : piece) : jstring :=
  match t with
  | Chars s => s
  | Hole p => placeholder_source p
  end.

Definition template_source (t : list piece) : jstring :=
  concat (map piece_source t).

Definition no_dollar (s : jstring) : bool := forallb (fun c => negb (c =? 36)) s.

Definition plain (t : list piece) : bool :=
  forallb (fun x => match x with Chars s => no_dollar s | Hole _ => true end) t.

Definition placeholder_eqb (p q : placeholder) : bool :=
  match p, q with
  | PText, PText | PFrom, PFrom | PTo, PTo | PDetect, PDetect => true
  | _, _ => false
  end.

(** The first hole [p] of a template filled with [v]; the other pieces,
    later holes [p] among them, stay. *)
Fixpoint fill_first (p : placeholder) (v : jstring) (t : list piece)
  : list piece :=
  match t with
  | [] => []
  | Hole q :: r =>
      if placeholder_eqb p q then Chars v :: r else Hole q :: fill_first p v r
  | x :: r => x :: fill_first p v r
  end.

(** The default user template, in pieces. *)
Definition default_user_template : list piece :=
  [Chars (js "Translate the following text from "); Hole PFrom;
   Chars (js " to "); Hole PTo; Chars (js ": "); Hole PText].

(** A configuration whose user template has [$to] twice. *)
Definition twice_config : Config := {|
  apiKey := Some (js "sk-test");
  requestPath := Some (js "https://api.example.com/v1/chat/completions");
  model := None;
  system_prompt := None;
  user_prompt := Some (js "$to and $to");
  parameters := None;
  removeTag := None;
  use_stream := None;
  language := ∅
|}.

(** Text that stands for itself in a pattern: no backslash and no
    syntax character. *)
Definition bare (s : jstring) : bool :=
  forallb (fun c => negb (c =? 92) && negb (Re.is_syntax c)) s.

(** Case analysis on the innermost scrutinee of the first [match] of a
    hypothesis. *)
Ltac break_hyp H :=
  match type of H with
  | context [match ?x with _ => _ end] =>
      lazymatch x with
      | context [match _ with _ => _ end] => fail
      | _ => destruct x eqn:?; try discriminate H
      end
  end.







(** ** Vocabulary of the further properties *)


(** The tag list in force: [config.removeTag || '<think>,<help>']. *)
Definition tag_list (c : Config) : jstring :=
  or_default (removeTag c) (js "<think>,<help>").

(** The request each variant builds. *)
Definition Part000_request (c : Config) (text from to : jstring) : request :=
  {| via := HttpFetch;
     url := Part000.normalize (or_default (requestPath c) []);
     headers := [(js "Authorization", js "Bearer " ++ or_default (apiKey c) [])];
     body := Part000.requestBody c text from to |}.

Definition Main_request (c : Config) (text from to : jstring) (o : options)
    (apiUrl : jstring) : request :=
  {| via := if Main.useStream c && setResult o then WindowFetch else TauriFetch;
     url := apiUrl;
     headers := Main.request_headers c;
     body := Main.requestBody c text from to o |}.


(** What was given to the callback so far: each text is the stripped
    text of a prefix of what has accumulated, with the ellipsis. *)
Definition Main_pushed_ok (H : Host) (tags : jstring) (d : Main.decoder) : Prop :=
  Forall (fun p => exists pre t,
            pre `prefix_of` Main.fullContent d
            /\ Main.applyRemoveTag H tags pre = Some t
            /\ p = t ++ js "...") (Main.pushed d).

Definition buffered_response (body : jstring) : response := {|
  ok := true;
  status := 200;
  data := Json.parse body;
  body_text := body;
  body_stream := None
|}.

(** The closing tag, the self-closing tag and the pattern of
    [src/unnamed/part_000] for a tag. *)
Definition Part000_closing (tag : jstring) : jstring :=
  Str.replace (js "<") (js "</") tag.

Definition Part000_selfClosing (tag : jstring) : jstring :=
  Str.replace (js ">") (js "/>") tag.

Definition Part000_regex (tag : jstring) : regex :=
  Alt (Seq (Lit tag) (Seq AnyLazy (Lit (Part000_closing tag))))
      (Lit (Part000_selfClosing tag)).

(** The code unit [c] does not occur in [a]. *)
Definition absent (c : N) (a : jstring) : bool :=
  forallb (fun d => negb (d =? c)) a.

(** The pattern of [src/main.js] for a tag whose first code unit is not
    in the class of the escaping step; [name] is the tag without that
    first code unit. *)
Definition Main_closing (name : jstring) : jstring :=
  js "</" ++ name ++ js ">".

Definition Main_regex (tag name : jstring) : regex :=
  Seq (Lit tag)
    (Alt (Seq WsGreedy (Lit (js "/>")))
         (Seq (Lit (js ">"))
            (Seq AnyLazy
               (Seq (Lit (js "</")) (Seq (Lit name) (Lit (js ">"))))))).

Definition plain_head (tag : jstring) : bool :=
  match tag with
  | c :: _ => negb (Re.is_meta c)
  | [] => false
  end.

(** No occurrence of [tag] in [s] is followed by [>], by [/] or by
    white space. *)
Fixpoint never_opened (tag s : jstring) : bool :=
  match s with
  | [] => true
  | _ :: s' =>
      match Str.strip_prefix tag s with
      | Some (d :: _) => negb (d =? 62) && negb (d =? 47) && negb (Str.is_ws d)
      | _ => true
      end
      && never_opened tag s'
  end.

(** * Facts on the primitives *)

(** ** Strings *)

Lemma strip_prefix_app (p s : jstring) : Str.strip_prefix p (p ++ s) = Some s.
Proof.
  induction p as [|c p IH]; simpl; [reflexivity|].
  rewrite N.eqb_refl. exact IH.
Qed.

Lemma strip_prefix_Some (p s r : jstring) :
  Str.strip_prefix p s = Some r -> s = p ++ r.
Proof.
  revert s. induction p as [|c p IH]; intros s; simpl.
  - congruence.
  - destruct s as [|d s]; [discriminate|].
    destruct (N.eqb_spec c d) as [->|]; [|discriminate].
    intros E. rewrite (IH _ E). reflexivity.
Qed.

Lemma startsWith_true (s p : jstring) :
  Str.startsWith s p = true <-> exists r, s = p ++ r.
Proof.
  unfold Str.startsWith. split.
  - destruct (Str.strip_prefix p s) eqn:E; [|discriminate].
    intros _. eexists. apply strip_prefix_Some, E.
  - intros [r ->]. rewrite strip_prefix_app. reflexivity.
Qed.

Lemma endsWith_true (s p : jstring) :
  Str.endsWith s p = true <-> exists a, s = a ++ p.
Proof.
  unfold Str.endsWith. rewrite startsWith_true. split.
  - intros [r E]. exists (rev r).
    rewrite <- (rev_involutive s), E, rev_app_distr, rev_involutive.
    reflexivity.
  - intros [a ->]. exists (rev a). apply rev_app_distr.
Qed.

Lemma startsWith_app (s p x : jstring) :
  Str.startsWith s p = true -> Str.startsWith (s ++ x) p = true.
Proof.
  rewrite !startsWith_true. intros [r ->]. exists (r ++ x).
  symmetry. apply app_assoc.
Qed.

Lemma endsWith_app (a p : jstring) : Str.endsWith (a ++ p) p = true.
Proof. apply endsWith_true. exists a. reflexivity. Qed.

Lemma endsWith_slash_suffix (s : jstring) :
  Str.endsWith s (js "/") = true ->
  Str.endsWith (s ++ js "chat/completions") chat_completions = true.
Proof.
  rewrite endsWith_true. intros [a ->]. rewrite <- app_assoc.
  apply endsWith_app.
Qed.

Lemma getSubstitution_plain (m b a v : jstring) :
  no_dollar v = true -> Str.getSubstitution m b a v = v.
Proof.
  induction v as [|c v IH]; [reflexivity|].
  simpl. intros Hv. apply andb_true_iff in Hv as [Hc Hv].
  apply negb_true_iff in Hc. rewrite Hc, (IH Hv). reflexivity.
Qed.

Lemma find_unfold (p s : jstring) :
  Str.find p s
  = match Str.strip_prefix p s with
    | Some rest => Some ([], rest)
    | None =>
        match s with
        | [] => None
        | c :: s' =>
            match Str.find p s' with
            | Some (a, b) => Some (c :: a, b)
            | None => None
            end
        end
    end.
Proof. destruct s; reflexivity. Qed.

Lemma replace_one_cons (x c : N) (repl s : jstring) :
  no_dollar repl = true ->
  Str.replace [x] repl (c :: s)
  = if x =? c then repl ++ s else c :: Str.replace [x] repl s.
Proof.
  intros Hr. unfold Str.replace. rewrite find_unfold.
  cbn [Str.strip_prefix]. destruct (x =? c).
  - rewrite getSubstitution_plain by assumption. reflexivity.
  - destruct (Str.find [x] s) as [[a b]|]; [|reflexivity].
    rewrite !getSubstitution_plain by assumption. reflexivity.
Qed.

(** ** The fuel of the JSON parser *)

Lemma skip_ws_length (s : jstring) : (length (Json.skip_ws s) <= length s)%nat.
Proof.
  induction s as [|c s IH]; simpl; [lia|].
  destruct (Json.is_ws c); simpl; lia.
Qed.

Lemma skip_ws_cons_length (s r : jstring) (c : N) :
  Json.skip_ws s = c :: r -> (length r < length s)%nat.
Proof.
  intros E. pose proof (skip_ws_length s) as L. rewrite E in L. simpl in L. lia.
Qed.

Lemma span_digits_length (s ds r : jstring) :
  Json.span_digits s = (ds, r) -> (length r <= length s)%nat.
Proof.
  revert ds r. induction s as [|c s IH]; simpl; intros ds r E.
  - injection E as <- <-. simpl. lia.
  - destruct (Json.is_digit c).
    + destruct (Json.span_digits s) as [ds' r'] eqn:E'.
      injection E as <- <-. specialize (IH _ _ eq_refl). lia.
    + injection E as <- <-. simpl. lia.
Qed.

Lemma parse_chars_length (s w r : jstring) :
  Json.parse_chars s = Some (w, r) -> (length r <= length s)%nat.
Proof.
  remember (length s) as n eqn:En. revert s w r En.
  induction n as [n IH] using lt_wf_ind. intros s w r -> E.
  destruct s as [|c s]; [discriminate|].
  cbn [Json.parse_chars] in E.
  repeat (break_hyp E; subst; simpl in *);
    try (injection E as <- <-; simpl; lia);
    match goal with
    | E' : Json.parse_chars ?x = Some (_, _) |- _ =>
        let L := fresh in
        assert (L := IH (length x) ltac:(simpl; lia) _ _ _ eq_refl E');
        injection E as <- <-; simpl in *; lia
    end.
Qed.

Lemma parse_number_length (s lx r : jstring) :
  Json.parse_number s = Some (lx, r) -> (length r <= length s)%nat.
Proof.
  unfold Json.parse_number. intros E.
  repeat (break_hyp E; subst; simpl in * );
    revert E;
    repeat match goal with
           | E' : Json.span_digits _ = (_, _) |- _ =>
               apply span_digits_length in E'
           | E' : Some _ = Some _ |- _ => injection E' as ? ?; subst
           | E' : (_, _) = (_, _) |- _ => injection E' as ? ?; subst
           end;
    intros E; injection E as <- <-; simpl in *; lia.
Qed.

Lemma literal_length (word : jstring) (v v' : json) (s r : jstring) :
  Json.literal word v s = Some (v', r) -> (length r <= length s)%nat.
Proof.
  unfold Json.literal. destruct (Str.strip_prefix word s) eqn:E; [|discriminate].
  intros [= <- <-]. apply strip_prefix_Some in E. subst s.
  rewrite length_app. lia.
Qed.

Lemma parse_length (f : nat) :
  (forall s v r, Json.parse_value f s = Some (v, r) ->
                 (length r <= length s)%nat)
  /\ (forall s vs r, Json.parse_elements f s = Some (vs, r) ->
                     (length r <= length s)%nat)
  /\ (forall s ms r, Json.parse_members f s = Some (ms, r) ->
                     (length r <= length s)%nat).
Proof.
  induction f as [|f (IHv & IHe & IHm)]; [repeat split; discriminate|].
  repeat split.
  - intros s v r E. cbn [Json.parse_value] in E.
    pose proof (skip_ws_length s) as Ls.
    destruct (Json.skip_ws s) as [|c s1] eqn:Es; [discriminate|].
    simpl in Ls.
    repeat (break_hyp E; subst);
      repeat match goal with
             | E' : Json.skip_ws _ = _ :: _ |- _ =>
                 apply skip_ws_cons_length in E'
             | E' : Json.parse_members _ _ = Some _ |- _ => apply IHm in E'
             | E' : Json.parse_elements _ _ = Some _ |- _ => apply IHe in E'
             | E' : Json.parse_chars _ = Some _ |- _ =>
                 apply parse_chars_length in E'
             | E' : Json.parse_number _ = Some _ |- _ =>
                 apply parse_number_length in E'
             | E' : Json.literal _ _ _ = Some _ |- _ =>
                 apply literal_length in E'
             end;
      try (injection E as <- <-); simpl in *; lia.
  - intros s vs r E. cbn [Json.parse_elements] in E.
    repeat (break_hyp E; subst);
      repeat match goal with
             | E' : Json.skip_ws _ = _ :: _ |- _ =>
                 apply skip_ws_cons_length in E'
             | E' : Json.parse_value _ _ = Some _ |- _ => apply IHv in E'
             | E' : Json.parse_elements _ _ = Some _ |- _ => apply IHe in E'
             end;
      try (injection E as <- <-); simpl in *; lia.
  - intros s ms r E. cbn [Json.parse_members] in E.
    repeat (break_hyp E; subst);
      repeat match goal with
             | E' : Json.skip_ws _ = _ :: _ |- _ =>
                 apply skip_ws_cons_length in E'
             | E' : Json.parse_value _ _ = Some _ |- _ => apply IHv in E'
             | E' : Json.parse_members _ _ = Some _ |- _ => apply IHm in E'
             | E' : Json.parse_chars _ = Some _ |- _ =>
                 apply parse_chars_length in E'
             end;
      try (injection E as <- <-); simpl in *; lia.
Qed.

(** With enough fuel for the length of the text, more fuel changes
    nothing. *)
Lemma parse_fuel (f : nat) :
  (forall f' s, (2 * length s < f)%nat -> (2 * length s < f')%nat ->
                Json.parse_value f s = Json.parse_value f' s)
  /\ (forall f' s, (2 * length s + 1 < f)%nat -> (2 * length s + 1 < f')%nat ->
                   Json.parse_elements f s = Json.parse_elements f' s)
  /\ (forall f' s, (2 * length s + 1 < f)%nat -> (2 * length s + 1 < f')%nat ->
                   Json.parse_members f s = Json.parse_members f' s).
Proof.
  induction f as [|f (IHv & IHe & IHm)]; [repeat split; intros; lia|].
  repeat split; intros [|f'] s Hf Hf'; try lia.
  - cbn [Json.parse_value].
    pose proof (skip_ws_length s) as Ls.
    destruct (Json.skip_ws s) as [|c s1] eqn:Es; [reflexivity|].
    simpl in Ls.
    destruct (c =? 123).
    { pose proof (skip_ws_length s1) as L1.
      destruct (Json.skip_ws s1) as [|d s2] eqn:E1; [reflexivity|].
      simpl in L1. destruct (d =? 125); [reflexivity|].
      rewrite (IHm f' (d :: s2)) by (simpl; lia). reflexivity. }
    destruct (c =? 91); [|reflexivity].
    pose proof (skip_ws_length s1) as L1.
    destruct (Json.skip_ws s1) as [|d s2] eqn:E1; [reflexivity|].
    simpl in L1. destruct (d =? 93); [reflexivity|].
    rewrite (IHe f' (d :: s2)) by (simpl; lia). reflexivity.
  - cbn [Json.parse_elements].
    rewrite (IHv f' s) by lia.
    destruct (Json.parse_value f' s) as [[v r]|] eqn:Ev; [|reflexivity].
    apply (proj1 (parse_length f')) in Ev.
    pose proof (skip_ws_length r) as Lr.
    destruct (Json.skip_ws r) as [|c r'] eqn:Er; [reflexivity|].
    simpl in Lr. destruct (c =? 44); [|reflexivity].
    rewrite (IHe f' r') by lia. reflexivity.
  - cbn [Json.parse_members].
    pose proof (skip_ws_length s) as Ls.
    destruct (Json.skip_ws s) as [|q r0] eqn:Es; [reflexivity|].
    simpl in Ls. destruct (q =? 34); [|reflexivity].
    destruct (Json.parse_chars r0) as [[k r1]|] eqn:Ek; [|reflexivity].
    apply parse_chars_length in Ek.
    pose proof (skip_ws_length r1) as L1.
    destruct (Json.skip_ws r1) as [|c r2] eqn:E1; [reflexivity|].
    simpl in L1. destruct (c =? 58); [|reflexivity].
    rewrite (IHv f' r2) by lia.
    destruct (Json.parse_value f' r2) as [[v r3]|] eqn:Ev; [|reflexivity].
    apply (proj1 (parse_length f')) in Ev.
    pose proof (skip_ws_length r3) as L3.
    destruct (Json.skip_ws r3) as [|d r4] eqn:E3; [reflexivity|].
    simpl in L3. destruct (d =? 44); [|reflexivity].
    rewrite (IHm f' r4) by lia. reflexivity.
Qed.

(** [JSON.parse] with any larger fuel gives the same answer: the fuel
    it takes is enough, and its [None] is a text that is not JSON. *)
Lemma parse_fuel_enough (text : jstring) (f : nat) :
  (2 * length text + 3 <= f)%nat ->
  Json.parse_value f text = Json.parse_value (2 * length text + 3) text.
Proof. intros Hf. apply (proj1 (parse_fuel f)); lia. Qed.


(** ** The patterns of the tag strippers *)

Lemma literal_escape (tag : jstring) : Re.literal (Re.escape tag) = Some tag.
Proof.
  induction tag as [|c tag IH]; [reflexivity|].
  cbn [Re.escape]. destruct (Re.is_meta c) eqn:Hm.
  - assert ((c =? 92) = true \/ (c =? 92) = false) as [E|E]
      by (destruct (c =? 92); auto).
    + cbn [Re.literal]. change (92 =? 92) with true. cbv iota.
      rewrite Hm, IH. reflexivity.
    + cbn [Re.literal]. change (92 =? 92) with true. cbv iota.
      rewrite Hm, IH. reflexivity.
  - cbn [Re.literal].
    assert (E : (c =? 92) = false).
    { destruct (N.eqb_spec c 92) as [->|]; [discriminate Hm|reflexivity]. }
    assert (E' : Re.is_syntax c = false) by (unfold Re.is_syntax; rewrite Hm; reflexivity).
    rewrite E, E', IH. reflexivity.
Qed.

Lemma literal_bare_app (a b : jstring) :
  bare a = true ->
  Re.literal (a ++ b)
  = match Re.literal b with Some t => Some (a ++ t) | None => None end.
Proof.
  induction a as [|c a IH]; intros Ha.
  - simpl. destruct (Re.literal b); reflexivity.
  - simpl in Ha. apply andb_true_iff in Ha as [Hc Ha].
    apply andb_true_iff in Hc as [H92 Hsyn].
    apply negb_true_iff in H92, Hsyn.
    change ((c :: a) ++ b) with (c :: (a ++ b)).
    cbn [Re.literal]. rewrite H92, Hsyn, (IH Ha).
    destruct (Re.literal b); reflexivity.
Qed.

(** Inserting a slash next to the first [x] of an escaped tag, [x]
    being [<] or [>], gives a pattern for the tag with the slash
    inserted at the same place. *)
Lemma literal_escape_replace (x : N) (repl : jstring) (tag : jstring) :
  Re.is_meta x = false ->
  no_dollar repl = true ->
  bare repl = true ->
  Re.literal (Str.replace [x] repl (Re.escape tag))
  = Some (Str.replace [x] repl tag).
Proof.
  intros Hx Hr Hb. induction tag as [|c tag IH]; [reflexivity|].
  cbn [Re.escape]. destruct (Re.is_meta c) eqn:Hm.
  - assert (E1 : (x =? 92) = false).
    { destruct (N.eqb_spec x 92) as [->|]; [discriminate Hx|reflexivity]. }
    assert (E2 : (x =? c) = false).
    { destruct (N.eqb_spec x c) as [->|]; [congruence|reflexivity]. }
    rewrite !replace_one_cons, E1, E2 by assumption.
    cbn [Re.literal]. change (92 =? 92) with true. cbv iota.
    rewrite Hm, IH. reflexivity.
  - rewrite !replace_one_cons by assumption.
    destruct (x =? c).
    + rewrite (literal_bare_app _ _ Hb), literal_escape. reflexivity.
    + cbn [Re.literal].
      assert (E : (c =? 92) = false).
      { destruct (N.eqb_spec c 92) as [->|]; [discriminate Hm|reflexivity]. }
      assert (E' : Re.is_syntax c = false)
        by (unfold Re.is_syntax; rewrite Hm; reflexivity).
      rewrite E, E', IH. reflexivity.
Qed.

(** The pattern of [src/unnamed/part_000] is, for every tag, in the
    fragment of [regex]: the tag, anything, the closing tag; or the
    self-closing tag.  The host is never asked. *)
Lemma Part000_tag_regex_total (tag : jstring) :
  Part000.tag_regex tag
  = Some (Alt (Seq (Lit tag)
                 (Seq AnyLazy (Lit (Str.replace (js "<") (js "</") tag))))
            (Lit (Str.replace (js ">") (js "/>") tag))).
Proof.
  unfold Part000.tag_regex, Part000.closingTag, Part000.selfClosingTag,
    Part000.openingTag.
  rewrite literal_escape.
  rewrite (literal_escape_replace 60 (js "</")) by reflexivity.
  rewrite (literal_escape_replace 62 (js "/>")) by reflexivity.
  reflexivity.
Qed.

Lemma Part000_removeEach_total (H : Host) (tags : list jstring) (s : jstring) :
  is_Some (Part000.removeEach H tags s).
Proof.
  revert s. induction tags as [|tag tags IH]; intros s; [eexists; reflexivity|].
  cbn [Part000.removeEach]. unfold Part000.removeOne.
  rewrite Part000_tag_regex_total. apply IH.
Qed.

(** The stripper of [src/unnamed/part_000] returns for every tag list
    and every text. *)
Lemma Part000_applyTagRemoval_total (H : Host) (tags s : jstring) :
  is_Some (Part000.applyTagRemoval H tags s).
Proof.
  unfold Part000.applyTagRemoval.
  destruct tags; [eexists; reflexivity|].
  destruct s; [eexists; reflexivity|].
  destruct (Part000_removeEach_total H (Part000.tagsToRemove (n :: tags)) (n0 :: s))
    as [t ->].
  eexists; reflexivity.
Qed.

(** ** The lines of a response text in [src/unnamed/part_000] *)

Lemma at_line_start_cases (pre : jstring) :
  at_line_start pre = true -> pre = [] \/ exists a, pre = a ++ [10].
Proof.
  unfold at_line_start.
  destruct (last pre) as [c|] eqn:E.
  - intros Hc. apply N.eqb_eq in Hc. subst c. right.
    apply last_Some in E. exact E.
  - intros _. left. apply last_None in E. exact E.
Qed.

Lemma splitLines_unfold (c : N) (s : jstring) :
  Part000.splitLines (c :: s)
  = if c =? 13 then
      match s with
      | d :: s'' =>
          if d =? 10 then [] :: [c; d] :: Part000.splitLines s''
          else [] :: [c] :: Part000.splitLines s
      | [] => [] :: [c] :: Part000.splitLines s
      end
    else if c =? 10 then [] :: [c] :: Part000.splitLines s
    else
      match Part000.splitLines s with
      | w :: ws => (c :: w) :: ws
      | [] => [[c]]
      end.
Proof. reflexivity. Qed.

Lemma splitLines_cons (s : jstring) :
  exists w ws, Part000.splitLines s = w :: ws.
Proof.
  destruct s as [|c s]; [eexists _, _; reflexivity|].
  cbn [Part000.splitLines].
  destruct (c =? 13); [destruct s as [|d s]; [|destruct (d =? 10)]|];
    try (eexists _, _; reflexivity).
  destruct (c =? 10); [eexists _, _; reflexivity|].
  destruct (Part000.splitLines s); eexists _, _; reflexivity.
Qed.

Lemma splitLines_line (l rest : jstring) :
  no_break l = true ->
  Part000.splitLines (l ++ rest)
  = match Part000.splitLines rest with
    | w :: ws => (l ++ w) :: ws
    | [] => [l]
    end.
Proof.
  induction l as [|c l IH]; intros Hn.
  - destruct (splitLines_cons rest) as (w & ws & E). simpl. rewrite E.
    reflexivity.
  - simpl in Hn. apply andb_true_iff in Hn as [Hc Hl].
    apply andb_true_iff in Hc as [H10 H13].
    apply negb_true_iff in H10, H13.
    change ((c :: l) ++ rest) with (c :: (l ++ rest)).
    rewrite splitLines_unfold, H13, H10, (IH Hl).
    destruct (Part000.splitLines rest); reflexivity.
Qed.

Lemma splitLines_break (rest : jstring) :
  at_break rest = true -> exists ws, Part000.splitLines rest = [] :: ws.
Proof.
  destruct rest as [|c r]; simpl.
  - intros _. eexists. reflexivity.
  - intros Hc. destruct (c =? 13) eqn:E13.
    + destruct r as [|d r]; [eexists; reflexivity|].
      destruct (d =? 10); eexists; reflexivity.
    + simpl in Hc. rewrite orb_false_r in Hc. rewrite Hc.
      eexists. reflexivity.
Qed.

Lemma splitLines_after_LF_both (a : jstring) :
  (exists w init, forall rest,
      Part000.splitLines (a ++ 10 :: rest)
      = (w :: init) ++ Part000.splitLines rest)
  /\ (forall c, exists w init, forall rest,
        Part000.splitLines ((c :: a) ++ 10 :: rest)
        = (w :: init) ++ Part000.splitLines rest).
Proof.
  induction a as [|d a [IH1 IH2]].
  - split.
    + exists [], [[10]]. intros rest. reflexivity.
    + intros c. destruct (c =? 13) eqn:E13; [|destruct (c =? 10) eqn:E10].
      * exists [], [[c; 10]]. intros rest.
        change ([c] ++ 10 :: rest) with (c :: 10 :: rest).
        rewrite splitLines_unfold, E13. reflexivity.
      * exists [], [[c]; []; [10]]. intros rest.
        change ([c] ++ 10 :: rest) with (c :: 10 :: rest).
        rewrite splitLines_unfold, E13, E10. reflexivity.
      * exists [c], [[10]]. intros rest.
        change ([c] ++ 10 :: rest) with (c :: 10 :: rest).
        rewrite splitLines_unfold, E13, E10. reflexivity.
  - split; [apply IH2|].
    intros c. destruct (IH2 d) as (w & init & Hd).
    destruct IH1 as (w1 & init1 & Ha).
    destruct (c =? 13) eqn:E13; [|destruct (c =? 10) eqn:E10].
    + destruct (d =? 10) eqn:Ed.
      * exists [], ([c; d] :: w1 :: init1). intros rest.
        change (((c :: d :: a) ++ 10 :: rest)) with (c :: d :: (a ++ 10 :: rest)).
        rewrite splitLines_unfold, E13, Ed, Ha. reflexivity.
      * exists [], ([c] :: w :: init). intros rest.
        change (((c :: d :: a) ++ 10 :: rest)) with (c :: d :: (a ++ 10 :: rest)).
        rewrite splitLines_unfold, E13, Ed.
        change (d :: a ++ 10 :: rest) with ((d :: a) ++ 10 :: rest).
        rewrite Hd. reflexivity.
    + exists [], ([c] :: w :: init). intros rest.
      change (((c :: d :: a) ++ 10 :: rest)) with (c :: ((d :: a) ++ 10 :: rest)).
      rewrite splitLines_unfold, E13, E10, Hd. reflexivity.
    + exists (c :: w), init. intros rest.
      change (((c :: d :: a) ++ 10 :: rest)) with (c :: ((d :: a) ++ 10 :: rest)).
      rewrite splitLines_unfold, E13, E10, Hd. reflexivity.
Qed.

Lemma splitLines_after_LF (a : jstring) :
  exists w init, forall rest,
    Part000.splitLines (a ++ 10 :: rest)
    = (w :: init) ++ Part000.splitLines rest.
Proof. apply splitLines_after_LF_both. Qed.

Section Part000Lines.

Context (H : Host) (tags : jstring) (hasSetResult : bool).

Lemma Part000_processLines_cons (d : Part000.decoder) (line : jstring)
    (rest : list jstring) :
  Part000.processLines H tags hasSetResult d (line :: rest)
  = match Part000_payload line with
    | Some p =>
        if Str.eqb p DONE then d
        else Part000.processLines H tags hasSetResult
               (Part000.processData H tags hasSetResult d p) rest
    | None => Part000.processLines H tags hasSetResult d rest
    end.
Proof.
  unfold Part000_payload. cbn [Part000.processLines].
  destruct (Str.trim line) eqn:E; [reflexivity|].
  destruct (Str.startsWith _ (js "data:")); reflexivity.
Qed.

Lemma Part000_processLines_app (d : Part000.decoder) (l1 l2 : list jstring) :
  Part000.processLines H tags hasSetResult d (l1 ++ l2)
  = if Part000_stops l1
    then Part000.processLines H tags hasSetResult d l1
    else Part000.processLines H tags hasSetResult
           (Part000.processLines H tags hasSetResult d l1) l2.
Proof.
  revert d. induction l1 as [|line l1 IH]; intros d; [reflexivity|].
  change ((line :: l1) ++ l2) with (line :: (l1 ++ l2)).
  rewrite !Part000_processLines_cons.
  unfold Part000_stops. cbn [existsb]. fold (Part000_stops l1).
  destruct (Part000_payload line) as [p|]; cbn [orb].
  - destruct (Str.eqb p DONE); cbn [orb]; [reflexivity|]. apply IH.
  - apply IH.
Qed.

(** The lines of a text that is at a line start, followed by more
    text, are processed as the lines of the text, then those of what
    follows. *)
Lemma Part000_lines_after (pre rest : jstring) (d : Part000.decoder) :
  at_line_start pre = true ->
  exists front,
    Part000.processLines H tags hasSetResult d (Part000.splitLines pre)
    = Part000.processLines H tags hasSetResult d front
    /\ forall rest,
         Part000.processLines H tags hasSetResult d
           (Part000.splitLines (pre ++ rest))
         = Part000.processLines H tags hasSetResult d
             (front ++ Part000.splitLines rest).
Proof.
  intros Hs. destruct (at_line_start_cases pre Hs) as [->|[a ->]].
  - exists []. split; reflexivity.
  - destruct (splitLines_after_LF a) as (w & init & Ha).
    exists (w :: init). split.
    + rewrite (Ha []). rewrite Part000_processLines_app.
      destruct (Part000_stops (w :: init)); reflexivity.
    + intros rest'. rewrite <- app_assoc.
      change ([10] ++ rest') with (10 :: rest').
      rewrite (Ha rest'). reflexivity.
Qed.

(** After a terminator line nothing is read. *)
Lemma Part000_lines_terminated (pre line rest : jstring) (d : Part000.decoder) :
  at_line_start pre = true ->
  no_break line = true ->
  at_break rest = true ->
  Part000_payload line = Some DONE ->
  Part000.processLines H tags hasSetResult d
    (Part000.splitLines (pre ++ line ++ rest))
  = Part000.processLines H tags hasSetResult d (Part000.splitLines pre).
Proof.
  intros Hs Hn Hb Hp.
  destruct (Part000_lines_after pre rest d Hs) as (front & E1 & E2).
  rewrite E1, E2, Part000_processLines_app.
  destruct (Part000_stops front); [reflexivity|].
  rewrite (splitLines_line _ _ Hn).
  destruct (splitLines_break rest Hb) as [ws ->].
  rewrite app_nil_r, Part000_processLines_cons, Hp. reflexivity.
Qed.


End Part000Lines.

(** ** The lines of a stream in [src/main.js] *)

Lemma split_cut (s : jstring) :
  Str.split 10 s = fst (Main_cut s) ++ [snd (Main_cut s)].
Proof.
  induction s as [|c s IH]; [reflexivity|].
  cbn [Str.split Main_cut]. destruct (Main_cut s) as [ls r].
  cbn [fst snd] in IH. rewrite IH.
  destruct (c =? 10); [reflexivity|].
  destruct ls as [|l ls]; reflexivity.
Qed.

Lemma split_lines (s : jstring) :
  removelast (Str.split 10 s) = fst (Main_cut s).
Proof. rewrite split_cut. apply removelast_last. Qed.

Lemma split_rest (s : jstring) :
  default [] (last (Str.split 10 s)) = snd (Main_cut s).
Proof. rewrite split_cut, last_snoc. reflexivity. Qed.

Lemma Main_cut_app (x y : jstring) :
  Main_cut (x ++ y)
  = (fst (Main_cut x) ++ fst (Main_cut (snd (Main_cut x) ++ y)),
     snd (Main_cut (snd (Main_cut x) ++ y))).
Proof.
  induction x as [|c x IH].
  - simpl. destruct (Main_cut y); reflexivity.
  - change ((c :: x) ++ y) with (c :: (x ++ y)).
    cbn [Main_cut]. rewrite IH.
    destruct (Main_cut x) as [ls r]. cbn [fst snd].
    destruct (c =? 10) eqn:E.
    + reflexivity.
    + destruct ls as [|l ls]; cbn [fst snd app].
      * cbn [Main_cut]. rewrite E.
        destruct (Main_cut (r ++ y)) as [ls' r']. cbn [fst snd].
        destruct ls'; reflexivity.
      * reflexivity.
Qed.

Lemma Main_cut_LF (a : jstring) :
  exists l ls, Main_cut (a ++ [10]) = (l :: ls, []).
Proof.
  induction a as [|c a (l & ls & IH)].
  - eexists _, _. reflexivity.
  - change ((c :: a) ++ [10]) with (c :: (a ++ [10])). cbn [Main_cut].
    rewrite IH. destruct (c =? 10); eexists _, _; reflexivity.
Qed.

Lemma Main_cut_line_start (pre : jstring) :
  at_line_start pre = true -> snd (Main_cut pre) = [].
Proof.
  intros Hs. destruct (at_line_start_cases pre Hs) as [->|[a ->]];
    [reflexivity|].
  destruct (Main_cut_LF a) as (l & ls & ->). reflexivity.
Qed.


Section MainLines.

Context (H : Host) (tags : jstring).

Lemma Main_processLine_buffer (b : jstring) (d : Main.decoder) (line : jstring) :
  Main.processLine H tags (set_buffer b d) line
  = set_buffer b (Main.processLine H tags d line).
Proof.
  unfold Main.processLine.
  destruct (Str.startsWith line (js "data: ")); [|reflexivity].
  destruct (Str.eqb _ DONE); [reflexivity|].
  destruct (Json.parse _) as [parsed|]; [|reflexivity].
  destruct (Main.deltaContent H parsed) as [[content|]|]; try reflexivity.
  destruct (Val.toString H content) as [deltaText|]; [|reflexivity].
  cbn [set_buffer Main.fullContent Main.pushed Main.chunkBuffer].
  destruct (Main.applyRemoveTag H tags _); reflexivity.
Qed.

Lemma Main_lines_buffer (b : jstring) (lines : list jstring) (d : Main.decoder) :
  foldl (Main.processLine H tags) (set_buffer b d) lines
  = set_buffer b (foldl (Main.processLine H tags) d lines).
Proof.
  revert d. induction lines as [|line lines IH]; intros d; [reflexivity|].
  cbn [foldl]. rewrite Main_processLine_buffer. apply IH.
Qed.

(** One chunk: the lines of the buffer and the chunk are processed and
    what is left of them is the new buffer. *)
Lemma Main_processChunk_cut (d : Main.decoder) (chunk : jstring) :
  Main.processChunk H tags d chunk
  = set_buffer (snd (Main_cut (Main.chunkBuffer d ++ chunk)))
      (foldl (Main.processLine H tags) d
         (fst (Main_cut (Main.chunkBuffer d ++ chunk)))).
Proof.
  unfold Main.processChunk. rewrite split_lines, split_rest.
  apply (Main_lines_buffer _ _ d).
Qed.

Lemma Main_lines_keep_buffer (lines : list jstring) (d : Main.decoder) :
  Main.chunkBuffer (foldl (Main.processLine H tags) d lines)
  = Main.chunkBuffer d.
Proof.
  destruct d as [f b p].
  change {| Main.fullContent := f; Main.chunkBuffer := b; Main.pushed := p |}
    with (set_buffer b {| Main.fullContent := f; Main.chunkBuffer := b;
                          Main.pushed := p |}) at 1.
  rewrite Main_lines_buffer. reflexivity.
Qed.

Lemma set_buffer_twice (a b : jstring) (d : Main.decoder) :
  set_buffer a (set_buffer b d) = set_buffer a d.
Proof. reflexivity. Qed.

(** Two chunks are read as the one chunk made of both. *)
Lemma Main_processChunk_app (d : Main.decoder) (a b : jstring) :
  Main.processChunk H tags (Main.processChunk H tags d a) b
  = Main.processChunk H tags d (a ++ b).
Proof.
  rewrite (Main_processChunk_cut d a).
  rewrite Main_processChunk_cut.
  cbn [set_buffer Main.chunkBuffer].
  rewrite Main_lines_buffer, set_buffer_twice.
  rewrite (Main_processChunk_cut d (a ++ b)).
  rewrite app_assoc, (Main_cut_app (Main.chunkBuffer d ++ a) b).
  cbn [fst snd]. rewrite foldl_app. reflexivity.
Qed.

(** The chunks of a stream are read as the text they make. *)
Lemma Main_readAll_concat (cs : list jstring) :
  Main.readAll H tags cs = Main.processChunk H tags Main.start (concat cs).
Proof.
  unfold Main.readAll.
  induction cs as [|c cs IH] using rev_ind; [reflexivity|].
  rewrite foldl_app. cbn [foldl]. rewrite IH, Main_processChunk_app.
  rewrite concat_app. cbn [concat]. rewrite app_nil_r. reflexivity.
Qed.

Lemma Main_readAll_lines (cs : list jstring) :
  Main.readAll H tags cs
  = set_buffer (snd (Main_cut (concat cs)))
      (foldl (Main.processLine H tags) Main.start (fst (Main_cut (concat cs)))).
Proof. rewrite Main_readAll_concat. apply Main_processChunk_cut. Qed.



End MainLines.

Lemma Main_decodeStream_readAll (H : Host) (tags : jstring) (cs cs' : list jstring)
    (f : option jstring) :
  Main.readAll H tags cs = Main.readAll H tags cs' ->
  Main.decodeStream H tags {| chunks := cs; failure := f |}
  = Main.decodeStream H tags {| chunks := cs'; failure := f |}.
Proof. intros E. unfold Main.decodeStream. cbn [chunks failure]. rewrite E. reflexivity. Qed.



(** ** What accumulates only grows *)

Section MainGrowth.

Context (H : Host) (tags : jstring).

Lemma Main_pushed_ok_mono (d d' : Main.decoder) :
  Main.fullContent d `prefix_of` Main.fullContent d' ->
  Main.pushed d' = Main.pushed d ->
  Main_pushed_ok H tags d -> Main_pushed_ok H tags d'.
Proof.
  unfold Main_pushed_ok. intros Hp -> Hd. eapply Forall_impl; [exact Hd|].
  intros p (pre & t & Hpre & Ht & ->). exists pre, t.
  split; [etrans; eassumption|]. split; [assumption|reflexivity].
Qed.

Lemma Main_processLine_grows (d : Main.decoder) (line : jstring) :
  Main.fullContent d `prefix_of` Main.fullContent (Main.processLine H tags d line)
  /\ Main.pushed d `prefix_of` Main.pushed (Main.processLine H tags d line)
  /\ (Main_pushed_ok H tags d ->
      Main_pushed_ok H tags (Main.processLine H tags d line)).
Proof.
  unfold Main.processLine.
  destruct (Str.startsWith line (js "data: ")); [|split; [reflexivity|split; [reflexivity|auto]]].
  destruct (Str.eqb _ DONE); [split; [reflexivity|split; [reflexivity|auto]]|].
  destruct (Json.parse _) as [parsed|]; [|split; [reflexivity|split; [reflexivity|auto]]].
  destruct (Main.deltaContent H parsed) as [[content|]|]; try (split; [reflexivity|split; [reflexivity|auto]]).
  destruct (Val.toString H content) as [deltaText|]; [|split; [reflexivity|split; [reflexivity|auto]]].
  destruct (Main.applyRemoveTag H tags (Main.fullContent d ++ deltaText))
    as [t|] eqn:Et; cbn [Main.fullContent Main.pushed].
  - split; [apply prefix_app_r; reflexivity|].
    split; [apply prefix_app_r; reflexivity|].
    intros Hd. unfold Main_pushed_ok. cbn [Main.fullContent Main.pushed].
    apply Forall_app. split.
    + eapply Forall_impl; [exact Hd|].
      intros p (pre & t' & Hpre & Ht' & ->). exists pre, t'.
      split; [apply prefix_app_r, Hpre|]. split; [assumption|reflexivity].
    + apply Forall_singleton. exists (Main.fullContent d ++ deltaText), t.
      split; [reflexivity|]. split; [exact Et|reflexivity].
  - split; [apply prefix_app_r; reflexivity|]. split; [reflexivity|].
    apply Main_pushed_ok_mono; [apply prefix_app_r; reflexivity|reflexivity].
Qed.

Lemma Main_lines_grow (lines : list jstring) (d : Main.decoder) :
  Main.fullContent d
    `prefix_of` Main.fullContent (foldl (Main.processLine H tags) d lines)
  /\ Main.pushed d
       `prefix_of` Main.pushed (foldl (Main.processLine H tags) d lines)
  /\ (Main_pushed_ok H tags d ->
      Main_pushed_ok H tags (foldl (Main.processLine H tags) d lines)).
Proof.
  revert d. induction lines as [|line lines IH]; intros d;
    [split; [reflexivity|split; [reflexivity|auto]]|].
  cbn [foldl].
  destruct (Main_processLine_grows d line) as (G1 & G2 & G3).
  destruct (IH (Main.processLine H tags d line)) as (I1 & I2 & I3).
  split; [etrans; eassumption|]. split; [etrans; eassumption|auto].
Qed.

Lemma Main_processChunk_grows (d : Main.decoder) (chunk : jstring) :
  Main.fullContent d
    `prefix_of` Main.fullContent (Main.processChunk H tags d chunk)
  /\ Main.pushed d `prefix_of` Main.pushed (Main.processChunk H tags d chunk)
  /\ (Main_pushed_ok H tags d ->
      Main_pushed_ok H tags (Main.processChunk H tags d chunk)).
Proof.
  rewrite Main_processChunk_cut. apply Main_lines_grow.
Qed.

Lemma Main_chunks_grow (cs : list jstring) (d : Main.decoder) :
  Main.fullContent d
    `prefix_of` Main.fullContent (foldl (Main.processChunk H tags) d cs)
  /\ Main.pushed d
       `prefix_of` Main.pushed (foldl (Main.processChunk H tags) d cs)
  /\ (Main_pushed_ok H tags d ->
      Main_pushed_ok H tags (foldl (Main.processChunk H tags) d cs)).
Proof.
  revert d. induction cs as [|c cs IH]; intros d;
    [split; [reflexivity|split; [reflexivity|auto]]|].
  cbn [foldl].
  destruct (Main_processChunk_grows d c) as (G1 & G2 & G3).
  destruct (IH (Main.processChunk H tags d c)) as (I1 & I2 & I3).
  split; [etrans; eassumption|]. split; [etrans; eassumption|auto].
Qed.

End MainGrowth.

(** ** Lines that bear a delta *)







Section Part000Delta.

Context (H : Host) (tags : jstring) (hasSetResult : bool).





End Part000Delta.

(** * The claims *)

(** ** C1: the request body *)

Lemma Main_fetched_body (H : Host) (U : UrlClass) (text from to : jstring)
    (o : options) (net : request -> reply) (req : request) :
  In req (fetched (Main.translate H U text from to o net)) ->
  body req = Main.requestBody (config o) text from to o.
Proof.
  unfold Main.translate.
  destruct (missing (apiKey (config o))); [intros []|].
  destruct (missing (requestPath (config o))); [intros []|].
  destruct (Main.normalize U _) as [apiUrl|]; [|intros []].
  destruct (Main.useStream (config o) && setResult o).
  - destruct (net _) as [reason|r]; simpl.
    + intros [<-|[]]; reflexivity.
    + destruct (ok r); simpl.
      * destruct (body_stream r) as [s|]; simpl.
        -- destruct (Main.decodeStream H _ s). simpl.
           intros [<-|[]]; reflexivity.
        -- intros [<-|[]]; reflexivity.
      * intros [<-|[]]; reflexivity.
  - destruct (net _) as [reason|r]; simpl; intros [<-|[]]; reflexivity.
Qed.

Lemma Part000_fetched_body (H : Host) (text from to : jstring)
    (o : options) (net : request -> reply) (req : request) :
  In req (fetched (Part000.translate H text from to o net)) ->
  body req = Part000.requestBody (config o) text from to.
Proof.
  unfold Part000.translate.
  destruct (http o); [|intros []]. simpl.
  destruct (missing (apiKey (config o))); [intros []|].
  destruct (missing (requestPath (config o))); [intros []|].
  destruct (net _) as [reason|r]; simpl.
  - intros [<-|[]]; reflexivity.
  - destruct (ok r); simpl.
    + destruct (Part000.useStream (config o)); simpl.
      * destruct (data r) as [[]|]; simpl;
          try (intros [<-|[]]; reflexivity).
        destruct (Part000.decodeStream H _ _ _). simpl.
        intros [<-|[]]; reflexivity.
      * destruct (Part000.bufferedResult H _ _ r). simpl.
        intros [<-|[]]; reflexivity.
    + intros [<-|[]]; reflexivity.
Qed.

Lemma key_stream_messages : js "stream" <> js "messages".
Proof. discriminate. Qed.
Lemma key_stream_model : js "stream" <> js "model".
Proof. discriminate. Qed.
Lemma key_messages_model : js "messages" <> js "model".
Proof. discriminate. Qed.

(** C1, as the code has it: the body of every request sent is the
    object of the construction; its [messages] are built as the system
    message then the user message; in [src/main.js] the key [stream] is
    always the caller's, and [model] and [messages] are the caller's
    unless the parsed parameters have a key of that name, whose value is
    then the one sent; in [src/unnamed/part_000], where the parameters
    are spread last, this holds of all three keys. *)
Theorem C1_body_keys (H : Host) (U : UrlClass) (text from to : jstring)
    (o : options) (net : request -> reply) :
  let c := config o in
  let given := spread (Main.parameters_value c) in
  let given' := spread (Part000.parameters_value c) in
  (forall req, In req (fetched (Main.translate H U text from to o net)) ->
     body req = Main.requestBody c text from to o)
  /\ (forall req, In req (fetched (Part000.translate H text from to o net)) ->
        body req = Part000.requestBody c text from to)
  /\ Main.messages c text from to (detect o)
     = JArr [message (js "system") (Main.systemPrompt c from to (detect o));
             message (js "user") (Main.userPrompt c text from to (detect o))]
  /\ Part000.messages c text from to
     = JArr [message (js "system") (Part000.systemPrompt c text from to);
             message (js "user") (Part000.userPrompt c text from to)]
  /\ Main.requestBody c text from to o !! js "stream"
     = Some (JBool (Main.useStream c && setResult o))
  /\ Main.requestBody c text from to o !! js "messages"
     = Some (default (Main.messages c text from to (detect o))
               (given !! js "messages"))
  /\ Main.requestBody c text from to o !! js "model"
     = Some (default (JStr (or_default (model c) (js "gpt-4o-mini")))
               (given !! js "model"))
  /\ Part000.requestBody c text from to !! js "stream"
     = Some (default (JBool (Part000.useStream c)) (given' !! js "stream"))
  /\ Part000.requestBody c text from to !! js "messages"
     = Some (default (Part000.messages c text from to)
               (given' !! js "messages"))
  /\ Part000.requestBody c text from to !! js "model"
     = Some (default (JStr (or_default (model c) (js "gpt-3.5-turbo")))
               (given' !! js "model")).
Proof.
  intros c given given'.
  split; [intros req; apply Main_fetched_body|].
  split; [intros req; apply Part000_fetched_body|].
  split; [reflexivity|]. split; [reflexivity|].
  unfold Main.requestBody, Part000.requestBody. fold given given'.
  repeat split.
  - apply lookup_insert_eq.
  - rewrite lookup_insert_ne by apply key_stream_messages.
    rewrite lookup_union. rewrite lookup_insert_eq.
    destruct (given !! js "messages"); reflexivity.
  - rewrite lookup_insert_ne by apply key_stream_model.
    rewrite lookup_union.
    rewrite lookup_insert_ne by apply key_messages_model.
    rewrite lookup_singleton_eq.
    destruct (given !! js "model"); reflexivity.
  - rewrite lookup_union, lookup_insert_eq.
    destruct (given' !! js "stream"); reflexivity.
  - rewrite lookup_union.
    rewrite lookup_insert_ne by apply key_stream_messages.
    rewrite lookup_insert_eq.
    destruct (given' !! js "messages"); reflexivity.
  - rewrite lookup_union.
    rewrite lookup_insert_ne by apply key_stream_model.
    rewrite lookup_insert_ne by apply key_messages_model.
    rewrite lookup_singleton_eq.
    destruct (given' !! js "model"); reflexivity.
Qed.

Lemma C1_body_keys_witness :
  Main.requestBody overriding_config (js "hi") (js "en") (js "fr")
    overriding_options !! js "stream" = Some (JBool false)
  /\ forall req,
       In req (fetched (Part000.translate example_host (js "hi") (js "en")
                          (js "fr") overriding_options
                          (fun _ => Responds ok_response))) ->
       body req = Part000.requestBody overriding_config (js "hi") (js "en")
                    (js "fr").
Proof.
  pose proof (C1_body_keys example_host simple_url (js "hi") (js "en") (js "fr")
                overriding_options (fun _ => Responds ok_response)) as K.
  cbv zeta in K. destruct K as (_ & K2 & _ & _ & K5 & _).
  split; [exact K5 | exact K2].
Defined.

(** C1, as it is stated, fails: with the parameters
    [{"messages": [], "stream": "no"}] both variants send a request
    whose [messages] is the empty list of the parameters, and
    [src/unnamed/part_000] also sends their [stream]. *)
Lemma C1_parameters_replace_keys :
  (exists req,
     fetched (Main.translate example_host simple_url (js "hi") (js "en") (js "fr")
                overriding_options (fun _ => Responds ok_response)) = [req]
     /\ body req !! js "messages" = Some (JArr [])
     /\ body req !! js "messages"
        <> Some (Main.messages overriding_config (js "hi") (js "en") (js "fr") None))
  /\ (exists req,
        fetched (Part000.translate example_host (js "hi") (js "en") (js "fr")
                   overriding_options (fun _ => Responds ok_response)) = [req]
        /\ body req !! js "messages" = Some (JArr [])
        /\ body req !! js "stream" = Some (JStr (js "no"))).
Proof.
  split; eexists; (split; [vm_compute; reflexivity|]).
  - split; [vm_compute; reflexivity|]. vm_compute. discriminate.
  - split; vm_compute; reflexivity.
Qed.

(** ** C2: the tag stripper on the example *)

(** C2: with the default tag list [<think>,<help>] and the text
    [<think>ignore</think>Hello<help/>], the stripper of
    [src/unnamed/part_000] returns [Hello], and the stripper of
    [src/main.js] returns the text as it was: its pattern for [<think>]
    is [<think>(?:\s*\/>|>(.*?)<\/think>>)], which asks for a second [>]
    after the tag. *)
Theorem C2_strip_example (H : Host) :
  Part000.applyTagRemoval H default_tags (js "<think>ignore</think>Hello<help/>")
  = Some (js "Hello")
  /\ Main.applyRemoveTag H default_tags (js "<think>ignore</think>Hello<help/>")
     = Some (js "<think>ignore</think>Hello<help/>")
  /\ Main.tag_pattern (js "<think>") = js "<think>(?:\s*\/>|>(.*?)<\/think>>)".
Proof. repeat split; vm_compute; reflexivity. Qed.

(** ** C3: the terminator *)

(** C3: in [src/unnamed/part_000], a response text with a terminator
    line at a line start is decoded, callbacks and result, as the text
    before that line: nothing after it is read.  In [src/main.js] the
    terminator line is passed over and the reading goes on: for the
    chunks [Hel], terminator, [lo] the result is [Hello], where the
    stream up to the terminator gives [Hel]. *)
Theorem C3_terminator (H : Host) (tags : jstring) :
  (forall (hasSetResult : bool) (pre line rest : jstring),
     at_line_start pre = true ->
     no_break line = true ->
     at_break rest = true ->
     Part000_payload line = Some DONE ->
     Part000.decodeStream H tags hasSetResult (pre ++ line ++ rest)
     = Part000.decodeStream H tags hasSetResult pre)
  /\ Main.decodeStream H default_tags
       {| chunks := [chunk_Hel; chunk_DONE; chunk_lo]; failure := None |}
     = ([js "Hel..."; js "Hello..."; js "Hello"], Return (js "Hello"))
  /\ Main.decodeStream H default_tags
       {| chunks := [chunk_Hel; chunk_DONE]; failure := None |}
     = ([js "Hel..."; js "Hel"], Return (js "Hel"))
  /\ Part000.decodeStream H default_tags true
       (chunk_Hel ++ chunk_DONE ++ chunk_lo)
     = ([js "Hel"; js "Hel"], Return (js "Hel")).
Proof.
  split; [|repeat split; vm_compute; reflexivity].
  intros b pre line rest Hs Hn Hb Hp.
  unfold Part000.decodeStream.
  rewrite (Part000_lines_terminated H tags b pre line rest _ Hs Hn Hb Hp).
  reflexivity.
Qed.

Lemma C3_terminator_witness :
  Part000.decodeStream example_host default_tags true
    (chunk_Hel ++ jq "data: [DONE]" ++ [10] ++ chunk_lo)
  = Part000.decodeStream example_host default_tags true chunk_Hel.
Proof.
  apply (proj1 (C3_terminator example_host default_tags));
    vm_compute; reflexivity.
Defined.

(** ** C4: the stream of the example *)





(** ** C5: prompt rendering *)

Lemma find_after_plain (p : placeholder) (s rest : jstring) :
  no_dollar s = true ->
  Str.find (placeholder_source p) (s ++ rest)
  = match Str.find (placeholder_source p) rest with
    | Some (a, b) => Some (s ++ a, b)
    | None => None
    end.
Proof.
  induction s as [|c s IH]; intros Hs.
  - simpl. destruct (Str.find _ rest) as [[a b]|]; reflexivity.
  - simpl in Hs. apply andb_true_iff in Hs as [Hc Hs].
    apply negb_true_iff in Hc.
    change ((c :: s) ++ rest) with (c :: (s ++ rest)).
    rewrite find_unfold. unfold placeholder_source at 1.
    cbn [Str.strip_prefix]. rewrite N.eqb_sym, Hc, (IH Hs).
    destruct (Str.find _ rest) as [[a b]|]; reflexivity.
Qed.

Lemma find_after_hole (p q : placeholder) (rest : jstring) :
  placeholder_eqb p q = false ->
  Str.find (placeholder_source p) (placeholder_source q ++ rest)
  = match Str.find (placeholder_source p) rest with
    | Some (a, b) => Some (placeholder_source q ++ a, b)
    | None => None
    end.
Proof.
  intros Hpq. unfold placeholder_source at 2 3.
  change ((36 :: placeholder_name q) ++ rest)
    with (36 :: (placeholder_name q ++ rest)).
  rewrite find_unfold.
  assert (E : Str.strip_prefix (placeholder_source p)
                (36 :: placeholder_name q ++ rest) = None)
    by (destruct p, q; try discriminate Hpq; reflexivity).
  rewrite E, find_after_plain by (destruct q; reflexivity).
  destruct (Str.find _ rest) as [[a b]|]; reflexivity.
Qed.

Lemma find_at_hole (p : placeholder) (rest : jstring) :
  Str.find (placeholder_source p) (placeholder_source p ++ rest)
  = Some ([], rest).
Proof. rewrite find_unfold, strip_prefix_app. reflexivity. Qed.

(** [replace] of a placeholder by a text without a dollar, on a
    template without a stray dollar, fills the first hole of that
    placeholder. *)
Lemma replace_fills_first (p : placeholder) (v : jstring) (t : list piece) :
  plain t = true ->
  no_dollar v = true ->
  Str.replace (placeholder_source p) v (template_source t)
  = template_source (fill_first p v t).
Proof.
  intros Ht Hv. unfold Str.replace.
  induction t as [|x t IH]; [reflexivity|].
  simpl in Ht. apply andb_true_iff in Ht as [Hx Ht]. specialize (IH Ht).
  unfold template_source in *. cbn [map concat fill_first].
  destruct x as [s|q]; cbn [piece_source].
  - rewrite (find_after_plain _ _ _ Hx).
    destruct (Str.find _ (concat (map piece_source t))) as [[a b]|].
    + cbn [map concat piece_source]. rewrite <- IH.
      rewrite !getSubstitution_plain by assumption.
      rewrite <- !app_assoc. reflexivity.
    + cbn [map concat piece_source]. rewrite <- IH. reflexivity.
  - destruct (placeholder_eqb p q) eqn:Hpq.
    + assert (p = q) as <- by (destruct p, q; try discriminate; reflexivity).
      rewrite find_at_hole, getSubstitution_plain by assumption.
      reflexivity.
    + rewrite (find_after_hole _ _ _ Hpq).
      destruct (Str.find _ (concat (map piece_source t))) as [[a b]|].
      * cbn [map concat piece_source]. rewrite <- IH.
        rewrite !getSubstitution_plain by assumption.
        rewrite <- !app_assoc. reflexivity.
      * cbn [map concat piece_source]. rewrite <- IH. reflexivity.
Qed.

Lemma fill_first_plain (p : placeholder) (v : jstring) (t : list piece) :
  plain t = true -> no_dollar v = true -> plain (fill_first p v t) = true.
Proof.
  intros Ht Hv. induction t as [|x t IH]; [reflexivity|].
  simpl in Ht. apply andb_true_iff in Ht as [Hx Ht].
  destruct x as [s|q]; cbn [fill_first].
  - simpl. rewrite Hx. apply (IH Ht).
  - destruct (placeholder_eqb p q); simpl.
    + rewrite Hv. exact Ht.
    + apply (IH Ht).
Qed.

Lemma display_name_mapped (m : gmap jstring jstring) (code name : jstring) :
  m !! code = Some name -> name <> [] -> display_name m code = name.
Proof.
  intros E Hn. unfold display_name. rewrite E.
  destruct name; [contradiction|reflexivity].
Qed.

Lemma display_name_unmapped (m : gmap jstring jstring) (code : jstring) :
  m !! code = None -> display_name m code = code.
Proof. intros E. unfold display_name. rewrite E. reflexivity. Qed.

(** C5, as the code has it: each [replace] fills the first occurrence of
    its placeholder in the result of the one before, and only that one.
    On a template in which every dollar begins one of the four
    placeholders, and for a text and names without a dollar, the user
    prompt of [src/main.js] is the template with the first [$text],
    [$to], [$from] and [$detect] filled and its system prompt the
    template with the first [$to], [$from] and [$detect] filled; in
    [src/unnamed/part_000] the user prompt has the first [$text], [$to]
    and [$from] filled, the system prompt the first [$to], [$from] and
    [$text], and [$detect] is left as written.  The name of a language
    is the entry of the map for its code when there is one and it is
    not empty, and the code when there is none and the code names no
    member of [Object.prototype]; the statement is for codes whose
    lookup is decided by the entries of the map. *)
Theorem C5_prompts_fill_first (c : Config) (text from to : jstring)
    (detect : option jstring) (user system : list piece) :
  let targetLang := display_name (language c) to in
  let sourceLang := display_name (language c) from in
  let detectedLang := display_name_opt (language c) detect in
  or_default (user_prompt c)
    (js "Translate the following text from $from to $to: $text")
  = template_source user ->
  or_default (system_prompt c) (js "You are a helpful translation assistant.")
  = template_source system ->
  plain user = true ->
  plain system = true ->
  by_entries (language c) to = true ->
  by_entries (language c) from = true ->
  by_entries (language c) (detect_key detect) = true ->
  no_dollar text = true ->
  no_dollar targetLang = true ->
  no_dollar sourceLang = true ->
  no_dollar detectedLang = true ->
  Main.userPrompt c text from to detect
  = template_source
      (fill_first PDetect detectedLang
         (fill_first PFrom sourceLang
            (fill_first PTo targetLang (fill_first PText text user))))
  /\ Main.systemPrompt c from to detect
     = template_source
         (fill_first PDetect detectedLang
            (fill_first PFrom sourceLang (fill_first PTo targetLang system)))
  /\ Part000.userPrompt c text from to
     = template_source
         (fill_first PFrom sourceLang
            (fill_first PTo targetLang (fill_first PText text user)))
  /\ Part000.systemPrompt c text from to
     = template_source
         (fill_first PText text
            (fill_first PFrom sourceLang (fill_first PTo targetLang system)))
  /\ (forall code name, language c !! code = Some name -> name <> [] ->
        by_entries (language c) code = true
        /\ display_name (language c) code = name)
  /\ (forall code, language c !! code = None ->
        prototype_member code = false ->
        by_entries (language c) code = true
        /\ display_name (language c) code = code).
Proof.
  intros tl sl dl Eu Es Hu Hs Bt Bf Bd Ht Htl Hsl Hdl.
  unfold Main.userPrompt, Main.systemPrompt, Part000.userPrompt,
    Part000.systemPrompt.
  fold tl sl dl. rewrite Eu, Es.
  change (js "$text") with (placeholder_source PText).
  change (js "$to") with (placeholder_source PTo).
  change (js "$from") with (placeholder_source PFrom).
  change (js "$detect") with (placeholder_source PDetect).
  repeat split.
  - rewrite !replace_fills_first; auto using fill_first_plain.
  - rewrite !replace_fills_first; auto using fill_first_plain.
  - rewrite !replace_fills_first; auto using fill_first_plain.
  - rewrite !replace_fills_first; auto using fill_first_plain.
  - unfold by_entries. rewrite H. reflexivity.
  - apply display_name_mapped; assumption.
  - unfold by_entries. rewrite H, H0. reflexivity.
  - apply display_name_unmapped; assumption.
Qed.

Lemma C5_prompts_fill_first_witness :
  Main.userPrompt text_first_config (js "Bonjour") (js "fr") (js "en") None
  = js "Bonjour: English"
  /\ Part000.userPrompt streaming_config (js "Bonjour") (js "fr") (js "en")
     = js "Translate the following text from fr to en: Bonjour".
Proof.
  split.
  - refine (proj1 (C5_prompts_fill_first text_first_config (js "Bonjour")
                     (js "fr") (js "en") None
                     [Hole PText; Chars (js ": "); Hole PTo]
                     [Chars (js "You are a helpful translation assistant.")]
                     _ _ _ _ _ _ _ _ _ _ _)); vm_compute; reflexivity.
  - refine (proj1 (proj2 (proj2
             (C5_prompts_fill_first streaming_config (js "Bonjour")
                (js "fr") (js "en") None default_user_template
                [Chars (js "You are a helpful translation assistant.")]
                _ _ _ _ _ _ _ _ _ _ _)))); vm_compute; reflexivity.
Defined.

(** C5, as it is stated, fails: of two occurrences of [$to] in the user
    template the second is left in the prompt of both variants. *)
Lemma C5_second_occurrence_left :
  Main.userPrompt twice_config (js "hi") (js "fr") (js "en") None
  = js "en and $to"
  /\ Str.includes
       (Main.userPrompt twice_config (js "hi") (js "fr") (js "en") None)
       (js "$to") = true
  /\ Part000.userPrompt twice_config (js "hi") (js "fr") (js "en")
     = js "en and $to"
  /\ Str.includes
       (Part000.userPrompt twice_config (js "hi") (js "fr") (js "en"))
       (js "$to") = true.
Proof. repeat split; vm_compute; reflexivity. Qed.

(** ** C6: a line that does not parse *)



(** ** C7: missing configuration *)

Lemma missing_spec (x : option jstring) :
  missing x = true <-> x = None \/ x = Some [].
Proof.
  destruct x as [[|c s]|]; simpl; split; intros; try tauto; try congruence.
  - destruct H as [H|H]; discriminate.
Qed.

(** C7: when [apiKey] or [requestPath] is absent or empty, both variants
    throw before any request is sent, whatever the network would answer:
    [src/main.js] throws one of the two configuration texts, and so does
    [src/unnamed/part_000] when [utils.http] is there (when it is not,
    it has already thrown for that reason). *)
Theorem C7_missing_configuration (H : Host) (U : UrlClass)
    (text from to : jstring) (o : options) (net : request -> reply) :
  apiKey (config o) = None \/ apiKey (config o) = Some []
  \/ requestPath (config o) = None \/ requestPath (config o) = Some [] ->
  (fetched (Main.translate H U text from to o net) = []
   /\ shown (Main.translate H U text from to o net) = []
   /\ (outcome (Main.translate H U text from to o net)
         = Throw (Message apiKey_missing)
       \/ outcome (Main.translate H U text from to o net)
         = Throw (Message requestPath_missing))
   /\ forall net', Main.translate H U text from to o net'
                   = Main.translate H U text from to o net)
  /\ (fetched (Part000.translate H text from to o net) = []
      /\ shown (Part000.translate H text from to o net) = []
      /\ (if http o
          then outcome (Part000.translate H text from to o net)
                 = Throw (Message apiKey_missing)
               \/ outcome (Part000.translate H text from to o net)
                 = Throw (Message requestPath_missing)
          else outcome (Part000.translate H text from to o net)
                 = Throw (Message Part000.http_unavailable))
      /\ forall net', Part000.translate H text from to o net'
                      = Part000.translate H text from to o net).
Proof.
  intros Hm.
  assert (Hc : missing (apiKey (config o)) = true
               \/ missing (requestPath (config o)) = true).
  { rewrite !missing_spec. tauto. }
  unfold Main.translate, Part000.translate.
  destruct (http o); simpl;
    destruct (missing (apiKey (config o))); simpl;
    try (destruct (missing (requestPath (config o))); simpl);
    try (destruct Hc; discriminate); tauto.
Qed.

Lemma C7_missing_configuration_witness :
  fetched (Part000.translate example_host (js "hi") (js "en") (js "fr")
             {| config := {| apiKey := Some []; requestPath := None;
                             model := None; system_prompt := None;
                             user_prompt := None; parameters := None;
                             removeTag := None; use_stream := None;
                             language := ∅ |};
                setResult := true; detect := None; http := true |}
             (fun _ => Responds ok_response)) = [].
Proof.
  apply (C7_missing_configuration example_host simple_url (js "hi") (js "en")
           (js "fr") _ (fun _ => Responds ok_response)).
  right; left; reflexivity.
Defined.

(** ** C8: the endpoint *)


Lemma Main_withScheme_has_scheme (s : jstring) :
  has_scheme (Main.withScheme s) = true.
Proof.
  unfold Main.withScheme.
  destruct (Str.startsWith s (js "http://")) eqn:E1;
    destruct (Str.startsWith s (js "https://")) eqn:E2; simpl;
    unfold has_scheme; rewrite ?E1, ?E2; reflexivity.
Qed.

Lemma has_scheme_app (s x : jstring) :
  has_scheme s = true -> has_scheme (s ++ x) = true.
Proof.
  unfold has_scheme. rewrite !orb_true_iff.
  intros [E|E]; [left|right]; apply startsWith_app, E.
Qed.

Lemma Part000_normalize_shape (p : jstring) :
  has_scheme (Part000.normalize p) = true
  /\ Str.endsWith (Part000.normalize p) chat_completions = true.
Proof.
  unfold Part000.normalize.
  change (if negb (Str.startsWith p (js "http://"))
             && negb (Str.startsWith p (js "https://"))
          then js "https://" ++ p else p) with (Main.withScheme p).
  pose proof (Main_withScheme_has_scheme p) as H1.
  destruct (Str.endsWith (Main.withScheme p) chat_completions) eqn:E;
    cbn [negb].
  - split; assumption.
  - destruct (Str.endsWith (Main.withScheme p) (js "/")) eqn:E'.
    + split; [apply has_scheme_app, H1 | apply endsWith_slash_suffix, E'].
    + split; [apply has_scheme_app, H1 | apply endsWith_app].
Qed.


Lemma clean_path_slash (p : jstring) :
  exists r, clean_path p = 47 :: r.
Proof.
  unfold clean_path. destruct (Str.startsWith p (js "/")) eqn:E.
  - apply startsWith_true in E as [r ->]. exists r. reflexivity.
  - exists p. reflexivity.
Qed.

Lemma clean_path_twice (p : jstring) : clean_path (clean_path p) = clean_path p.
Proof.
  destruct (clean_path_slash p) as [r E]. rewrite E. reflexivity.
Qed.

Lemma clean_authority_twice (a : jstring) :
  clean_authority (clean_authority a) = clean_authority a.
Proof.
  induction a as [|c a IH]; [reflexivity|].
  unfold clean_authority in *. cbn [List.filter].
  destruct (c =? 47) eqn:E; cbn [negb]; [exact IH|].
  cbn [List.filter]. rewrite E. cbn [negb]. rewrite IH. reflexivity.
Qed.

Lemma split_slash_clean (a p : jstring) :
  split_slash (clean_authority a ++ clean_path p)
  = (clean_authority a, clean_path p).
Proof.
  induction a as [|c a IH].
  - destruct (clean_path_slash p) as [r ->]. reflexivity.
  - unfold clean_authority in *. cbn [List.filter].
    destruct (c =? 47) eqn:E; cbn [negb]; [exact IH|].
    cbn [app split_slash]. rewrite E, IH. reflexivity.
Qed.

Lemma endsWith_clean_path (p sfx : jstring) :
  Str.endsWith p sfx = true -> Str.endsWith (clean_path p) sfx = true.
Proof.
  unfold clean_path. destruct (Str.startsWith p (js "/")); [tauto|].
  rewrite !endsWith_true. intros [a ->]. exists (js "/" ++ a).
  apply app_assoc.
Qed.

Lemma simple_url_laws : UrlLaws simple_url.
Proof.
  split.
  - intros s u _ _. destruct u as [[] a p]; reflexivity.
  - intros [[] a p] x _; reflexivity.
  - intros [sec a p].
    exists {| secure := sec; authority := clean_authority a;
              path := clean_path p |}.
    cbn [href pathname URL_new simple_url secure authority path].
    rewrite clean_path_twice, clean_authority_twice.
    repeat split.
    destruct sec.
    + rewrite strip_prefix_app, split_slash_clean. reflexivity.
    + change (Str.strip_prefix (js "https://")
                (js "http://" ++ clean_authority a ++ clean_path p))
        with (@None jstring).
      rewrite strip_prefix_app, split_slash_clean. reflexivity.
  - intros u p0 sfx _ E0. apply endsWith_clean_path, E0.
Qed.

(** The normalisation of [src/unnamed/part_000] on three paths: the
    scheme and the suffix are added; after a final slash only
    [chat/completions] is; and, the test being on the end of the text,
    a path with a query after [/chat/completions] gets the suffix after
    its query. *)
Lemma Part000_normalize_examples :
  Part000.normalize (js "api.example.com/v1")
  = js "https://api.example.com/v1/chat/completions"
  /\ Part000.normalize (js "http://localhost:8080/")
     = js "http://localhost:8080/chat/completions"
  /\ Part000.normalize (js "https://api.example.com/chat/completions?v=1")
     = js "https://api.example.com/chat/completions?v=1/chat/completions".
Proof. repeat split; vm_compute; reflexivity. Qed.




(** ** C9: empty content *)

(** C9: a response of the shape [{choices:[{message:{content:""}}]}]
    with a success status is rejected by both variants with the error of
    an invalid structure, and a line of the stream whose delta has the
    content [""] leaves the decoder of either variant as it was: nothing
    is appended and the callback is not called. *)
Theorem C9_empty_content (H : Host) (tags : jstring) (res : response)
    (resultData : json) :
  ok res = true ->
  data res = Some resultData ->
  message_shape resultData (JStr []) ->
  Main.bufferedResult H tags res = Throw (InvalidStructure (Some resultData))
  /\ (forall hasSetResult,
        Part000.bufferedResult H tags hasSetResult res
        = ([], Throw (InvalidStructure (Some resultData))))
  /\ (forall (d : Main.decoder) (line : jstring) (parsed : json),
        Str.startsWith line (js "data: ") = true ->
        Json.parse (Str.trim (Str.substring 6 line)) = Some parsed ->
        delta_shape parsed (JStr []) ->
        Main.processLine H tags d line = d)
  /\ (forall hasSetResult (d : Part000.decoder) (jsonData : jstring)
             (parsed : json),
        Json.parse jsonData = Some parsed ->
        delta_shape parsed (JStr []) ->
        Part000.processData H tags hasSetResult d jsonData = d).
Proof.
  intros Hok Hdata (ms & first & others & msg & -> & Hc & Hm & Hct).
  repeat split.
  - unfold Main.bufferedResult. rewrite Hok, Hdata. simpl.
    rewrite Hc. simpl. rewrite Hm. simpl. rewrite Hct. reflexivity.
  - intros b. unfold Part000.bufferedResult. rewrite Hdata. simpl.
    rewrite Hc. simpl. rewrite Hm. simpl. rewrite Hct. reflexivity.
  - intros d line parsed Hs Hp (ms' & f' & o' & dl & -> & Hc' & Hd' & Hct').
    unfold Main.processLine. rewrite Hs, Hp.
    destruct (Str.eqb _ DONE); [reflexivity|].
    unfold Main.deltaContent. simpl. rewrite Hc'. simpl. rewrite Hd'. simpl.
    rewrite Hct'. reflexivity.
  - intros b d jsonData parsed Hp (ms' & f' & o' & dl & -> & Hc' & Hd' & Hct').
    unfold Part000.processData. rewrite Hp.
    unfold Part000.deltaOf. simpl. rewrite Hc'. simpl. rewrite Hd'. simpl.
    rewrite Hct'. reflexivity.
Qed.

Lemma C9_empty_content_witness :
  Main.bufferedResult example_host default_tags
    {| ok := true; status := 200;
       data := Json.parse (jq "{'choices':[{'message':{'content':''}}]}");
       body_text := []; body_stream := None |}
  = Throw (InvalidStructure
             (Json.parse (jq "{'choices':[{'message':{'content':''}}]}"))).
Proof.
  refine (proj1 (C9_empty_content example_host default_tags _ _ _ _ _)).
  - reflexivity.
  - vm_compute. reflexivity.
  - vm_compute. do 4 eexists. repeat split.
Defined.

(** ** C10: the text in the user prompt *)

Lemma no_dollar_app (x y : jstring) :
  no_dollar (x ++ y) = no_dollar x && no_dollar y.
Proof. apply forallb_app. Qed.

Lemma replace_after_plain (p : placeholder) (v s rest : jstring) :
  no_dollar s = true ->
  no_dollar v = true ->
  Str.replace (placeholder_source p) v (s ++ rest)
  = s ++ Str.replace (placeholder_source p) v rest.
Proof.
  intros Hs Hv. unfold Str.replace. rewrite (find_after_plain _ _ _ Hs).
  destruct (Str.find _ rest) as [[a b]|]; [|reflexivity].
  rewrite !getSubstitution_plain by assumption.
  rewrite <- app_assoc. reflexivity.
Qed.

Lemma replace_at_hole (p : placeholder) (v rest : jstring) :
  no_dollar v = true ->
  Str.replace (placeholder_source p) v (placeholder_source p ++ rest)
  = v ++ rest.
Proof.
  intros Hv. unfold Str.replace.
  rewrite find_at_hole, getSubstitution_plain by assumption. reflexivity.
Qed.

Lemma getSubstitution_after_plain (m bf af a r : jstring) :
  no_dollar a = true ->
  Str.getSubstitution m bf af (a ++ r) = a ++ Str.getSubstitution m bf af r.
Proof.
  induction a as [|c a IH]; [reflexivity|].
  simpl. intros Ha. apply andb_true_iff in Ha as [Hc Ha].
  apply negb_true_iff in Hc. rewrite Hc, (IH Ha). reflexivity.
Qed.

(** A text with [$to] in it, between two pieces without a dollar, is
    put into a template as it is. *)
Lemma getSubstitution_with_to (m bf af a b : jstring) :
  no_dollar a = true ->
  no_dollar b = true ->
  Str.getSubstitution m bf af (a ++ js "$to" ++ b) = a ++ js "$to" ++ b.
Proof.
  intros Ha Hb. rewrite (getSubstitution_after_plain _ _ _ _ _ Ha).
  change (js "$to" ++ b) with (36 :: 116 :: 111 :: b).
  cbn [Str.getSubstitution].
  change (36 =? 36) with true. change (116 =? 36) with false.
  change (116 =? 38) with false. change (116 =? 96) with false.
  change (116 =? 39) with false. change (111 =? 36) with false. cbv iota.
  rewrite (getSubstitution_plain _ _ _ _ Hb). reflexivity.
Qed.

(** C10: the text is not kept as it is.  For every user template in
    which [$text] is the first placeholder (no dollar before it) and
    every text with [$to] in it (and no other dollar), the user prompt
    of both variants has the name of the target language where the text
    had [$to]: the text is put in first, and the replacement of [$to]
    that follows finds its first [$to] in the text.  What comes after
    [$text] in the template gets only the later replacements, so a
    [$to] there stays.  The names are without a dollar and the codes
    are ones whose lookup is decided by the entries of the map. *)
Theorem C10_text_rescanned (c : Config) (from to : jstring)
    (detect : option jstring) (pre post a b : jstring) :
  let targetLang := display_name (language c) to in
  let sourceLang := display_name (language c) from in
  let detectedLang := display_name_opt (language c) detect in
  or_default (user_prompt c)
    (js "Translate the following text from $from to $to: $text")
  = pre ++ js "$text" ++ post ->
  no_dollar pre = true ->
  no_dollar a = true ->
  no_dollar b = true ->
  by_entries (language c) to = true ->
  by_entries (language c) from = true ->
  by_entries (language c) (detect_key detect) = true ->
  no_dollar targetLang = true ->
  no_dollar sourceLang = true ->
  no_dollar detectedLang = true ->
  Main.userPrompt c (a ++ js "$to" ++ b) from to detect
  = pre ++ a ++ targetLang ++ b
    ++ Str.replace (js "$detect") detectedLang
         (Str.replace (js "$from") sourceLang post)
  /\ Part000.userPrompt c (a ++ js "$to" ++ b) from to
     = pre ++ a ++ targetLang ++ b ++ Str.replace (js "$from") sourceLang post.
Proof.
  intros tl sl dl Eu Hpre Ha Hb _ _ _ Htl Hsl Hdl.
  assert (E1 : Str.replace (js "$text") (a ++ js "$to" ++ b)
                 (pre ++ js "$text" ++ post)
               = (pre ++ a) ++ js "$to" ++ b ++ post).
  { unfold Str.replace.
    change (js "$text") with (placeholder_source PText).
    rewrite (find_after_plain PText pre _ Hpre), find_at_hole.
    rewrite (getSubstitution_with_to _ _ _ a b Ha Hb), app_nil_r.
    rewrite <- !app_assoc. reflexivity. }
  assert (Hpa : no_dollar (pre ++ a) = true)
    by (rewrite no_dollar_app, Hpre, Ha; reflexivity).
  assert (E2 : Str.replace (js "$to") tl ((pre ++ a) ++ js "$to" ++ b ++ post)
               = (pre ++ a ++ tl ++ b) ++ post).
  { change (js "$to") with (placeholder_source PTo).
    rewrite (replace_after_plain PTo tl _ _ Hpa Htl).
    rewrite (replace_at_hole PTo tl _ Htl).
    rewrite <- !app_assoc. reflexivity. }
  assert (Hall : no_dollar (pre ++ a ++ tl ++ b) = true)
    by (rewrite !no_dollar_app, Hpre, Ha, Htl, Hb; reflexivity).
  assert (E3 : Str.replace (js "$from") sl ((pre ++ a ++ tl ++ b) ++ post)
               = (pre ++ a ++ tl ++ b) ++ Str.replace (js "$from") sl post).
  { change (js "$from") with (placeholder_source PFrom).
    apply (replace_after_plain PFrom sl _ _ Hall Hsl). }
  unfold Main.userPrompt, Part000.userPrompt. fold tl sl dl.
  rewrite Eu, E1, E2, E3. split.
  - change (js "$detect") with (placeholder_source PDetect).
    rewrite (replace_after_plain PDetect dl _ _ Hall Hdl).
    rewrite <- !app_assoc. reflexivity.
  - rewrite <- !app_assoc. reflexivity.
Qed.

Lemma C10_text_rescanned_witness :
  Main.userPrompt text_first_config (js "say $to now") (js "auto") (js "en") None
  = js "say English now: $to"
  /\ Part000.userPrompt text_first_config (js "say $to now") (js "auto") (js "en")
     = js "say English now: $to".
Proof.
  pose proof (C10_text_rescanned text_first_config (js "auto") (js "en") None
                [] (js ": $to") (js "say ") (js " now")
                eq_refl eq_refl eq_refl eq_refl eq_refl eq_refl eq_refl
                eq_refl eq_refl eq_refl) as [K1 K2].
  split.
  - transitivity (Main.userPrompt text_first_config
                    (js "say " ++ js "$to" ++ js " now") (js "auto") (js "en")
                    None); [reflexivity|].
    rewrite K1. vm_compute. reflexivity.
  - transitivity (Part000.userPrompt text_first_config
                    (js "say " ++ js "$to" ++ js " now") (js "auto") (js "en"));
      [reflexivity|].
    rewrite K2. vm_compute. reflexivity.
Defined.

(** * Further properties of the code *)

(** ** The request and the ways a call fails *)









(** ** Stream mode and buffered mode *)

Lemma useStream_true (c : Config) :
  Main.useStream c = true <-> use_stream c = Some (js "true").
Proof.
  unfold Main.useStream. destruct (use_stream c) as [s|].
  - unfold Str.eqb. rewrite bool_decide_eq_true. split; congruence.
  - split; discriminate.
Qed.

Lemma Main_decodeStream_outcome (H : Host) (tags : jstring) (s : stream) :
  (exists t, snd (Main.decodeStream H tags s) = Return t
             /\ last (fst (Main.decodeStream H tags s)) = Some t)
  \/ (exists e, snd (Main.decodeStream H tags s) = Throw (StreamingError e)).
Proof.
  unfold Main.decodeStream.
  destruct (failure s); [right; eexists; reflexivity|].
  destruct (Main.applyRemoveTag H tags _) as [t|].
  - left. exists t. split; [reflexivity|]. apply last_snoc.
  - right. eexists. reflexivity.
Qed.

(** X4: [src/main.js] streams exactly when [use_stream] is the text
    [true] and the callback is there.  Otherwise the request, if one is
    sent, goes through the host's fetch with [stream: false] and the
    callback is never called.  When it streams, the request goes
    through [window.fetch] with [stream: true], whatever is thrown
    after it is a streaming error, and a text returned is the last one
    given to the callback. *)
Theorem X4_main_modes (H : Host) (U : UrlClass) (text from to : jstring)
    (o : options) (net : request -> reply) :
  let m := Main.translate H U text from to o net in
  (Main.useStream (config o) = true <-> use_stream (config o) = Some (js "true"))
  /\ (Main.useStream (config o) && setResult o = false ->
      shown m = []
      /\ forall req, In req (fetched m) ->
           via req = TauriFetch /\ body req !! js "stream" = Some (JBool false))
  /\ (Main.useStream (config o) && setResult o = true ->
      forall req, In req (fetched m) ->
        via req = WindowFetch
        /\ body req !! js "stream" = Some (JBool true)
        /\ ((exists t, outcome m = Return t /\ last (shown m) = Some t)
            \/ exists e, outcome m = Throw (StreamingError e))).
Proof.
  intros m. split; [apply useStream_true|].
  subst m. unfold Main.translate.
  destruct (missing (apiKey (config o)));
    [split; intros _; [split; [reflexivity|]|]; intros req []|].
  destruct (missing (requestPath (config o)));
    [split; intros _; [split; [reflexivity|]|]; intros req []|].
  destruct (Main.normalize U _) as [apiUrl|];
    [|split; intros _; [split; [reflexivity|]|]; intros req []].
  split; intros E; rewrite E.
  - assert (B : Main.requestBody (config o) text from to o !! js "stream"
                = Some (JBool false)).
    { unfold Main.requestBody. rewrite E. apply lookup_insert_eq. }
    destruct (net _) as [reason|r]; cbn [shown fetched];
      (split; [reflexivity|]); intros req [<-|[]]; split; assumption || reflexivity.
  - assert (B : Main.requestBody (config o) text from to o !! js "stream"
                = Some (JBool true)).
    { unfold Main.requestBody. rewrite E. apply lookup_insert_eq. }
    destruct (net _) as [reason|r].
    + intros req [<-|[]]. repeat split; [exact B|].
      right. eexists. reflexivity.
    + destruct (ok r); cbn [negb].
      * destruct (body_stream r) as [s|].
        -- pose proof (Main_decodeStream_outcome H
                         (or_default (removeTag (config o)) (js "<think>,<help>")) s)
             as D.
           destruct (Main.decodeStream H _ s) as [calls res].
           cbn [fst snd] in D. cbn [fetched shown outcome].
           intros req [<-|[]]. repeat split; [exact B|exact D].
        -- intros req [<-|[]]. repeat split; [exact B|].
           right. eexists. reflexivity.
      * intros req [<-|[]]. repeat split; [exact B|].
        right. eexists. reflexivity.
Qed.

Lemma X4_main_modes_witness :
  let req := Main_request overriding_config (js "Bonjour") (js "fr") (js "en")
               overriding_options
               (js "https://api.example.com/v1/chat/completions") in
  via req = TauriFetch /\ body req !! js "stream" = Some (JBool false).
Proof.
  exact (proj2 (proj1 (proj2
    (X4_main_modes example_host simple_url (js "Bonjour") (js "fr") (js "en")
       overriding_options (fun _ => Responds ok_response))) eq_refl)
    (Main_request overriding_config (js "Bonjour") (js "fr") (js "en")
       overriding_options (js "https://api.example.com/v1/chat/completions"))
    (or_introl eq_refl)).
Defined.

Section Part000Callback.

Context (H : Host) (tags : jstring).

Lemma Part000_processData_result (b b' : bool) (d d' : Part000.decoder)
    (jsonData : jstring) :
  Part000.accumulatedResult d = Part000.accumulatedResult d' ->
  Part000.accumulatedResult (Part000.processData H tags b d jsonData)
  = Part000.accumulatedResult (Part000.processData H tags b' d' jsonData).
Proof.
  intros E. unfold Part000.processData.
  destruct (Json.parse jsonData) as [parsed|]; [|exact E].
  destruct (Part000.deltaOf parsed) as [[delta|]|]; try exact E.
  destruct (Val.truthy H delta); [|exact E].
  destruct (Val.toString H delta) as [deltaText|]; [|exact E].
  rewrite E.
  destruct b, b'; repeat (destruct (Part000.applyTagRemoval H tags _));
    reflexivity.
Qed.

Lemma Part000_processLines_result (b b' : bool) (lines : list jstring)
    (d d' : Part000.decoder) :
  Part000.accumulatedResult d = Part000.accumulatedResult d' ->
  Part000.accumulatedResult (Part000.processLines H tags b d lines)
  = Part000.accumulatedResult (Part000.processLines H tags b' d' lines).
Proof.
  revert d d'. induction lines as [|line lines IH]; intros d d' E; [exact E|].
  rewrite !Part000_processLines_cons.
  destruct (Part000_payload line) as [p|]; [|apply IH, E].
  destruct (Str.eqb p DONE); [exact E|].
  apply IH, Part000_processData_result, E.
Qed.

Lemma Part000_processData_silent (d : Part000.decoder) (jsonData : jstring) :
  Part000.pushed (Part000.processData H tags false d jsonData)
  = Part000.pushed d.
Proof.
  unfold Part000.processData.
  destruct (Json.parse jsonData) as [parsed|]; [|reflexivity].
  destruct (Part000.deltaOf parsed) as [[delta|]|]; try reflexivity.
  destruct (Val.truthy H delta); [|reflexivity].
  destruct (Val.toString H delta); reflexivity.
Qed.

Lemma Part000_processLines_silent (lines : list jstring) (d : Part000.decoder) :
  Part000.pushed (Part000.processLines H tags false d lines)
  = Part000.pushed d.
Proof.
  revert d. induction lines as [|line lines IH]; intros d; [reflexivity|].
  rewrite Part000_processLines_cons.
  destruct (Part000_payload line) as [p|]; [|apply IH].
  destruct (Str.eqb p DONE); [reflexivity|].
  rewrite IH. apply Part000_processData_silent.
Qed.

Lemma Part000_decodeStream_callback (b : bool) (rawResponseText : jstring) :
  snd (Part000.decodeStream H tags b rawResponseText)
  = snd (Part000.decodeStream H tags false rawResponseText)
  /\ fst (Part000.decodeStream H tags false rawResponseText) = [].
Proof.
  unfold Part000.decodeStream.
  rewrite (Part000_processLines_result b false (Part000.splitLines rawResponseText)
             {| Part000.accumulatedResult := []; Part000.pushed := [] |}
             {| Part000.accumulatedResult := []; Part000.pushed := [] |} eq_refl).
  rewrite Part000_processLines_silent. cbn [Part000.pushed].
  destruct (Part000.applyTagRemoval H tags _) as [finalResult|];
    [|split; reflexivity].
  destruct finalResult;
    destruct (Part000.accumulatedResult
                (Part000.processLines H tags false
                   {| Part000.accumulatedResult := []; Part000.pushed := [] |}
                   (Part000.splitLines rawResponseText)));
    destruct b; split; reflexivity.
Qed.

Lemma Part000_bufferedResult_callback (b : bool) (r : response) :
  snd (Part000.bufferedResult H tags b r)
  = snd (Part000.bufferedResult H tags false r)
  /\ fst (Part000.bufferedResult H tags false r) = [].
Proof.
  unfold Part000.bufferedResult.
  repeat match goal with
         | |- context [match ?x with _ => _ end] =>
             lazymatch x with
             | context [match _ with _ => _ end] => fail
             | _ => destruct x
             end
         end; split; reflexivity.
Qed.

End Part000Callback.

(** X5: in [src/unnamed/part_000] the callback changes neither the
    request nor what the call returns or throws: two calls that differ
    only in whether the callback is there send the same request and end
    the same way, and without it nothing is shown. *)
Theorem X5_part000_callback (H : Host) (text from to : jstring)
    (o : options) (net : request -> reply) :
  let without := {| config := config o; setResult := false;
                    detect := detect o; http := http o |} in
  fetched (Part000.translate H text from to o net)
  = fetched (Part000.translate H text from to without net)
  /\ outcome (Part000.translate H text from to o net)
     = outcome (Part000.translate H text from to without net)
  /\ shown (Part000.translate H text from to without net) = [].
Proof.
  cbv zeta. unfold Part000.translate. cbn [config http setResult].
  destruct (http o); cbn [negb]; [|repeat split].
  destruct (missing (apiKey (config o))); [repeat split|].
  destruct (missing (requestPath (config o))); [repeat split|].
  destruct (net _) as [reason|r]; [repeat split|].
  destruct (ok r); cbn [negb]; [|repeat split].
  destruct (Part000.useStream (config o)); cbn [negb].
  - destruct (data r) as [[| | |raw| |]|]; try solve [repeat split].
    destruct (Part000_decodeStream_callback H
                (or_default (removeTag (config o)) (js "<think>,<help>"))
                (setResult o) raw) as [E1 E2].
    destruct (Part000.decodeStream H _ (setResult o) raw) as [c1 r1].
    destruct (Part000.decodeStream H _ false raw) as [c2 r2].
    cbn [fst snd fetched shown outcome] in *. subst. repeat split.
  - destruct (Part000_bufferedResult_callback H
                (or_default (removeTag (config o)) (js "<think>,<help>"))
                (setResult o) r) as [E1 E2].
    destruct (Part000.bufferedResult H _ (setResult o) r) as [c1 r1].
    destruct (Part000.bufferedResult H _ false r) as [c2 r2].
    cbn [fst snd fetched shown outcome] in *. subst. repeat split.
Qed.

(** ** The text returned *)

Lemma trimStart_keeps (c : N) (s : jstring) :
  Str.is_ws c = false -> Str.trimStart (c :: s) = c :: s.
Proof. intros E. simpl. rewrite E. reflexivity. Qed.

Lemma trimStart_head (s : jstring) :
  Str.trimStart s = [] \/ exists c t, Str.trimStart s = c :: t
                                      /\ Str.is_ws c = false.
Proof.
  induction s as [|c s IH]; [left; reflexivity|].
  simpl. destruct (Str.is_ws c) eqn:E; [exact IH|].
  right. exists c, s. split; [reflexivity|exact E].
Qed.

Lemma trimStart_twice (s : jstring) :
  Str.trimStart (Str.trimStart s) = Str.trimStart s.
Proof.
  destruct (trimStart_head s) as [->|(c & t & -> & E)]; [reflexivity|].
  apply trimStart_keeps, E.
Qed.

Lemma trimStart_snoc (x : jstring) (c : N) :
  Str.is_ws c = false -> exists y, Str.trimStart (x ++ [c]) = y ++ [c].
Proof.
  intros E. induction x as [|d x [y IH]].
  - exists []. simpl. rewrite E. reflexivity.
  - simpl. destruct (Str.is_ws d).
    + exists y. exact IH.
    + exists (d :: x). reflexivity.
Qed.

Lemma trimEnd_head (c : N) (s : jstring) :
  Str.is_ws c = false -> exists t, Str.trimEnd (c :: s) = c :: t.
Proof.
  intros E. unfold Str.trimEnd. cbn [rev].
  destruct (trimStart_snoc (rev s) c E) as [y ->].
  exists (rev y). rewrite rev_app_distr. reflexivity.
Qed.

Lemma trimEnd_twice (s : jstring) : Str.trimEnd (Str.trimEnd s) = Str.trimEnd s.
Proof.
  unfold Str.trimEnd. rewrite rev_involutive, trimStart_twice. reflexivity.
Qed.

(** [trim] of a trimmed text changes nothing. *)
Lemma trim_twice (s : jstring) : Str.trim (Str.trim s) = Str.trim s.
Proof.
  unfold Str.trim.
  destruct (trimStart_head s) as [->|(c & t & -> & E)]; [reflexivity|].
  destruct (trimEnd_head c t E) as [t' E'].
  rewrite E', (trimStart_keeps c t' E), <- E'. apply trimEnd_twice.
Qed.

Lemma tag_list_nonempty (c : Config) : tag_list c <> [].
Proof.
  unfold tag_list. destruct (removeTag c) as [[|x s]|]; discriminate.
Qed.

Lemma Main_applyRemoveTag_trimmed (H : Host) (tags s t : jstring) :
  Main.applyRemoveTag H tags s = Some t -> Str.trim t = t.
Proof.
  unfold Main.applyRemoveTag. destruct s as [|c s]; [intros [= <-]; reflexivity|].
  destruct tags as [|x tags].
  - intros [= <-]. apply trim_twice.
  - destruct (Main.removeEach H _ _); [|discriminate].
    intros [= <-]. apply trim_twice.
Qed.

Lemma Part000_applyTagRemoval_trimmed (H : Host) (tags s t : jstring) :
  tags <> [] \/ Str.trim s = s ->
  Part000.applyTagRemoval H tags s = Some t -> Str.trim t = t.
Proof.
  unfold Part000.applyTagRemoval. intros Ht.
  destruct tags as [|x tags].
  - intros [= <-]. destruct Ht as [Ht|Ht]; [contradiction|exact Ht].
  - destruct s as [|c s]; [intros [= <-]; reflexivity|].
    destruct (Part000.removeEach H _ _); [|discriminate].
    intros [= <-]. apply trim_twice.
Qed.

Lemma Main_bufferedResult_trimmed (H : Host) (tags : jstring) (r : response)
    (t : jstring) :
  Main.bufferedResult H tags r = Return t -> Str.trim t = t.
Proof.
  unfold Main.bufferedResult. intros E.
  repeat (break_hyp E; subst).
  injection E as <-. eapply Main_applyRemoveTag_trimmed; eassumption.
Qed.

Lemma Part000_bufferedResult_trimmed (H : Host) (tags : jstring) (b : bool)
    (r : response) (t : jstring) :
  snd (Part000.bufferedResult H tags b r) = Return t -> Str.trim t = t.
Proof.
  unfold Part000.bufferedResult. intros E.
  repeat (break_hyp E; subst; cbn [snd] in E; try discriminate E).
  injection E as <-.
  eapply Part000_applyTagRemoval_trimmed; [|eassumption].
  right. apply trim_twice.
Qed.

(** X6: a text that [translate] returns has no white space at its
    start or at its end, in both variants and both modes: trimming it
    changes nothing. *)
Theorem X6_result_trimmed (H : Host) (U : UrlClass) (text from to : jstring)
    (o : options) (net : request -> reply) (t : jstring) :
  (outcome (Main.translate H U text from to o net) = Return t ->
   Str.trim t = t)
  /\ (outcome (Part000.translate H text from to o net) = Return t ->
      Str.trim t = t).
Proof.
  split.
  - unfold Main.translate.
    destruct (missing (apiKey (config o))); [discriminate|].
    destruct (missing (requestPath (config o))); [discriminate|].
    destruct (Main.normalize U _); [|discriminate].
    destruct (Main.useStream (config o) && setResult o).
    + destruct (net _) as [|r]; [discriminate|].
      destruct (ok r); cbn [negb]; [|discriminate].
      destruct (body_stream r) as [s|]; [|discriminate].
      unfold Main.decodeStream.
      destruct (failure s); [discriminate|].
      destruct (Main.applyRemoveTag H _ _) as [finalResult|] eqn:E;
        [|discriminate].
      intros [= <-]. eapply Main_applyRemoveTag_trimmed, E.
    + destruct (net _) as [|r]; [discriminate|].
      apply Main_bufferedResult_trimmed.
  - unfold Part000.translate.
    destruct (http o); [|discriminate]. cbn [negb].
    destruct (missing (apiKey (config o))); [discriminate|].
    destruct (missing (requestPath (config o))); [discriminate|].
    destruct (net _) as [|r]; [discriminate|].
    destruct (ok r); cbn [negb]; [|discriminate].
    destruct (Part000.useStream (config o)); cbn [negb].
    + destruct (data r) as [[| | |raw| |]|]; try discriminate.
      unfold Part000.decodeStream.
      destruct (Part000.applyTagRemoval H _ _) as [finalResult|] eqn:E;
        [|discriminate].
      assert (T : Str.trim finalResult = finalResult).
      { eapply Part000_applyTagRemoval_trimmed; [|exact E].
        left. apply (tag_list_nonempty (config o)). }
      destruct finalResult;
        destruct (Part000.accumulatedResult _);
        destruct (setResult o); intros [= <-]; solve [reflexivity | exact T].
    + pose proof (Part000_bufferedResult_trimmed H
                    (or_default (removeTag (config o)) (js "<think>,<help>"))
                    (setResult o) r t) as B.
      destruct (Part000.bufferedResult H _ _ r) as [calls res].
      exact B.
Qed.

Lemma X6_result_trimmed_witness :
  Str.trim (js "Hello") = js "Hello".
Proof.
  refine (proj1 (X6_result_trimmed example_host simple_url (js "Bonjour")
                   (js "fr") (js "en") streaming_options
                   (fun _ => Responds example_stream_response) (js "Hello")) _).
  vm_compute. reflexivity.
Defined.

(** ** The reading loop of [src/main.js] *)

Lemma Main_cut_no_LF (s : jstring) : no_LF s = true -> Main_cut s = ([], s).
Proof.
  induction s as [|c s IH]; [reflexivity|].
  simpl. intros E. apply andb_true_iff in E as [Hc Hs].
  apply negb_true_iff in Hc. rewrite (IH Hs), Hc. reflexivity.
Qed.

(** X7: the decoder of [src/main.js] does not depend on how the text of
    the stream is cut into chunks: two streams whose chunks make the
    same text, and that end the same way, give the same callbacks and
    the same result. *)
Theorem X7_chunking (H : Host) (tags : jstring) (cs cs' : list jstring)
    (f : option jstring) :
  concat cs = concat cs' ->
  Main.decodeStream H tags {| chunks := cs; failure := f |}
  = Main.decodeStream H tags {| chunks := cs'; failure := f |}.
Proof.
  intros E. apply Main_decodeStream_readAll.
  rewrite !Main_readAll_concat, E. reflexivity.
Qed.

Lemma X7_chunking_witness :
  Main.decodeStream example_host default_tags
    {| chunks := [jq "data: {'choices':[{'del";
                  jq "ta':{'content':'Hel'}}]}" ++ [10] ++ chunk_lo];
       failure := None |}
  = Main.decodeStream example_host default_tags
      {| chunks := [chunk_Hel; chunk_lo]; failure := None |}.
Proof. apply X7_chunking. vm_compute. reflexivity. Defined.

Lemma Main_decodeStream_content (H : Host) (tags : jstring)
    (cs cs' : list jstring) (f : option jstring) :
  Main.fullContent (Main.readAll H tags cs)
  = Main.fullContent (Main.readAll H tags cs') ->
  Main.pushed (Main.readAll H tags cs) = Main.pushed (Main.readAll H tags cs') ->
  Main.decodeStream H tags {| chunks := cs; failure := f |}
  = Main.decodeStream H tags {| chunks := cs'; failure := f |}.
Proof.
  intros E1 E2. unfold Main.decodeStream. cbn [chunks failure].
  rewrite E1, E2. reflexivity.
Qed.

(** X8: the loop of [src/main.js] handles a line only when its line
    feed has come: what follows the last line feed of the stream is
    never processed, so a stream and the same stream with an unfinished
    last line give the same callbacks and the same result. *)
Theorem X8_unfinished_line (H : Host) (tags : jstring) (cs : list jstring)
    (body tail : jstring) (f : option jstring) :
  concat cs = body ++ tail ->
  at_line_start body = true ->
  no_LF tail = true ->
  Main.decodeStream H tags {| chunks := cs; failure := f |}
  = Main.decodeStream H tags {| chunks := [body]; failure := f |}.
Proof.
  intros E Hs Hn.
  assert (K : fst (Main_cut (concat cs)) = fst (Main_cut (concat [body]))).
  { rewrite E. cbn [concat]. rewrite app_nil_r.
    rewrite (Main_cut_app body tail), (Main_cut_line_start body Hs).
    cbn [app]. rewrite (Main_cut_no_LF tail Hn). cbn [fst].
    apply app_nil_r. }
  apply Main_decodeStream_content; rewrite !Main_readAll_lines, K; reflexivity.
Qed.

Lemma X8_unfinished_line_witness :
  Main.decodeStream example_host default_tags
    {| chunks := [chunk_Hel; jq "data: {'choices':[{'delta':{'content':'lo'}}]}"];
       failure := None |}
  = Main.decodeStream example_host default_tags
      {| chunks := [chunk_Hel]; failure := None |}.
Proof.
  apply (X8_unfinished_line example_host default_tags _ chunk_Hel
           (jq "data: {'choices':[{'delta':{'content':'lo'}}]}"));
    vm_compute; reflexivity.
Defined.

(** X9: while [src/main.js] reads a stream, what has accumulated and
    what was given to the callback only grow: after more chunks the
    accumulated text begins with the text accumulated before, and the
    callbacks made begin with the callbacks made before. *)
Theorem X9_stream_grows (H : Host) (tags : jstring) (cs more : list jstring) :
  Main.fullContent (Main.readAll H tags cs)
    `prefix_of` Main.fullContent (Main.readAll H tags (cs ++ more))
  /\ Main.pushed (Main.readAll H tags cs)
       `prefix_of` Main.pushed (Main.readAll H tags (cs ++ more)).
Proof.
  unfold Main.readAll. rewrite foldl_app.
  destruct (Main_chunks_grow H tags more
              (foldl (Main.processChunk H tags) Main.start cs)) as (G1 & G2 & _).
  split; assumption.
Qed.

(** X10: when the stream of [src/main.js] ends well, the callbacks are
    the intermediate ones and then one with the text returned, which is
    the stripped text of all that accumulated.  Each intermediate one is
    the stripped text of a prefix of what accumulated in the end,
    followed by the ellipsis. *)
Theorem X10_stream_callbacks (H : Host) (tags : jstring) (s : stream)
    (calls : list jstring) (t : jstring) :
  Main.decodeStream H tags s = (calls, Return t) ->
  let full := Main.fullContent (Main.readAll H tags (chunks s)) in
  Main.applyRemoveTag H tags full = Some t
  /\ exists earlier,
       calls = earlier ++ [t]
       /\ Forall (fun p => exists pre t',
                    pre `prefix_of` full
                    /\ Main.applyRemoveTag H tags pre = Some t'
                    /\ p = t' ++ js "...") earlier.
Proof.
  unfold Main.decodeStream. intros E.
  destruct (failure s); [discriminate|].
  destruct (Main.applyRemoveTag H tags _) as [finalResult|] eqn:Ef;
    [|discriminate].
  injection E as <- <-. cbv zeta. split; [first [exact Ef|reflexivity]|].
  eexists. split; [reflexivity|].
  destruct (Main_chunks_grow H tags (chunks s) Main.start) as (_ & _ & G).
  apply G. constructor.
Qed.

Lemma X10_stream_callbacks_witness :
  Main.applyRemoveTag example_host default_tags
    (Main.fullContent
       (Main.readAll example_host default_tags [chunk_Hel; chunk_lo; chunk_DONE]))
  = Some (js "Hello").
Proof.
  refine (proj1 (X10_stream_callbacks example_host default_tags
                   {| chunks := [chunk_Hel; chunk_lo; chunk_DONE];
                      failure := None |}
                   [js "Hel..."; js "Hello..."; js "Hello"] (js "Hello") _)).
  vm_compute. reflexivity.
Defined.

(** ** A stream without content *)

Lemma Main_lines_no_data (H : Host) (tags : jstring) (lines : list jstring)
    (d : Main.decoder) :
  Forall (fun l => Str.startsWith l (js "data: ") = false) lines ->
  foldl (Main.processLine H tags) d lines = d.
Proof.
  induction 1 as [|line lines Hl _ IH]; [reflexivity|].
  cbn [foldl]. unfold Main.processLine at 2. rewrite Hl. exact IH.
Qed.

Lemma Part000_lines_no_data (H : Host) (tags : jstring) (b : bool)
    (lines : list jstring) (d : Part000.decoder) :
  Forall (fun l => Part000_payload l = None) lines ->
  Part000.processLines H tags b d lines = d.
Proof.
  induction 1 as [|line lines Hl _ IH]; [reflexivity|].
  rewrite Part000_processLines_cons, Hl. exact IH.
Qed.

(** X11: a stream in which no line bears data is no error.  In
    [src/main.js], when none of the lines closed by a line feed begins
    with [data: ], the callback is called once, with the empty text,
    and the empty text is returned.  In [src/unnamed/part_000], when no
    trimmed line begins with [data:], the empty text is returned and
    the callback is not called at all. *)
Theorem X11_no_data (H : Host) (tags : jstring) :
  (forall cs,
     Forall (fun l => Str.startsWith l (js "data: ") = false)
       (fst (Main_cut (concat cs))) ->
     Main.decodeStream H tags {| chunks := cs; failure := None |}
     = ([[]], Return []))
  /\ (forall hasSetResult rawResponseText,
        Forall (fun l => Part000_payload l = None)
          (Part000.splitLines rawResponseText) ->
        Part000.decodeStream H tags hasSetResult rawResponseText
        = ([], Return [])).
Proof.
  split.
  - intros cs Hl. unfold Main.decodeStream. cbn [chunks failure].
    rewrite Main_readAll_lines, (Main_lines_no_data H tags _ _ Hl).
    reflexivity.
  - intros b raw Hl. unfold Part000.decodeStream.
    rewrite (Part000_lines_no_data H tags b _ _ Hl). cbn.
    destruct tags; reflexivity.
Qed.

Lemma X11_no_data_witness :
  Main.decodeStream example_host default_tags
    {| chunks := [js ": keep-alive" ++ [10]; [10]]; failure := None |}
  = ([[]], Return [])
  /\ Part000.decodeStream example_host default_tags true
       (js ": keep-alive" ++ [10; 10])
     = ([], Return []).
Proof.
  destruct (X11_no_data example_host default_tags) as [K1 K2].
  split.
  - apply K1. vm_compute. repeat constructor.
  - apply K2. vm_compute. repeat constructor.
Defined.

(** ** The buffered response *)

(** X12: a successful buffered response of the shape
    [{choices:[{message:{content: s}}, ...]}] with a text [s] that is
    not empty gives the stripped text of the trimmed [s].
    [src/unnamed/part_000] returns it, for every tag list, and gives it
    once to the callback when there is one; [src/main.js] returns it
    without calling the callback, and throws the SyntaxError of the
    pattern when a tag makes a pattern that does not compile. *)
Theorem X12_buffered_success (H : Host) (tags : jstring) (r : response)
    (resultData : json) (c : N) (s : jstring) :
  ok r = true ->
  data r = Some resultData ->
  message_shape resultData (JStr (c :: s)) ->
  Main.bufferedResult H tags r
  = match Main.applyRemoveTag H tags (Str.trim (c :: s)) with
    | Some t => Return t
    | None => Throw SyntaxError
    end
  /\ exists t,
       Part000.applyTagRemoval H tags (Str.trim (c :: s)) = Some t
       /\ forall hasSetResult,
            Part000.bufferedResult H tags hasSetResult r
            = (if hasSetResult then [t] else [], Return t).
Proof.
  intros Hok Hdata (ms & first & others & msg & -> & Hc & Hm & Hct).
  split.
  - unfold Main.bufferedResult. rewrite Hok, Hdata.
    cbn [Val.truthy negb Val.field]. rewrite Hc.
    cbn [Val.truthy Val.length_positive andb negb Val.item0 head Val.field].
    rewrite Hm. cbn [Val.truthy negb Val.field]. rewrite Hct. reflexivity.
  - destruct (Part000_applyTagRemoval_total H tags (Str.trim (c :: s)))
      as [t Et].
    exists t. split; [exact Et|]. intros b.
    unfold Part000.bufferedResult. rewrite Hdata.
    cbn [Val.truthy negb Val.field]. rewrite Hc.
    cbn [Val.truthy Val.length_positive andb negb Val.item0 head Val.field].
    rewrite Hm. cbn [Val.truthy negb Val.field]. rewrite Hct.
    cbn [Val.truthy negb]. rewrite Et. reflexivity.
Qed.

Lemma X12_buffered_success_witness :
  exists t,
    Part000.applyTagRemoval example_host default_tags
      (Str.trim (js " <think>hm</think> Hello ")) = Some t
    /\ forall hasSetResult,
         Part000.bufferedResult example_host default_tags hasSetResult
           (buffered_response
              (jq "{'choices':[{'message':{'content':' <think>hm</think> Hello '}}]}"))
         = (if hasSetResult then [t] else [], Return t).
Proof.
  refine (proj2 (X12_buffered_success example_host default_tags _ _ 32
                   (js "<think>hm</think> Hello ") _ _ _)).
  - reflexivity.
  - vm_compute. reflexivity.
  - vm_compute. do 4 eexists. repeat split.
Defined.

(** X13: a successful buffered response without data, or whose data is
    an object without [choices] or with an empty list of choices, is
    rejected by both variants with the error of an invalid structure,
    which carries the data. *)
Theorem X13_buffered_no_choices (H : Host) (tags : jstring) (r : response) :
  ok r = true ->
  (data r = None
   \/ exists ms, data r = Some (JObj ms)
                 /\ (Json.own ms (js "choices") = None
                     \/ Json.own ms (js "choices") = Some (JArr []))) ->
  Main.bufferedResult H tags r = Throw (InvalidStructure (data r))
  /\ forall hasSetResult,
       Part000.bufferedResult H tags hasSetResult r
       = ([], Throw (InvalidStructure (data r))).
Proof.
  intros Hok [Hd|(ms & Hd & [Hc|Hc])];
    unfold Main.bufferedResult, Part000.bufferedResult; rewrite Hok, Hd;
    cbn [Val.truthy negb Val.field]; rewrite ?Hc; split; reflexivity.
Qed.

Lemma X13_buffered_no_choices_witness :
  Main.bufferedResult example_host default_tags
    (buffered_response (jq "{'choices': [], 'usage': null}"))
  = Throw (InvalidStructure
             (Some (JObj [(js "choices", JArr []); (js "usage", JNull)]))).
Proof.
  refine (proj1 (X13_buffered_no_choices example_host default_tags
                   (buffered_response (jq "{'choices': [], 'usage': null}")) _ _)).
  - reflexivity.
  - right. eexists. split; [vm_compute; reflexivity|]. right. reflexivity.
Defined.

(** X14: the tests of the buffered response stop at the first falsy
    value but do not check what they index.  When the first choice is
    [null], or when the content is an array or an object, both variants
    throw a TypeError and not the error of an invalid structure. *)
Theorem X14_buffered_type_error (H : Host) (tags : jstring) (r : response)
    (ms : list (jstring * json)) (others : list json) :
  ok r = true ->
  data r = Some (JObj ms) ->
  (Json.own ms (js "choices") = Some (JArr (JNull :: others))
   \/ exists first msg content,
        Json.own ms (js "choices") = Some (JArr (JObj first :: others))
        /\ Json.own first (js "message") = Some (JObj msg)
        /\ Json.own msg (js "content") = Some content
        /\ ((exists l, content = JArr l) \/ exists l, content = JObj l)) ->
  Main.bufferedResult H tags r = Throw TypeError
  /\ forall hasSetResult,
       Part000.bufferedResult H tags hasSetResult r = ([], Throw TypeError).
Proof.
  intros Hok Hd [Hc|(first & msg & content & Hc & Hm & Hct & Hk)];
    unfold Main.bufferedResult, Part000.bufferedResult; rewrite Hok, Hd;
    cbn [Val.truthy negb Val.field]; rewrite Hc;
    cbn [Val.truthy Val.length_positive andb negb Val.item0 head Val.field].
  - split; reflexivity.
  - rewrite Hm. cbn [Val.truthy negb Val.field]. rewrite Hct.
    destruct Hk as [[l ->]|[l ->]]; split; reflexivity.
Qed.

Lemma X14_buffered_type_error_witness :
  Main.bufferedResult example_host default_tags
    (buffered_response (jq "{'choices': [null]}"))
  = Throw TypeError.
Proof.
  refine (proj1 (X14_buffered_type_error example_host default_tags
                   (buffered_response (jq "{'choices': [null]}"))
                   [(js "choices", JArr [JNull])] [] _ _ _)).
  - reflexivity.
  - vm_compute. reflexivity.
  - left. reflexivity.
Defined.

(** ** The parameters *)

Lemma key_neq_compute (a b : jstring) : Str.eqb a b = false -> a <> b.
Proof. unfold Str.eqb. apply bool_decide_eq_false. Qed.

(** X15: the parameters never make the call fail.  When [parameters] is
    not set, both variants send [temperature: 0.1].  When it is set to
    a text that is not JSON, [src/unnamed/part_000] sends
    [temperature: 0.1] again, but [src/main.js] sends another default:
    [temperature: 0.6], [top_p: 0.99] and the two penalties at 0.  In
    all these cases [model], [messages] and [stream] are the caller's. *)
Theorem X15_parameters_default (c : Config) (text from to : jstring)
    (o : options) :
  let sent := Main.requestBody c text from to o in
  let sent' := Part000.requestBody c text from to in
  (missing (parameters c) = true ->
   sent !! js "temperature" = Some (JNum (js "0.1"))
   /\ sent !! js "top_p" = None
   /\ sent' !! js "temperature" = Some (JNum (js "0.1")))
  /\ (Json.parse (or_default (parameters c) (jq "{'temperature': 0.1}")) = None ->
      sent !! js "temperature" = Some (JNum (js "0.6"))
      /\ sent !! js "top_p" = Some (JNum (js "0.99"))
      /\ sent !! js "frequency_penalty" = Some (JNum (js "0"))
      /\ sent !! js "presence_penalty" = Some (JNum (js "0"))
      /\ sent' !! js "temperature" = Some (JNum (js "0.1"))
      /\ sent' !! js "top_p" = None)
  /\ (missing (parameters c) = true
      \/ Json.parse (or_default (parameters c) (jq "{'temperature': 0.1}")) = None ->
      sent !! js "messages" = Some (Main.messages c text from to (detect o))
      /\ sent !! js "model" = Some (JStr (or_default (model c) (js "gpt-4o-mini")))
      /\ sent !! js "stream" = Some (JBool (Main.useStream c && setResult o))
      /\ sent' !! js "messages" = Some (Part000.messages c text from to)
      /\ sent' !! js "model"
         = Some (JStr (or_default (model c) (js "gpt-3.5-turbo")))
      /\ sent' !! js "stream" = Some (JBool (Part000.useStream c))).
Proof.
  cbv zeta.
  assert (U : missing (parameters c) = true ->
              Main.parameters_value c = JObj [(js "temperature", JNum (js "0.1"))]
              /\ Part000.parameters_value c
                 = JObj [(js "temperature", JNum (js "0.1"))]).
  { intros Hm. unfold Main.parameters_value, Part000.parameters_value.
    destruct (parameters c) as [[|x s]|]; try discriminate Hm;
      split; vm_compute; reflexivity. }
  assert (F : Json.parse (or_default (parameters c) (jq "{'temperature': 0.1}"))
              = None ->
              Main.parameters_value c
              = JObj [(js "temperature", JNum (js "0.6"));
                      (js "top_p", JNum (js "0.99"));
                      (js "frequency_penalty", JNum (js "0"));
                      (js "presence_penalty", JNum (js "0"))]
              /\ Part000.parameters_value c
                 = JObj [(js "temperature", JNum (js "0.1"))]).
  { intros Hp. unfold Main.parameters_value, Part000.parameters_value.
    rewrite Hp. split; reflexivity. }
  unfold Main.requestBody, Part000.requestBody.
  split; [|split].
  - intros Hm. destruct (U Hm) as [-> ->].
    rewrite !lookup_insert_ne by (apply key_neq_compute; reflexivity).
    rewrite !lookup_union.
    rewrite !lookup_insert_ne by (apply key_neq_compute; reflexivity).
    rewrite !lookup_singleton_ne by (apply key_neq_compute; reflexivity).
    repeat split; vm_compute; reflexivity.
  - intros Hp. destruct (F Hp) as [-> ->].
    rewrite !lookup_insert_ne by (apply key_neq_compute; reflexivity).
    rewrite !lookup_union.
    rewrite !lookup_insert_ne by (apply key_neq_compute; reflexivity).
    rewrite !lookup_singleton_ne by (apply key_neq_compute; reflexivity).
    repeat split; vm_compute; reflexivity.
  - intros Hc.
    assert (E : (Main.parameters_value c
                 = JObj [(js "temperature", JNum (js "0.1"))]
                 \/ Main.parameters_value c
                    = JObj [(js "temperature", JNum (js "0.6"));
                            (js "top_p", JNum (js "0.99"));
                            (js "frequency_penalty", JNum (js "0"));
                            (js "presence_penalty", JNum (js "0"))])
                /\ Part000.parameters_value c
                   = JObj [(js "temperature", JNum (js "0.1"))]).
    { destruct Hc as [Hm|Hp]; [destruct (U Hm)|destruct (F Hp)]; auto. }
    destruct E as [E1 ->].
    assert (N1 : spread (Main.parameters_value c) !! js "messages" = None
                 /\ spread (Main.parameters_value c) !! js "model" = None).
    { destruct E1 as [-> | ->]; split; vm_compute; reflexivity. }
    destruct N1 as [N1 N2].
    rewrite lookup_insert_eq.
    rewrite !(lookup_insert_ne _ (js "stream"))
      by (apply key_neq_compute; reflexivity).
    rewrite !lookup_union, N1, N2.
    change (spread (JObj [(js "temperature", JNum (js "0.1"))]) !! js "messages")
      with (@None json).
    change (spread (JObj [(js "temperature", JNum (js "0.1"))]) !! js "model")
      with (@None json).
    change (spread (JObj [(js "temperature", JNum (js "0.1"))]) !! js "stream")
      with (@None json).
    rewrite !lookup_insert_eq.
    rewrite !(lookup_insert_ne _ (js "messages") (js "model"))
      by (apply key_neq_compute; reflexivity).
    rewrite !(lookup_insert_ne _ (js "stream") (js "messages"))
      by (apply key_neq_compute; reflexivity).
    rewrite !lookup_insert_eq, !lookup_singleton_eq.
    repeat split.
Qed.

Lemma X15_parameters_default_witness :
  Main.requestBody
    {| apiKey := Some (js "sk-test"); requestPath := Some (js "api.example.com");
       model := None; system_prompt := None; user_prompt := None;
       parameters := Some (js "temperature=1"); removeTag := None;
       use_stream := None; language := ∅ |}
    (js "Bonjour") (js "fr") (js "en") streaming_options
  !! js "top_p" = Some (JNum (js "0.99")).
Proof.
  refine (proj1 (proj2 (proj1 (proj2
    (X15_parameters_default _ (js "Bonjour") (js "fr") (js "en")
       streaming_options)) _))).
  vm_compute. reflexivity.
Defined.

(** ** The prompts *)

Lemma replace_absent (p : placeholder) (v s : jstring) :
  no_dollar s = true -> Str.replace (placeholder_source p) v s = s.
Proof.
  intros Hs. unfold Str.replace.
  rewrite <- (app_nil_r s) at 1. rewrite (find_after_plain p s [] Hs).
  reflexivity.
Qed.

(** X16: a template without a dollar is the prompt, whatever the text
    and the languages are: this holds of the user prompt and of the
    system prompt of both variants, and so of the default system
    template. *)
Theorem X16_template_without_placeholder (c : Config) (text from to : jstring)
    (detect : option jstring) :
  (no_dollar (or_default (user_prompt c)
                (js "Translate the following text from $from to $to: $text"))
   = true ->
   Main.userPrompt c text from to detect
   = or_default (user_prompt c)
       (js "Translate the following text from $from to $to: $text")
   /\ Part000.userPrompt c text from to
      = or_default (user_prompt c)
          (js "Translate the following text from $from to $to: $text"))
  /\ (no_dollar (or_default (system_prompt c)
                   (js "You are a helpful translation assistant.")) = true ->
      Main.systemPrompt c from to detect
      = or_default (system_prompt c)
          (js "You are a helpful translation assistant.")
      /\ Part000.systemPrompt c text from to
         = or_default (system_prompt c)
             (js "You are a helpful translation assistant.")).
Proof.
  unfold Main.userPrompt, Part000.userPrompt, Main.systemPrompt,
    Part000.systemPrompt.
  change (js "$text") with (placeholder_source PText).
  change (js "$to") with (placeholder_source PTo).
  change (js "$from") with (placeholder_source PFrom).
  change (js "$detect") with (placeholder_source PDetect).
  split; intros Hn; split; rewrite !(replace_absent _ _ _ Hn); reflexivity.
Qed.

Lemma X16_template_without_placeholder_witness :
  Main.systemPrompt streaming_config (js "fr") (js "en") None
  = js "You are a helpful translation assistant.".
Proof.
  refine (proj1 (proj2 (X16_template_without_placeholder streaming_config
                          (js "Bonjour") (js "fr") (js "en") None) _)).
  reflexivity.
Defined.

(** X17: with the default user template, a text without a dollar and
    language names without a dollar, for codes whose lookup is decided
    by the entries of the language map (a code with an entry, or one
    that names no member of [Object.prototype]), the user prompt of both
    variants is [Translate the following text from], the name of the
    source language, [to], the name of the target language, a colon and
    the text, as it is. *)
Theorem X17_default_user_prompt (c : Config) (text from to : jstring)
    (detect : option jstring) :
  missing (user_prompt c) = true ->
  by_entries (language c) to = true ->
  by_entries (language c) from = true ->
  by_entries (language c) (detect_key detect) = true ->
  no_dollar text = true ->
  no_dollar (display_name (language c) to) = true ->
  no_dollar (display_name (language c) from) = true ->
  no_dollar (display_name_opt (language c) detect) = true ->
  Main.userPrompt c text from to detect
  = js "Translate the following text from " ++ display_name (language c) from
    ++ js " to " ++ display_name (language c) to ++ js ": " ++ text
  /\ Part000.userPrompt c text from to
     = js "Translate the following text from " ++ display_name (language c) from
       ++ js " to " ++ display_name (language c) to ++ js ": " ++ text.
Proof.
  intros Hm _ _ _ Ht Htl Hsl Hdl.
  assert (E : or_default (user_prompt c)
                (js "Translate the following text from $from to $to: $text")
              = template_source default_user_template).
  { destruct (user_prompt c) as [[|x s]|]; try discriminate Hm; reflexivity. }
  unfold Main.userPrompt, Part000.userPrompt. rewrite E.
  change (js "$text") with (placeholder_source PText).
  change (js "$to") with (placeholder_source PTo).
  change (js "$from") with (placeholder_source PFrom).
  change (js "$detect") with (placeholder_source PDetect).
  split; rewrite !replace_fills_first;
    auto using fill_first_plain;
    cbn [fill_first default_user_template placeholder_eqb template_source
         map concat piece_source];
    rewrite app_nil_r; reflexivity.
Qed.

Lemma X17_default_user_prompt_witness :
  Part000.userPrompt streaming_config (js "Bonjour") (js "fr") (js "en")
  = js "Translate the following text from fr to en: Bonjour".
Proof.
  refine (proj2 (X17_default_user_prompt streaming_config (js "Bonjour")
                   (js "fr") (js "en") None _ _ _ _ _ _ _ _)); reflexivity.
Defined.

(** ** What the tag strippers remove *)

Lemma find_None_tail (p s : jstring) :
  Str.find p s = None ->
  Str.strip_prefix p s = None
  /\ forall c s', s = c :: s' -> Str.find p s' = None.
Proof.
  rewrite find_unfold. destruct (Str.strip_prefix p s); [discriminate|].
  intros E. split; [reflexivity|]. intros c s' ->.
  destruct (Str.find p s') as [[a b]|]; [discriminate|reflexivity].
Qed.

Lemma find_None_suffix (p a b : jstring) :
  Str.find p (a ++ b) = None ->
  Str.find p b = None /\ Str.strip_prefix p b = None.
Proof.
  induction a as [|c a IH]; intros E.
  - split; [exact E|apply (find_None_tail _ _ E)].
  - apply IH. apply (proj2 (find_None_tail _ _ E) c). reflexivity.
Qed.

Lemma includes_false (s p : jstring) :
  Str.includes s p = false <-> Str.find p s = None.
Proof.
  unfold Str.includes. destruct (Str.find p s); split; congruence.
Qed.

(** The lazy [(.*?)] before a literal text stops at the first
    occurrence of that text. *)
Lemma run_lazy_literal (k : jstring -> option jstring) (l s : jstring) :
  (forall x, k x = Str.strip_prefix l x) ->
  Re.run AnyLazy k s
  = match Str.find l s with Some (_, b) => Some b | None => None end.
Proof.
  intros Hk. induction s as [|c s IH].
  - cbn [Re.run]. rewrite Hk, find_unfold.
    destruct (Str.strip_prefix l []); reflexivity.
  - rewrite find_unfold. cbn [Re.run] in *. rewrite Hk.
    destruct (Str.strip_prefix l (c :: s)); [reflexivity|].
    rewrite IH. destruct (Str.find l s) as [[a b]|]; reflexivity.
Qed.

(** The greedy [\s*] before a literal that does not begin with white
    space skips all the white space there is. *)
Lemma run_ws_literal (k : jstring -> option jstring) (l s : jstring) (c : N) :
  Str.is_ws c = false ->
  (forall x, k x = Str.strip_prefix (c :: l) x) ->
  Re.run WsGreedy k s = Str.strip_prefix (c :: l) (Str.trimStart s).
Proof.
  intros Hc Hk. induction s as [|d s IH]; [apply Hk|].
  cbn [Re.run Str.trimStart] in *. destruct (Str.is_ws d) eqn:Hd.
  - rewrite IH.
    destruct (Str.strip_prefix (c :: l) (Str.trimStart s)); [reflexivity|].
    rewrite Hk. cbn [Str.strip_prefix].
    destruct (N.eqb_spec c d) as [->|]; [congruence|reflexivity].
  - apply Hk.
Qed.

Lemma strip_prefix_app_l (a b s : jstring) :
  Str.strip_prefix (a ++ b) s
  = match Str.strip_prefix a s with
    | Some s' => Str.strip_prefix b s'
    | None => None
    end.
Proof.
  revert s. induction a as [|c a IH]; intros s; [reflexivity|].
  cbn [app Str.strip_prefix]. destruct s as [|d s]; [reflexivity|].
  destruct (c =? d); [apply IH|reflexivity].
Qed.

(** Removal: no match, a match, and the text before the first match. *)
Lemma remove_from_skip (r : regex) (x b : jstring) :
  Re.remove_from r (length x) (x ++ b) = Re.remove_from r 0 b.
Proof.
  induction x as [|c x IH]; [reflexivity|].
  cbn [length app Re.remove_from]. exact IH.
Qed.

Lemma remove_all_match (r : regex) (c : N) (m rest : jstring) :
  Re.match_here r ((c :: m) ++ rest) = Some rest ->
  Re.remove_all r ((c :: m) ++ rest) = Re.remove_all r rest.
Proof.
  intros E. unfold Re.remove_all.
  change ((c :: m) ++ rest) with (c :: (m ++ rest)) in *.
  cbn [Re.remove_from]. rewrite E.
  replace (length (c :: m ++ rest) - length rest)%nat with (S (length m))
    by (cbn [length]; rewrite length_app; lia).
  apply remove_from_skip.
Qed.

Lemma remove_all_no_match (r : regex) (a rest : jstring) :
  (forall a1 c a2, a = a1 ++ c :: a2 ->
                   Re.match_here r ((c :: a2) ++ rest) = None) ->
  Re.remove_all r (a ++ rest) = a ++ Re.remove_all r rest.
Proof.
  unfold Re.remove_all. induction a as [|c a IH]; intros Hn; [reflexivity|].
  change ((c :: a) ++ rest) with (c :: (a ++ rest)).
  cbn [Re.remove_from].
  change (c :: (a ++ rest)) with ((c :: a) ++ rest).
  rewrite (Hn [] c a eq_refl). cbn [app]. f_equal.
  apply IH. intros a1 d a2 ->. apply (Hn (c :: a1) d a2). reflexivity.
Qed.

Lemma remove_all_nil (r : regex) : Re.remove_all r [] = [].
Proof. reflexivity. Qed.

Lemma Part000_removeOne_regex (H : Host) (tag s : jstring) :
  Part000.removeOne H tag s = Some (Re.remove_all (Part000_regex tag) s).
Proof.
  unfold Part000.removeOne. rewrite Part000_tag_regex_total. reflexivity.
Qed.

Lemma run_literal (l s : jstring) :
  Re.run (Lit l) Some s = Str.strip_prefix l s.
Proof. cbn [Re.run]. destruct (Str.strip_prefix l s); reflexivity. Qed.

Lemma Part000_match (tag s : jstring) :
  Re.match_here (Part000_regex tag) s
  = match
      match Str.strip_prefix tag s with
      | Some s' =>
          match Str.find (Part000_closing tag) s' with
          | Some (_, b) => Some b
          | None => None
          end
      | None => None
      end
    with
    | Some e => Some e
    | None => Str.strip_prefix (Part000_selfClosing tag) s
    end.
Proof.
  unfold Re.match_here, Part000_regex.
  change (Re.run (Alt ?a ?b) Some s)
    with (match Re.run a Some s with Some e => Some e | None => Re.run b Some s end).
  rewrite run_literal.
  change (Re.run (Seq (Lit tag) (Seq AnyLazy (Lit (Part000_closing tag)))) Some s)
    with (match Str.strip_prefix tag s with
          | Some s' => Re.run AnyLazy (Re.run (Lit (Part000_closing tag)) Some) s'
          | None => None
          end).
  destruct (Str.strip_prefix tag s) as [s'|]; [|reflexivity].
  rewrite (run_lazy_literal _ (Part000_closing tag) s' (run_literal _)).
  reflexivity.
Qed.

Lemma Part000_regex_untouched (tag text : jstring) :
  Str.find (Part000_closing tag) text = None ->
  Str.find (Part000_selfClosing tag) text = None ->
  Re.remove_all (Part000_regex tag) text = text.
Proof.
  intros Hc Hs. rewrite <- (app_nil_r text) at 1.
  rewrite remove_all_no_match; [apply app_nil_r|].
  intros a1 c a2 ->. rewrite app_nil_r, Part000_match.
  destruct (find_None_suffix _ a1 (c :: a2) Hs) as [_ ->].
  destruct (Str.strip_prefix tag (c :: a2)) as [s'|] eqn:E; [|reflexivity].
  apply strip_prefix_Some in E. rewrite E, app_assoc in Hc.
  destruct (find_None_suffix _ _ s' Hc) as [-> _]. reflexivity.
Qed.

(** X18: in [src/unnamed/part_000] a tag that is not closed is not
    removed.  When, for each tag of a tag list that is not empty,
    neither the closing tag nor the self-closing tag occurs in the
    text, stripping only trims the text: an opening tag whose closing
    tag has not come yet stays in what is shown. *)
Theorem X18_unclosed_tag_stays (H : Host) (tags text : jstring) :
  tags <> [] ->
  Forall (fun tag => Str.includes text (Part000_closing tag) = false
                     /\ Str.includes text (Part000_selfClosing tag) = false)
    (Part000.tagsToRemove tags) ->
  Part000.applyTagRemoval H tags text = Some (Str.trim text).
Proof.
  intros Ht Hall. unfold Part000.applyTagRemoval.
  destruct tags as [|x tags]; [contradiction|].
  destruct text as [|c text]; [reflexivity|].
  assert (E : Part000.removeEach H (Part000.tagsToRemove (x :: tags)) (c :: text)
              = Some (c :: text)).
  { induction Hall as [|tag rest [Hc Hs] _ IH]; [reflexivity|].
    cbn [Part000.removeEach]. rewrite Part000_removeOne_regex.
    rewrite Part000_regex_untouched by (apply includes_false; assumption).
    exact IH. }
  rewrite E. reflexivity.
Qed.

Lemma X18_unclosed_tag_stays_witness :
  Part000.applyTagRemoval example_host default_tags
    (js " <think>still thinking")
  = Some (js "<think>still thinking").
Proof.
  apply (X18_unclosed_tag_stays example_host default_tags
           (js " <think>still thinking")).
  - discriminate.
  - vm_compute. repeat constructor.
Defined.

Lemma absent_suffix (c : N) (a1 a2 : jstring) (d : N) :
  absent c (a1 ++ d :: a2) = true -> (c =? d) = false.
Proof.
  unfold absent. rewrite forallb_app. cbn [forallb].
  intros E. apply andb_true_iff in E as [_ E].
  apply andb_true_iff in E as [E _]. apply negb_true_iff in E.
  rewrite N.eqb_sym. exact E.
Qed.

Lemma Part000_selfClosing_head (c : N) (tag' : jstring) :
  (c =? 62) = false ->
  exists t, Part000_selfClosing (c :: tag') = c :: t.
Proof.
  intros Hc. unfold Part000_selfClosing.
  change (js ">") with [62]. rewrite replace_one_cons by reflexivity.
  rewrite N.eqb_sym, Hc. eexists. reflexivity.
Qed.

Lemma Part000_no_match_before (c : N) (tag' a rest : jstring) :
  (c =? 62) = false ->
  absent c a = true ->
  forall a1 d a2, a = a1 ++ d :: a2 ->
    Re.match_here (Part000_regex (c :: tag')) ((d :: a2) ++ rest) = None.
Proof.
  intros Hc Ha a1 d a2 ->. rewrite Part000_match.
  pose proof (absent_suffix _ _ _ _ Ha) as Hd.
  destruct (Part000_selfClosing_head c tag' Hc) as [t ->].
  cbn [app Str.strip_prefix]. rewrite Hd. reflexivity.
Qed.

(** X19: what [src/unnamed/part_000] removes for one tag.  Before the
    first occurrence of the tag's first code unit the text is kept.  A
    tag followed by a body and by the first closing tag after it is
    removed with its body; a self-closing tag is removed; and in both
    cases the removal goes on in the rest of the text. *)
Theorem X19_part000_removes (H : Host) (c : N) (tag' a body b : jstring) :
  let tag := c :: tag' in
  (c =? 62) = false ->
  absent c a = true ->
  exists rest,
    Part000.removeOne H tag b = Some rest
    /\ (Str.find (Part000_closing tag) (body ++ Part000_closing tag ++ b)
        = Some (body, b) ->
        Part000.removeOne H tag (a ++ tag ++ body ++ Part000_closing tag ++ b)
        = Some (a ++ rest))
    /\ (Str.strip_prefix tag (Part000_selfClosing tag ++ b) = None ->
        Part000.removeOne H tag (a ++ Part000_selfClosing tag ++ b)
        = Some (a ++ rest)).
Proof.
  intros tag Hc Ha. exists (Re.remove_all (Part000_regex tag) b).
  rewrite !Part000_removeOne_regex.
  split; [reflexivity|]. split.
  - intros Hf. f_equal.
    rewrite remove_all_no_match by (apply Part000_no_match_before; assumption).
    f_equal.
    replace (tag ++ body ++ Part000_closing tag ++ b)
      with ((c :: (tag' ++ body ++ Part000_closing tag)) ++ b)
      by (subst tag; cbn [app]; rewrite <- !app_assoc; reflexivity).
    apply remove_all_match. rewrite Part000_match.
    replace ((c :: tag' ++ body ++ Part000_closing tag) ++ b)
      with (tag ++ body ++ Part000_closing tag ++ b)
      by (subst tag; cbn [app]; rewrite <- !app_assoc; reflexivity).
    rewrite strip_prefix_app, Hf. reflexivity.
  - intros Hn. f_equal.
    rewrite remove_all_no_match by (apply Part000_no_match_before; assumption).
    f_equal.
    destruct (Part000_selfClosing_head c tag' Hc) as [t Et].
    fold tag in Et. rewrite Et in *.
    apply remove_all_match. rewrite Part000_match, Hn.
    rewrite <- Et. apply strip_prefix_app.
Qed.

Lemma X19_part000_removes_witness :
  exists rest,
    Part000.removeOne example_host (js "<think>") (js " done<think/>.") = Some rest
    /\ Part000.removeOne example_host (js "<think>")
         (js "So: " ++ js "<think>" ++ js "a < b" ++ js "</think>"
          ++ js " done<think/>.")
       = Some (js "So: " ++ rest).
Proof.
  destruct (X19_part000_removes example_host 60 (js "think>") (js "So: ")
              (js "a < b") (js " done<think/>.")) as (rest & E & K & _).
  - reflexivity.
  - reflexivity.
  - exists rest. split; [exact E|]. apply K. vm_compute. reflexivity.
Defined.

Lemma Main_tag_regex_plain (c : N) (name : jstring) :
  Re.is_meta c = false ->
  Main.tag_regex (c :: name) = Some (Main_regex (c :: name) name).
Proof.
  intros Hc. unfold Main.tag_regex. cbn [Re.escape]. rewrite Hc.
  change (Str.substring 1 (c :: Re.escape name)) with (Re.escape name).
  assert (E : (c =? 92) = false).
  { destruct (N.eqb_spec c 92) as [->|]; [discriminate Hc|reflexivity]. }
  assert (E' : Re.is_syntax c = false)
    by (unfold Re.is_syntax; rewrite Hc; reflexivity).
  cbn [Re.literal]. rewrite E, E', !literal_escape. reflexivity.
Qed.

Lemma Main_removeOne_plain (H : Host) (c : N) (name s : jstring) :
  Re.is_meta c = false ->
  Main.removeOne H (c :: name) s
  = Some (Re.remove_all (Main_regex (c :: name) name) s).
Proof.
  intros Hc. unfold Main.removeOne. rewrite (Main_tag_regex_plain c name Hc).
  reflexivity.
Qed.

Lemma Main_match (tag name s : jstring) :
  Re.match_here (Main_regex tag name) s
  = match Str.strip_prefix tag s with
    | None => None
    | Some s' =>
        match Str.strip_prefix (js "/>") (Str.trimStart s') with
        | Some e => Some e
        | None =>
            match Str.strip_prefix (js ">") s' with
            | Some s'' =>
                match Str.find (Main_closing name) s'' with
                | Some (_, b) => Some b
                | None => None
                end
            | None => None
            end
        end
    end.
Proof.
  unfold Re.match_here, Main_regex.
  change (Re.run (Seq (Lit tag) ?r) Some s)
    with (match Str.strip_prefix tag s with
          | Some s' => Re.run r Some s'
          | None => None
          end).
  destruct (Str.strip_prefix tag s) as [s'|]; [|reflexivity].
  change (Re.run (Alt ?a ?b) Some s')
    with (match Re.run a Some s' with Some e => Some e | None => Re.run b Some s' end).
  change (Re.run (Seq WsGreedy (Lit (js "/>"))) Some s')
    with (Re.run WsGreedy (Re.run (Lit (js "/>")) Some) s').
  rewrite (run_ws_literal _ (js ">") s' 47 eq_refl (run_literal (js "/>"))).
  change (47 :: js ">") with (js "/>").
  destruct (Str.strip_prefix (js "/>") (Str.trimStart s')); [reflexivity|].
  change (Re.run (Seq (Lit (js ">")) ?r) Some s')
    with (match Str.strip_prefix (js ">") s' with
          | Some s'' => Re.run r Some s''
          | None => None
          end).
  destruct (Str.strip_prefix (js ">") s') as [s''|]; [|reflexivity].
  change (Re.run (Seq AnyLazy ?r) Some s'') with (Re.run AnyLazy (Re.run r Some) s'').
  apply run_lazy_literal. intros x.
  change (Re.run (Seq (Lit (js "</")) (Seq (Lit name) (Lit (js ">")))) Some x)
    with (match Str.strip_prefix (js "</") x with
          | Some x1 =>
              match Str.strip_prefix name x1 with
              | Some x2 => Re.run (Lit (js ">")) Some x2
              | None => None
              end
          | None => None
          end).
  unfold Main_closing. rewrite strip_prefix_app_l.
  destruct (Str.strip_prefix (js "</") x) as [x1|]; [|reflexivity].
  rewrite strip_prefix_app_l.
  destruct (Str.strip_prefix name x1) as [x2|]; [|reflexivity].
  apply run_literal.
Qed.

Lemma Main_no_match_before (c : N) (name a rest : jstring) :
  absent c a = true ->
  forall a1 d a2, a = a1 ++ d :: a2 ->
    Re.match_here (Main_regex (c :: name) name) ((d :: a2) ++ rest) = None.
Proof.
  intros Ha a1 d a2 ->. rewrite Main_match.
  cbn [app Str.strip_prefix]. rewrite (absent_suffix _ _ _ _ Ha). reflexivity.
Qed.

Lemma trimStart_ws_app (ws s : jstring) :
  forallb Str.is_ws ws = true -> Str.trimStart (ws ++ s) = Str.trimStart s.
Proof.
  induction ws as [|c ws IH]; [reflexivity|].
  cbn [forallb app Str.trimStart]. intros E.
  apply andb_true_iff in E as [-> E]. apply IH, E.
Qed.

(** X20: what [src/main.js] removes for one tag whose first code unit
    is not in the class of the escaping step.  Its pattern asks for the
    tag, then [>], a body and the first closing tag after it, made of
    [</], the tag without its first code unit, and [>]; or for the tag,
    white space and [/>].  Both are removed, the text before the first
    occurrence of the tag's first code unit is kept and the removal
    goes on after.  So the tag [<think] removes
    [<think>...</think>] and [<think />]. *)
Theorem X20_main_removes (H : Host) (c : N) (name a body ws b : jstring) :
  let tag := c :: name in
  Re.is_meta c = false ->
  absent c a = true ->
  exists rest,
    Main.removeOne H tag b = Some rest
    /\ (Str.find (Main_closing name) (body ++ Main_closing name ++ b)
        = Some (body, b) ->
        Main.removeOne H tag
          (a ++ tag ++ js ">" ++ body ++ Main_closing name ++ b)
        = Some (a ++ rest))
    /\ (forallb Str.is_ws ws = true ->
        Main.removeOne H tag (a ++ tag ++ ws ++ js "/>" ++ b)
        = Some (a ++ rest)).
Proof.
  intros tag Hc Ha. exists (Re.remove_all (Main_regex tag name) b).
  subst tag. rewrite !(Main_removeOne_plain H c name _ Hc).
  split; [reflexivity|]. split.
  - intros Hf. f_equal.
    rewrite remove_all_no_match by (apply Main_no_match_before; assumption).
    f_equal.
    replace ((c :: name) ++ js ">" ++ body ++ Main_closing name ++ b)
      with ((c :: (name ++ js ">" ++ body ++ Main_closing name)) ++ b)
      by (cbn [app]; rewrite <- !app_assoc; reflexivity).
    apply remove_all_match. rewrite Main_match.
    replace ((c :: name ++ js ">" ++ body ++ Main_closing name) ++ b)
      with ((c :: name) ++ js ">" ++ body ++ Main_closing name ++ b)
      by (cbn [app]; rewrite <- !app_assoc; reflexivity).
    rewrite strip_prefix_app.
    change (Str.trimStart (js ">" ++ body ++ Main_closing name ++ b))
      with (js ">" ++ body ++ Main_closing name ++ b).
    change (Str.strip_prefix (js "/>")
              (js ">" ++ body ++ Main_closing name ++ b))
      with (@None jstring).
    rewrite strip_prefix_app, Hf. reflexivity.
  - intros Hw. f_equal.
    rewrite remove_all_no_match by (apply Main_no_match_before; assumption).
    f_equal.
    replace ((c :: name) ++ ws ++ js "/>" ++ b)
      with ((c :: (name ++ ws ++ js "/>")) ++ b)
      by (cbn [app]; rewrite <- !app_assoc; reflexivity).
    apply remove_all_match. rewrite Main_match.
    replace ((c :: name ++ ws ++ js "/>") ++ b)
      with ((c :: name) ++ ws ++ js "/>" ++ b)
      by (cbn [app]; rewrite <- !app_assoc; reflexivity).
    rewrite strip_prefix_app, (trimStart_ws_app ws _ Hw).
    change (Str.trimStart (js "/>" ++ b)) with (js "/>" ++ b).
    rewrite strip_prefix_app. reflexivity.
Qed.

Lemma X20_main_removes_witness :
  exists rest,
    Main.removeOne example_host (js "<think") (js " done<think />.") = Some rest
    /\ Main.removeOne example_host (js "<think")
         (js "So: " ++ js "<think" ++ js ">" ++ js "a < b"
          ++ Main_closing (js "think") ++ js " done<think />.")
       = Some (js "So: " ++ rest).
Proof.
  destruct (X20_main_removes example_host 60 (js "think") (js "So: ")
              (js "a < b") [] (js " done<think />.")) as (rest & E & K & _).
  - reflexivity.
  - reflexivity.
  - exists rest. split; [exact E|]. apply K. vm_compute. reflexivity.
Defined.

(** X21: in [src/main.js], a text in which no tag of the list occurs is
    only trimmed, for tags whose first code unit is not in the class of
    the escaping step. *)
Theorem X21_main_without_tags (H : Host) (tags text : jstring) :
  Forall (fun tag => plain_head tag = true /\ Str.includes text tag = false)
    (Main.tagsToRemove tags) ->
  Main.applyRemoveTag H tags text = Some (Str.trim text).
Proof.
  intros Hall. unfold Main.applyRemoveTag.
  destruct text as [|x text]; [reflexivity|].
  destruct tags as [|y tags]; [reflexivity|].
  assert (E : Main.removeEach H (Main.tagsToRemove (y :: tags)) (x :: text)
              = Some (x :: text)).
  { induction Hall as [|tag rest [Hp Hi] _ IH]; [reflexivity|].
    cbn [Main.removeEach].
    destruct tag as [|c name]; [discriminate Hp|].
    cbn [plain_head] in Hp. apply negb_true_iff in Hp.
    rewrite (Main_removeOne_plain H c name _ Hp).
    replace (Re.remove_all (Main_regex (c :: name) name) (x :: text))
      with (x :: text); [exact IH|].
    symmetry. rewrite <- (app_nil_r (x :: text)) at 1.
    rewrite remove_all_no_match; [apply app_nil_r|].
    intros a1 d a2 Ea. rewrite app_nil_r, Main_match.
    apply includes_false in Hi. rewrite Ea in Hi.
    destruct (find_None_suffix _ a1 (d :: a2) Hi) as [_ ->]. reflexivity. }
  rewrite E. reflexivity.
Qed.

Lemma X21_main_without_tags_witness :
  Main.applyRemoveTag example_host default_tags (js "  Hello, world ")
  = Some (js "Hello, world").
Proof.
  apply (X21_main_without_tags example_host default_tags (js "  Hello, world ")).
  vm_compute. repeat constructor.
Defined.

Lemma never_opened_no_match (tag name s : jstring) :
  never_opened tag s = true ->
  forall a1 d a2, s = a1 ++ d :: a2 ->
    Re.match_here (Main_regex tag name) (d :: a2) = None.
Proof.
  intros Hs a1. revert s Hs. induction a1 as [|x a1 IH]; intros s Hs d a2 ->.
  - cbn [app never_opened] in Hs. apply andb_true_iff in Hs as [Hs _].
    rewrite Main_match.
    destruct (Str.strip_prefix tag (d :: a2)) as [[|e s']|]; try reflexivity.
    apply andb_true_iff in Hs as [Hs Hw]. apply andb_true_iff in Hs as [H1 H2].
    apply negb_true_iff in H1, H2, Hw.
    cbn [Str.trimStart]. rewrite Hw. cbn [Str.strip_prefix].
    change (js "/>") with (47 :: js ">"). change (js ">") with [62].
    cbn [Str.strip_prefix].
    rewrite (N.eqb_sym 47 e), (N.eqb_sym 62 e), H1, H2. reflexivity.
  - cbn [app never_opened] in Hs. apply andb_true_iff in Hs as [_ Hs].
    apply (IH _ Hs). reflexivity.
Qed.

(** X22: in [src/main.js] a tag is removed only where it is followed
    by [>], by [/] or by white space.  For tags whose first code unit
    is not in the class of the escaping step, a text in which no
    occurrence of a tag is followed by one of these is only trimmed.
    With a tag that ends in [>], as the default tags do, this is every
    text in which the tag is followed by an ordinary body. *)
Theorem X22_main_tag_with_bracket (H : Host) (tags text : jstring) :
  Forall (fun tag => plain_head tag = true /\ never_opened tag text = true)
    (Main.tagsToRemove tags) ->
  Main.applyRemoveTag H tags text = Some (Str.trim text).
Proof.
  intros Hall. unfold Main.applyRemoveTag.
  destruct text as [|x text]; [reflexivity|].
  destruct tags as [|y tags]; [reflexivity|].
  assert (E : Main.removeEach H (Main.tagsToRemove (y :: tags)) (x :: text)
              = Some (x :: text)).
  { induction Hall as [|tag rest [Hp Hi] _ IH]; [reflexivity|].
    cbn [Main.removeEach].
    destruct tag as [|c name]; [discriminate Hp|].
    cbn [plain_head] in Hp. apply negb_true_iff in Hp.
    rewrite (Main_removeOne_plain H c name _ Hp).
    replace (Re.remove_all (Main_regex (c :: name) name) (x :: text))
      with (x :: text); [exact IH|].
    symmetry. rewrite <- (app_nil_r (x :: text)) at 1.
    rewrite remove_all_no_match; [apply app_nil_r|].
    intros a1 d a2 Ea. rewrite app_nil_r.
    apply (never_opened_no_match _ _ _ Hi a1 d a2 Ea). }
  rewrite E. reflexivity.
Qed.

Lemma X22_main_tag_with_bracket_witness :
  Main.applyRemoveTag example_host default_tags
    (js "<think>plan</think> Bonjour <help>x</help> ")
  = Some (js "<think>plan</think> Bonjour <help>x</help>").
Proof.
  apply (X22_main_tag_with_bracket example_host default_tags
           (js "<think>plan</think> Bonjour <help>x</help> ")).
  vm_compute. repeat constructor.
Defined.

(** ** Patterns that always compile *)

Lemma Part000_removeEach_host (H H' : Host) (tags : list jstring) (s : jstring) :
  Part000.removeEach H tags s = Part000.removeEach H' tags s.
Proof.
  revert s. induction tags as [|tag tags IH]; intros s; [reflexivity|].
  cbn [Part000.removeEach]. rewrite !Part000_removeOne_regex. apply IH.
Qed.

Lemma Part000_requestFailed_no_syntax (H : Host) (r : response) :
  Part000.requestFailed H r <> SyntaxError.
Proof.
  unfold Part000.requestFailed.
  repeat match goal with
         | |- context [match ?x with _ => _ end] =>
             lazymatch x with
             | context [match _ with _ => _ end] => fail
             | _ => destruct x
             end
         end; discriminate.
Qed.

(** X23: the escaping step makes every tag a text that the pattern
    reads back as the tag itself, so the patterns of
    [src/unnamed/part_000] compile for every tag list: its stripper
    returns for every tag list and text, the same on every platform,
    and a call of this variant never throws a SyntaxError. *)
Theorem X23_part000_patterns (H H' : Host) (tags s : jstring)
    (text from to : jstring) (o : options) (net : request -> reply) :
  (forall tag, Re.literal (Re.escape tag) = Some tag)
  /\ (forall tag, Part000.tag_regex tag = Some (Part000_regex tag))
  /\ is_Some (Part000.applyTagRemoval H tags s)
  /\ Part000.applyTagRemoval H tags s = Part000.applyTagRemoval H' tags s
  /\ outcome (Part000.translate H text from to o net) <> Throw SyntaxError.
Proof.
  split; [exact literal_escape|].
  split; [exact Part000_tag_regex_total|].
  split; [apply Part000_applyTagRemoval_total|].
  split.
  - unfold Part000.applyTagRemoval.
    rewrite (Part000_removeEach_host H H'). reflexivity.
  - unfold Part000.translate.
    destruct (http o); [|discriminate]. cbn [negb].
    destruct (missing (apiKey (config o))); [discriminate|].
    destruct (missing (requestPath (config o))); [discriminate|].
    destruct (net _) as [|r]; [discriminate|].
    destruct (ok r); cbn [negb];
      [|intros [= E]; exact (Part000_requestFailed_no_syntax H r E)].
    destruct (Part000.useStream (config o)); cbn [negb].
    + destruct (data r) as [[| | |raw| |]|]; try discriminate.
      unfold Part000.decodeStream.
      match goal with
      | |- context [Part000.applyTagRemoval H ?a ?b] =>
          destruct (Part000_applyTagRemoval_total H a b) as [t ->]
      end.
      match goal with
      | |- context [Part000.accumulatedResult ?d] =>
          destruct t; destruct (Part000.accumulatedResult d);
          destruct (setResult o); discriminate
      end.
    + unfold Part000.bufferedResult.
      repeat match goal with
             | |- context [match Part000.applyTagRemoval H ?a ?b with _ => _ end] =>
                 destruct (Part000_applyTagRemoval_total H a b) as [? ->]
             | |- context [match ?x with _ => _ end] =>
                 lazymatch x with
                 | context [match _ with _ => _ end] => fail
                 | _ => destruct x
                 end
             end; discriminate.
Qed.

(** ** The URL of the request *)

(** X24: the URL of a request that [src/unnamed/part_000] sends has its
    scheme and ends in [/chat/completions].  The URL of a request that
    [src/main.js] sends is the [href] of a URL whose path ends in
    [/chat/completions], for every [URL] class that keeps the end of a
    path it is given. *)
Theorem X24_request_url (H : Host) (U : UrlClass) (text from to : jstring)
    (o : options) (net : request -> reply) :
  (forall req, In req (fetched (Part000.translate H text from to o net)) ->
     has_scheme (url req) = true
     /\ Str.endsWith (url req) chat_completions = true)
  /\ ((forall u p sfx, sfx = js "/" \/ sfx = chat_completions ->
         Str.endsWith p sfx = true ->
         Str.endsWith (pathname U (set_pathname U u p)) sfx = true) ->
      forall req, In req (fetched (Main.translate H U text from to o net)) ->
        exists u, url req = href U u
                  /\ Str.endsWith (pathname U u) chat_completions = true).
Proof.
  split.
  - intros req. unfold Part000.translate.
    destruct (http o); [|intros []]. cbn [negb].
    destruct (missing (apiKey (config o))); [intros []|].
    destruct (missing (requestPath (config o))); [intros []|].
    assert (K : forall r0 : request,
               url r0 = Part000.normalize (or_default (requestPath (config o)) []) ->
               has_scheme (url r0) = true
               /\ Str.endsWith (url r0) chat_completions = true).
    { intros r0 ->. apply Part000_normalize_shape. }
    destruct (net _) as [|r]; [intros [<-|[]]; apply K; reflexivity|].
    destruct (ok r); cbn [negb]; [|intros [<-|[]]; apply K; reflexivity].
    destruct (Part000.useStream (config o)); cbn [negb].
    + destruct (data r) as [[| | |raw| |]|];
        try (intros [<-|[]]; apply K; reflexivity).
      destruct (Part000.decodeStream _ _ _ _).
      intros [<-|[]]; apply K; reflexivity.
    + destruct (Part000.bufferedResult _ _ _ _).
      intros [<-|[]]; apply K; reflexivity.
  - intros end_kept req. unfold Main.translate.
    destruct (missing (apiKey (config o))); [intros []|].
    destruct (missing (requestPath (config o))); [intros []|].
    unfold Main.normalize.
    destruct (URL_new U _) as [u|]; [|intros []].
    assert (K : forall r0 : request,
               url r0 = href U (Main.withSuffix U u) ->
               exists u', url r0 = href U u'
                          /\ Str.endsWith (pathname U u') chat_completions = true).
    { intros r0 E. exists (Main.withSuffix U u). split; [exact E|].
      unfold Main.withSuffix.
      destruct (Str.endsWith (pathname U u) chat_completions) eqn:E1;
        cbn [negb]; [exact E1|].
      apply end_kept; [right; reflexivity|]. apply endsWith_slash_suffix.
      destruct (Str.endsWith (pathname U u) (js "/")) eqn:E2; cbn [negb];
        [exact E2|].
      apply end_kept; [left; reflexivity|]. apply endsWith_app. }
    destruct (Main.useStream (config o) && setResult o).
    + destruct (net _) as [|r]; [intros [<-|[]]; apply K; reflexivity|].
      destruct (ok r); cbn [negb]; [|intros [<-|[]]; apply K; reflexivity].
      destruct (body_stream r) as [s|]; [|intros [<-|[]]; apply K; reflexivity].
      destruct (Main.decodeStream _ _ _).
      intros [<-|[]]; apply K; reflexivity.
    + destruct (net _) as [|r]; intros [<-|[]]; apply K; reflexivity.
Qed.

Lemma X24_request_url_witness :
  (has_scheme (js "https://api.example.com/v1/chat/completions") = true
   /\ Str.endsWith (js "https://api.example.com/v1/chat/completions")
        chat_completions = true)
  /\ exists u,
       js "https://api.example.com/v1/chat/completions" = href simple_url u
       /\ Str.endsWith (pathname simple_url u) chat_completions = true.
Proof.
  pose proof (X24_request_url example_host simple_url (js "Bonjour") (js "fr")
                (js "en") streaming_options (fun _ => Rejects (js "offline")))
    as [P M].
  split.
  - exact (P (Part000_request streaming_config (js "Bonjour") (js "fr") (js "en"))
             (or_introl eq_refl)).
  - exact (M (end_kept _ simple_url_laws)
             (Main_request streaming_config (js "Bonjour") (js "fr") (js "en")
                streaming_options
                (js "https://api.example.com/v1/chat/completions"))
             (or_introl eq_refl)).
Defined.

(** ** Cutting text into pieces *)

Lemma split_shape (sep : N) (s : jstring) :
  exists pieces rest,
    Str.split sep s = pieces ++ [rest]
    /\ concat (map (fun l => l ++ [sep]) pieces) ++ rest = s
    /\ Forall (fun l => absent sep l = true) (pieces ++ [rest]).
Proof.
  induction s as [|c s (pieces & rest & E & J & F)].
  - exists [], []. repeat split. repeat constructor.
  - cbn [Str.split]. rewrite E. destruct (N.eqb_spec c sep) as [->|Hc].
    + exists ([] :: pieces), rest. repeat split.
      * cbn [map concat app]. rewrite J. reflexivity.
      * constructor; [reflexivity|exact F].
    + assert (Hc' : negb (c =? sep) = true)
        by (apply negb_true_iff, N.eqb_neq, Hc).
      destruct pieces as [|l pieces]; cbn [app] in *.
      * exists [], (c :: rest). cbn [map concat app] in *. subst s.
        repeat split. constructor; [|constructor].
        cbn [absent forallb]. rewrite Hc'. apply (Forall_inv F).
      * exists ((c :: l) :: pieces), rest. cbn [map concat app] in *.
        subst s. repeat split.
        constructor; [|exact (Forall_inv_tail F)].
        cbn [absent forallb]. rewrite Hc'. apply (Forall_inv F).
Qed.

Lemma split_app (sep : N) (a b : jstring) :
  Str.split sep (a ++ sep :: b) = Str.split sep a ++ Str.split sep b.
Proof.
  induction a as [|c a IH].
  - cbn [app Str.split]. rewrite N.eqb_refl. reflexivity.
  - change ((c :: a) ++ sep :: b) with (c :: (a ++ sep :: b)).
    cbn [Str.split]. rewrite IH. destruct (c =? sep); [reflexivity|].
    destruct (split_shape sep a) as (pieces & rest & -> & _ & _).
    destruct pieces; reflexivity.
Qed.

Lemma Part000_splitLines_concat (s : jstring) :
  concat (Part000.splitLines s) = s.
Proof.
  assert (K : forall n s, (length s <= n)%nat ->
                          concat (Part000.splitLines s) = s).
  { clear s. induction n as [|n IH]; intros [|c s] Hl;
      try reflexivity; cbn [length] in Hl; [lia|].
    rewrite splitLines_unfold.
    destruct (c =? 13).
    - destruct s as [|d s].
      + reflexivity.
      + destruct (d =? 10).
        * cbn [concat app]. rewrite IH; [reflexivity|cbn [length] in Hl; lia].
        * cbn [concat app]. rewrite IH; [reflexivity|lia].
    - destruct (c =? 10).
      + cbn [concat app]. rewrite IH; [reflexivity|lia].
      + pose proof (IH s ltac:(lia)) as E.
        destruct (Part000.splitLines s) as [|w ws].
        * cbn [concat] in *. subst s. reflexivity.
        * cbn [concat app] in *. rewrite E. reflexivity. }
  apply (K (length s)). lia.
Qed.

Lemma at_line_start_pieces (pieces : list jstring) :
  at_line_start (concat (map (fun l => l ++ [10]) pieces)) = true.
Proof.
  unfold at_line_start.
  induction pieces as [|l pieces IH] using rev_ind; [reflexivity|].
  rewrite map_app, concat_app. cbn [map concat]. rewrite app_nil_r.
  rewrite !app_assoc, last_snoc. reflexivity.
Qed.

(** X25: cutting loses no text.  The pieces that [split('\n')] gives the
    loop of [src/main.js] contain no line feed and, joined by line
    feeds, make the text again; the pieces and separators that
    [src/unnamed/part_000] cuts a response into make the response
    again.  After any chunks, the buffer of [src/main.js] is the text
    received since the last line feed: it contains no line feed and what
    came before it is empty or ends with a line feed. *)
Theorem X25_line_buffer (H : Host) (tags s : jstring) (cs : list jstring) :
  (exists pieces rest,
      Str.split 10 s = pieces ++ [rest]
      /\ concat (map (fun l => l ++ [10]) pieces) ++ rest = s
      /\ Forall (fun l => no_LF l = true) (pieces ++ [rest]))
  /\ concat (Part000.splitLines s) = s
  /\ no_LF (Main.chunkBuffer (Main.readAll H tags cs)) = true
  /\ exists pre,
       concat cs = pre ++ Main.chunkBuffer (Main.readAll H tags cs)
       /\ at_line_start pre = true.
Proof.
  split; [exact (split_shape 10 s)|].
  split; [apply Part000_splitLines_concat|].
  rewrite (Main_readAll_concat H tags cs). unfold Main.processChunk.
  rewrite Main_lines_keep_buffer. cbn [Main.chunkBuffer Main.start app].
  destruct (split_shape 10 (concat cs)) as (pieces & rest & -> & J & F).
  rewrite last_snoc. cbn [default from_option id].
  split.
  - apply Forall_app in F as [_ F]. exact (Forall_inv F).
  - eexists. split; [symmetry; exact J|]. apply at_line_start_pieces.
Qed.

(** ** The list of tags *)

Lemma trimStart_split (s : jstring) :
  exists a, s = a ++ Str.trimStart s.
Proof.
  induction s as [|c s [a IH]]; [exists []; reflexivity|].
  cbn [Str.trimStart]. destruct (Str.is_ws c).
  - exists (c :: a). cbn [app]. rewrite <- IH. reflexivity.
  - exists []. reflexivity.
Qed.

Lemma trim_split (s : jstring) :
  exists a b, s = a ++ Str.trim s ++ b.
Proof.
  unfold Str.trim, Str.trimEnd.
  destruct (trimStart_split s) as [a Ea].
  destruct (trimStart_split (rev (Str.trimStart s))) as [b Eb].
  exists a, (rev b). rewrite <- rev_app_distr, <- Eb, rev_involutive.
  exact Ea.
Qed.

Lemma trim_absent (c : N) (s : jstring) :
  absent c s = true -> absent c (Str.trim s) = true.
Proof.
  destruct (trim_split s) as (a & b & E). rewrite E at 1.
  unfold absent. rewrite !forallb_app.
  intros K. apply andb_true_iff in K as [_ K].
  apply andb_true_iff in K as [K _]. exact K.
Qed.

(** X26: the list of tags that both files take from the setting, by
    [split(','), map(trim)] and a filter that drops the empty ones.  Every tag in it is not
    empty, has no white space at its ends and contains no comma; the
    tags of two lists joined by a comma are the tags of the first
    followed by the tags of the second; and both files take the same
    tags from the same setting. *)
Theorem X26_tag_list (a b : jstring) :
  Forall (fun tag => tag <> [] /\ Str.trim tag = tag /\ absent 44 tag = true)
    (Main.tagsToRemove a)
  /\ Main.tagsToRemove (a ++ 44 :: b)
     = Main.tagsToRemove a ++ Main.tagsToRemove b
  /\ Part000.tagsToRemove a = Main.tagsToRemove a.
Proof.
  split; [|split; [|reflexivity]].
  - unfold Main.tagsToRemove.
    apply list.Forall_forall. intros tag Hin.
    apply list_elem_of_filter in Hin as [Hne Hin].
    apply list_elem_of_fmap in Hin as (piece & -> & Hin).
    split; [exact Hne|]. split; [apply trim_twice|].
    apply trim_absent.
    destruct (split_shape 44 a) as (pieces & rest & E & _ & F).
    rewrite E in Hin. rewrite list.Forall_forall in F.
    apply F, Hin.
  - unfold Main.tagsToRemove.
    rewrite split_app, map_app. apply filter_app.
Qed.

(** ** Stripping only takes text away *)

Lemma remove_from_sublist (r : regex) (s : jstring) :
  forall skip, sublist (Re.remove_from r skip s) s.
Proof.
  induction s as [|c s IH]; intros skip; [constructor|].
  cbn [Re.remove_from]. destruct skip as [|n].
  - destruct (Re.match_here r (c :: s)) as [rest|].
    + destruct (length (c :: s) - length rest)%nat.
      * apply sublist_skip, IH.
      * apply sublist_cons, IH.
    + apply sublist_skip, IH.
  - apply sublist_cons, IH.
Qed.

Lemma trim_sublist (s : jstring) : sublist (Str.trim s) s.
Proof.
  destruct (trim_split s) as (a & b & E). rewrite E at 2.
  apply sublist_inserts_l, sublist_inserts_r. reflexivity.
Qed.

Lemma Part000_removeEach_sublist (H : Host) (tags : list jstring) (s : jstring) :
  exists t, Part000.removeEach H tags s = Some t /\ sublist t s.
Proof.
  revert s. induction tags as [|tag tags IH]; intros s.
  - exists s. split; reflexivity.
  - cbn [Part000.removeEach]. rewrite Part000_removeOne_regex.
    destruct (IH (Re.remove_all (Part000_regex tag) s)) as (t & E & S).
    exists t. split; [exact E|].
    etransitivity; [exact S|]. apply remove_from_sublist.
Qed.

Lemma Main_removeEach_sublist (H : Host) (tags : list jstring) (s : jstring) :
  Forall (fun tag => plain_head tag = true) tags ->
  exists t, Main.removeEach H tags s = Some t /\ sublist t s.
Proof.
  intros F. revert s. induction F as [|tag tags Hp F IH]; intros s.
  - exists s. split; reflexivity.
  - cbn [Main.removeEach]. destruct tag as [|c name]; [discriminate Hp|].
    cbn [plain_head] in Hp. apply negb_true_iff in Hp.
    rewrite (Main_removeOne_plain H c name s Hp).
    destruct (IH (Re.remove_all (Main_regex (c :: name) name) s)) as (t & E & S).
    exists t. split; [exact E|].
    etransitivity; [exact S|]. apply remove_from_sublist.
Qed.

(** X27: the tag strippers only take text away.  What
    [src/unnamed/part_000] returns for a text is the text with some of
    its code units left out, in their order, and so is what
    [src/main.js] returns when every tag of the list starts with a
    character that the escaping step leaves alone; neither result is
    longer than the text. *)
Theorem X27_strip_only_removes (H : Host) (tags s : jstring) :
  (exists t, Part000.applyTagRemoval H tags s = Some t
             /\ sublist t s /\ (length t <= length s)%nat)
  /\ (Forall (fun tag => plain_head tag = true) (Main.tagsToRemove tags) ->
      exists t, Main.applyRemoveTag H tags s = Some t
                /\ sublist t s /\ (length t <= length s)%nat).
Proof.
  assert (L : forall t : jstring, sublist t s ->
                sublist t s /\ (length t <= length s)%nat).
  { intros t S. split; [exact S|]. apply sublist_length, S. }
  split.
  - unfold Part000.applyTagRemoval.
    destruct tags as [|x tags]; [exists s; split; [reflexivity|apply L; reflexivity]|].
    destruct s as [|c s]; [exists []; split; [reflexivity|apply L; reflexivity]|].
    destruct (Part000_removeEach_sublist H (Part000.tagsToRemove (x :: tags)) (c :: s))
      as (t & -> & S).
    exists (Str.trim t). split; [reflexivity|]. apply L.
    etransitivity; [apply trim_sublist|exact S].
  - intros F. unfold Main.applyRemoveTag.
    destruct s as [|c s]; [exists []; split; [reflexivity|apply L; reflexivity]|].
    destruct tags as [|x tags].
    + exists (Str.trim (c :: s)). split; [reflexivity|].
      apply L, trim_sublist.
    + destruct (Main_removeEach_sublist H (Main.tagsToRemove (x :: tags)) (c :: s) F)
        as (t & -> & S).
      exists (Str.trim t). split; [reflexivity|]. apply L.
      etransitivity; [apply trim_sublist|exact S].
Qed.

Lemma X27_strip_only_removes_witness :
  exists t, Main.applyRemoveTag example_host default_tags
              (js "<think>plan</think> Hello <help/>") = Some t
            /\ sublist t (js "<think>plan</think> Hello <help/>")
            /\ (length t <= length (js "<think>plan</think> Hello <help/>"))%nat.
Proof.
  apply (proj2 (X27_strip_only_removes example_host default_tags
                  (js "<think>plan</think> Hello <help/>"))).
  repeat constructor.
Defined.
